(** * The MPTCP send scheduler of net/mptcp/mptcp_sched.c

    A shallow embedding of the default ("shortest RTT first") scheduler -- the
    availability predicates, the subflow selector, the receive-buffer
    optimisation, the segment chooser -- and of the scheduler registry,
    followed by the properties proved about them.

    Conventions.
    - A [u32] of the C code is a [Z]; every addition, subtraction and product
      that C performs on 32 bits is wrapped explicitly with [u32].
    - A [struct sock *] naming a subflow is the position of that subflow in
      the connection's subflow list (the order of [mptcp_for_each_sub]); NULL
      is [None].  Pointer comparison [tp_it != tp] is comparison of positions.
    - Functions that mutate what their arguments point to return the new
      value next to their result. *)

From Stdlib Require Import ZArith Bool Lia.
From stdpp Require Import base list strings.
From Equations Require Import Equations.

Local Open Scope Z_scope.

(** ** Machine arithmetic *)

Definition u32 (x : Z) : Z := x mod 2 ^ 32.

(** The conversion [(int)x] of a 32-bit value (two's complement). *)
Definition s32 (x : Z) : Z :=
  let y := u32 x in if y <? 2 ^ 31 then y else y - 2 ^ 32.

Definition U32_MAX : Z := 0xffffffff.

(** ** Data *)

Inductive tcp_ca_state : Type :=
| TCP_CA_Open
| TCP_CA_Disorder
| TCP_CA_CWR
| TCP_CA_Recovery
| TCP_CA_Loss.

Definition tcp_ca_state_eqb (a b : tcp_ca_state) : bool :=
  match a, b with
  | TCP_CA_Open, TCP_CA_Open
  | TCP_CA_Disorder, TCP_CA_Disorder
  | TCP_CA_CWR, TCP_CA_CWR
  | TCP_CA_Recovery, TCP_CA_Recovery
  | TCP_CA_Loss, TCP_CA_Loss => true
  | _, _ => false
  end.

(** Modelled from the spec: [struct tcp_sock], [struct mptcp_tcp_sock] and
    [struct inet_connection_sock] are declared in headers that are not among
    the sources.  The record has one field for every member that
    mptcp_sched.c reads or writes through [tp], [tp->mptcp], [inet_csk(sk)]
    and [defsched_get_priv(tp)], and one field for each per-subflow quantity
    that the file obtains from a helper defined elsewhere and that §6 of the
    spec lists in the carrier contract: [sk_can_send] (the result of
    [mptcp_sk_can_send]), [is_reno] ([tcp_is_reno]), [packets_in_flight]
    ([tcp_packets_in_flight]), [mss_now] ([tcp_current_mss]) and [wnd_end]
    ([tcp_wnd_end]). *)
Record tcp_sock : Type := mk_tcp_sock {
  path_index : Z;
  sk_can_send : bool;
  pre_established : bool;
  pf : bool;
  icsk_ca_state : tcp_ca_state;
  is_reno : bool;
  snd_una : Z;
  high_seq : Z;
  fully_established : bool;
  second_packet : bool;
  last_end_data_seq : Z;
  packets_in_flight : Z;
  snd_cwnd : Z;
  snd_ssthresh : Z;
  mss_now : Z;
  write_seq : Z;
  snd_nxt : Z;
  wnd_end : Z;
  srtt_us : Z;
  rcv_low_prio : bool;
  low_prio : bool;
  sk_gso_max_segs : Z;
  last_rbuf_opti : Z
}.

(** Modelled from the spec: [struct sk_buff] and its control block are
    declared elsewhere; the fields are the ones mptcp_sched.c reads
    ([TCP_SKB_CB(skb)->seq], [skb->len], [TCP_SKB_CB(skb)->path_mask]) and
    the data-fin flag that [mptcp_is_data_fin] tests (§3, Segment). *)
Record sk_buff : Type := mk_sk_buff {
  skb_seq : Z;
  skb_len : Z;
  path_mask : Z;
  is_data_fin : bool
}.

Definition set_path_mask (m : Z) (skb : sk_buff) : sk_buff :=
  {| skb_seq := skb_seq skb; skb_len := skb_len skb; path_mask := m;
     is_data_fin := is_data_fin skb |}.

Definition set_snd_cwnd (v : Z) (tp : tcp_sock) : tcp_sock :=
  mk_tcp_sock (path_index tp) (sk_can_send tp) (pre_established tp) (pf tp)
    (icsk_ca_state tp) (is_reno tp) (snd_una tp) (high_seq tp)
    (fully_established tp) (second_packet tp) (last_end_data_seq tp)
    (packets_in_flight tp) v (snd_ssthresh tp) (mss_now tp) (write_seq tp)
    (snd_nxt tp) (wnd_end tp) (srtt_us tp) (rcv_low_prio tp) (low_prio tp)
    (sk_gso_max_segs tp) (last_rbuf_opti tp).

Definition set_snd_ssthresh (v : Z) (tp : tcp_sock) : tcp_sock :=
  mk_tcp_sock (path_index tp) (sk_can_send tp) (pre_established tp) (pf tp)
    (icsk_ca_state tp) (is_reno tp) (snd_una tp) (high_seq tp)
    (fully_established tp) (second_packet tp) (last_end_data_seq tp)
    (packets_in_flight tp) (snd_cwnd tp) v (mss_now tp) (write_seq tp)
    (snd_nxt tp) (wnd_end tp) (srtt_us tp) (rcv_low_prio tp) (low_prio tp)
    (sk_gso_max_segs tp) (last_rbuf_opti tp).

Definition set_last_rbuf_opti (v : Z) (tp : tcp_sock) : tcp_sock :=
  mk_tcp_sock (path_index tp) (sk_can_send tp) (pre_established tp) (pf tp)
    (icsk_ca_state tp) (is_reno tp) (snd_una tp) (high_seq tp)
    (fully_established tp) (second_packet tp) (last_end_data_seq tp)
    (packets_in_flight tp) (snd_cwnd tp) (snd_ssthresh tp) (mss_now tp)
    (write_seq tp) (snd_nxt tp) (wnd_end tp) (srtt_us tp) (rcv_low_prio tp)
    (low_prio tp) (sk_gso_max_segs tp) v.

(** The chronograph states of [tcp_chrono_start]; the scheduler only sets
    them, so a call is recorded as an entry of a log. *)
Inductive tcp_chrono : Type :=
| TCP_CHRONO_BUSY
| TCP_CHRONO_RWND_LIMITED
| TCP_CHRONO_SNDBUF_LIMITED.

Inductive chrono_owner : Type :=
| OnMeta
| OnSubflow (sk : nat).

(** Modelled from the spec: [struct mptcp_cb] and the meta socket are
    declared elsewhere.  One record holds what mptcp_sched.c reads from
    [mpcb] and [meta_sk]: the subflow list walked by [mptcp_for_each_sub],
    [dfin_path_index], the two fallback flags, the reinject queue, the bit
    [sk_shutdown & RCV_SHUTDOWN], the two queue heads ([tcp_send_head],
    [tcp_rtx_queue_head]), the result of [sk_stream_memory_free], the
    conjunction [sk_socket && test_bit(SOCK_NOSPACE, ...)], the results of
    [sk_stream_wspace] and [sk_stream_min_wspace], the clock [tcp_jiffies32]
    and the log of [tcp_chrono_start] calls. *)
Record mptcp_cb : Type := mk_mptcp_cb {
  conn_list : list tcp_sock;
  dfin_path_index : Z;
  infinite_mapping_snd : bool;
  send_infinite_mapping : bool;
  reinject_queue : list sk_buff;
  rcv_shutdown : bool;
  send_head : option sk_buff;
  rtx_queue_head : option sk_buff;
  stream_memory_free : bool;
  sock_nospace : bool;
  stream_wspace : Z;
  stream_min_wspace : Z;
  tcp_jiffies32 : Z;
  chrono_log : list (chrono_owner * tcp_chrono)
}.

(** ** Kernel helpers used by the scheduler and defined outside of it

    These are parameters of the development: every theorem holds for all
    of them. *)
Class KernelEnv : Type := {
  (** [before(a, b)] and [after(a, b)]: comparison of sequence numbers. *)
  before : Z -> Z -> bool;
  after : Z -> Z -> bool;
  (** [mptcp_pi_to_flag(path_index)]: the bit of a path in a path mask. *)
  mptcp_pi_to_flag : Z -> Z;
  usecs_to_jiffies : Z -> Z;
  (** [tcp_cwnd_test(tp, skb)]: how many packets the cwnd still takes. *)
  tcp_cwnd_test : tcp_sock -> sk_buff -> Z;
  (** [tcp_snd_wnd_test(tcp_sk(meta_sk), skb, mss_now)]. *)
  tcp_snd_wnd_test : mptcp_cb -> sk_buff -> Z -> bool
}.

(** Modelled from the spec: the helpers of the carrier contract (§6), which
    are defined outside of mptcp_sched.c; each one reads its field. *)
Definition mptcp_sk_can_send (tp : tcp_sock) : bool := sk_can_send tp.
Definition tcp_is_reno (tp : tcp_sock) : bool := is_reno tp.
Definition tcp_packets_in_flight (tp : tcp_sock) : Z := packets_in_flight tp.
Definition tcp_current_mss (tp : tcp_sock) : Z := mss_now tp.
Definition tcp_wnd_end (tp : tcp_sock) : Z := wnd_end tp.
Definition mptcp_is_data_fin (skb : sk_buff) : bool := is_data_fin skb.

(** ** Availability predicates *)

Section Availability.
Context `{KernelEnv}.

Definition mptcp_is_def_unavailable (tp : tcp_sock) : bool :=
  if negb (mptcp_sk_can_send tp) then true
  else if pre_established tp then true
  else if pf tp then true
  else false.

(** [icsk_ca_state == TCP_CA_Loss] and not yet out of the loss state. *)
Definition in_loss_state (tp : tcp_sock) : bool :=
  if tcp_ca_state_eqb (icsk_ca_state tp) TCP_CA_Loss then
    if negb (tcp_is_reno tp) then true
    else negb (snd_una tp =? high_seq tp)
  else false.

(** Not fully established, and the segment would not be in order. *)
Definition out_of_order (tp : tcp_sock) (skb : option sk_buff) : bool :=
  if negb (fully_established tp) then
    match skb with
    | Some k => second_packet tp && negb (last_end_data_seq tp =? skb_seq k)
    | None => false
    end
  else false.

(** Lines 92-93: the send window of the subflow would be exceeded. *)
Definition snd_wnd_bypassed (tp : tcp_sock) (skb : option sk_buff)
    (zero_wnd_test : bool) : bool :=
  match skb with
  | Some k =>
      zero_wnd_test &&
      after (u32 (write_seq tp + Z.min (skb_len k) (tcp_current_mss tp)))
            (tcp_wnd_end tp)
  | None => false
  end.

Definition mptcp_is_temp_unavailable (tp : tcp_sock) (skb : option sk_buff)
    (zero_wnd_test : bool) : bool :=
  if in_loss_state tp then true
  else if out_of_order tp skb then true
  else
    let in_flight := tcp_packets_in_flight tp in
    if snd_cwnd tp <=? in_flight then true
    else
      let mss_now := tcp_current_mss tp in
      let space := u32 ((snd_cwnd tp - in_flight) * mss_now) in
      if space <=? u32 (write_seq tp - snd_nxt tp) then true
      else if zero_wnd_test && negb (before (write_seq tp) (tcp_wnd_end tp))
      then true
      else if snd_wnd_bypassed tp skb zero_wnd_test then true
      else false.

Definition mptcp_is_available (tp : tcp_sock) (skb : option sk_buff)
    (zero_wnd_test : bool) : bool :=
  negb (mptcp_is_def_unavailable tp) &&
  negb (mptcp_is_temp_unavailable tp skb zero_wnd_test).

Definition mptcp_dont_reinject_skb (tp : tcp_sock) (skb : option sk_buff)
    : bool :=
  match skb with
  | Some k =>
      negb (Z.land (mptcp_pi_to_flag (path_index tp)) (path_mask k) =? 0)
  | None => false
  end.

Definition subflow_is_backup (tp : tcp_sock) : bool :=
  rcv_low_prio tp || low_prio tp.

Definition subflow_is_active (tp : tcp_sock) : bool :=
  negb (rcv_low_prio tp) && negb (low_prio tp).

End Availability.

(** Matching on a value while keeping the equation that it satisfies. *)
Definition inspect {A : Type} (a : A) : {b : A | a = b} := exist _ a eq_refl.

(** ** Walking the subflow list

    [mptcp_for_each_sub(mpcb, mptcp) { body }]: the body runs on each
    subflow of the list in order, [Continue] standing for reaching the end
    of the body (or [continue]) and [Break] for leaving the loop ([break],
    or a [return] from inside it).  Next to the final loop state the walk
    gives the positions the body was run on, in order; this second
    component is ghost data, used only to count visits. *)

Inductive loop_ctl (A : Type) : Type :=
| Continue (a : A)
| Break (a : A).
Arguments Continue {A} a.
Arguments Break {A} a.

Fixpoint for_each_sub_from {A : Type} (i : nat) (subs : list tcp_sock)
    (body : nat -> tcp_sock -> A -> loop_ctl A) (a : A) : A * list nat :=
  match subs with
  | [] => (a, [])
  | tp :: rest =>
      match body i tp a with
      | Continue a' =>
          let '(r, visited) := for_each_sub_from (S i) rest body a' in
          (r, i :: visited)
      | Break a' => (a', [i])
      end
  end.

Definition mptcp_for_each_sub {A : Type} (subs : list tcp_sock)
    (body : nat -> tcp_sock -> A -> loop_ctl A) (a : A) : A * list nat :=
  for_each_sub_from 0 subs body a.

(** ** The subflow selector *)

(** The local variables of [get_subflow_from_selectors]. *)
Record sel_state : Type := mk_sel_state {
  bestsk : option nat;
  min_srtt : Z;
  found_unused : bool;
  found_unused_una : bool
}.

Definition sel_init : sel_state :=
  {| bestsk := None; min_srtt := U32_MAX;
     found_unused := false; found_unused_una := false |}.

(** The two classes of subflows a pass of the selector is made for. *)
Inductive pass_kind : Type :=
| ActivePass
| BackupPass.

(** The entries of the ghost log of a call of [get_available_subflow]: a
    pass of the selector, with the positions it visited, and the
    [goto restart]. *)
Inductive sched_event : Type :=
| EvPass (kind : pass_kind) (visited : list nat)
| EvRestart.

(** One run of the code between the label [restart] and either a [return]
    or the [goto restart]. *)
Inductive round_outcome : Type :=
| Return (sk : option nat) (skb : option sk_buff)
| GotoRestart (skb : option sk_buff).

Section Selector.
Context `{KernelEnv}.

(** The body of the loop of [get_subflow_from_selectors] on subflow [tp] at
    position [i]. *)
Definition selector_body (skb : option sk_buff) (selector : tcp_sock -> bool)
    (zero_wnd_test : bool) (i : nat) (tp : tcp_sock) (st : sel_state)
    : sel_state :=
  if negb (selector tp) then st
  else
    let unused := negb (mptcp_dont_reinject_skb tp skb) in
    if negb unused && found_unused st then st
    else if mptcp_is_def_unavailable tp then st
    else if mptcp_is_temp_unavailable tp skb zero_wnd_test then
      if unused then
        {| bestsk := bestsk st; min_srtt := min_srtt st;
           found_unused := found_unused st; found_unused_una := true |}
      else st
    else
      let st1 :=
        if unused then
          if negb (found_unused st) then
            {| bestsk := None; min_srtt := U32_MAX;
               found_unused := true;
               found_unused_una := found_unused_una st |}
          else
            {| bestsk := bestsk st; min_srtt := min_srtt st;
               found_unused := true;
               found_unused_una := found_unused_una st |}
        else st in
      if srtt_us tp <? min_srtt st1 then
        {| bestsk := Some i; min_srtt := srtt_us tp;
           found_unused := found_unused st1;
           found_unused_una := found_unused_una st1 |}
      else st1.

(** What is written to [*force] after the loop. *)
Definition sel_force (st : sel_state) : bool :=
  match bestsk st with
  | Some _ => if found_unused st then true else false
  | None => if found_unused_una st then true else false
  end.

Definition get_subflow_from_selectors (subs : list tcp_sock)
    (skb : option sk_buff) (selector : tcp_sock -> bool)
    (zero_wnd_test : bool) : option nat * bool * list nat :=
  let '(st, visited) :=
    mptcp_for_each_sub subs
      (fun i tp st => Continue (selector_body skb selector zero_wnd_test i tp st))
      sel_init in
  (bestsk st, sel_force st, visited).

(** The loop of the data-fin case of [get_available_subflow]; the loop
    state is the subflow returned from inside the loop, if any. *)
Definition dfin_walk_body (mpcb : mptcp_cb) (skb : option sk_buff)
    (zero_wnd_test : bool) (i : nat) (tp : tcp_sock) (found : option nat)
    : loop_ctl (option nat) :=
  if (path_index tp =? dfin_path_index mpcb) &&
     mptcp_is_available tp skb zero_wnd_test
  then Break (Some i)
  else Continue found.

Definition answer_data_fin (mpcb : mptcp_cb) (skb : option sk_buff)
    (zero_wnd_test : bool) : option nat :=
  if rcv_shutdown mpcb &&
     match skb with Some k => mptcp_is_data_fin k | None => false end
  then
    fst (mptcp_for_each_sub (conn_list mpcb)
           (dfin_walk_body mpcb skb zero_wnd_test) None)
  else None.

Definition find_best_round (subs : list tcp_sock) (zero_wnd_test : bool)
    (looping : bool) (skb : option sk_buff)
    : round_outcome * list sched_event :=
  let '(sk, force, v1) :=
    get_subflow_from_selectors subs skb subflow_is_active zero_wnd_test in
  if force then (Return sk skb, [EvPass ActivePass v1])
  else
    let '(sk, force, v2) :=
      get_subflow_from_selectors subs skb subflow_is_backup zero_wnd_test in
    let passes := [EvPass ActivePass v1; EvPass BackupPass v2] in
    match skb with
    | Some k =>
        if negb force then
          let skb' := Some (set_path_mask 0 k) in
          if negb looping then (GotoRestart skb', passes ++ [EvRestart])
          else (Return sk skb', passes)
        else (Return sk skb, passes)
    | None => (Return sk skb, passes)
    end.

(** The part of [get_available_subflow] from the label [restart] on.
    [looping] is set by the only [goto restart], which is taken only when
    it is clear: this is what makes the recursion well founded. *)
Equations? find_best (subs : list tcp_sock) (zero_wnd_test : bool)
    (looping : bool) (skb : option sk_buff)
    : option nat * option sk_buff * list sched_event
    by wf (if looping then 0 else 1)%nat lt :=
find_best subs zero_wnd_test looping skb
    with inspect (find_best_round subs zero_wnd_test looping skb) := {
  | exist _ (Return sk skb', log) _ => (sk, skb', log)
  | exist _ (GotoRestart skb', log) e =>
      let '(sk, skb'', log') := find_best subs zero_wnd_test true skb' in
      (sk, skb'', log ++ log') }.
Proof.
  unfold find_best_round in e.
  destruct (get_subflow_from_selectors subs skb subflow_is_active _)
    as [[? []] ?]; [discriminate |].
  destruct (get_subflow_from_selectors subs skb subflow_is_backup _)
    as [[? []] ?]; destruct skb, looping; simpl in e;
    try discriminate; lia.
Qed.

(** [get_available_subflow] with the ghost log of selector passes. *)
Definition get_available_subflow_log (mpcb : mptcp_cb) (skb : option sk_buff)
    (zero_wnd_test : bool) : option nat * option sk_buff * list sched_event :=
  match answer_data_fin mpcb skb zero_wnd_test with
  | Some sk => (Some sk, skb, [])
  | None => find_best (conn_list mpcb) zero_wnd_test false skb
  end.

(** [get_available_subflow(meta_sk, skb, zero_wnd_test)]: the subflow
    returned and the segment as the call leaves it. *)
Definition get_available_subflow (mpcb : mptcp_cb) (skb : option sk_buff)
    (zero_wnd_test : bool) : option nat * option sk_buff :=
  let '(sk, skb', _) := get_available_subflow_log mpcb skb zero_wnd_test in
  (sk, skb').

End Selector.

(** ** The receive-buffer optimisation *)

Definition set_conn_list (subs : list tcp_sock) (mpcb : mptcp_cb) : mptcp_cb :=
  mk_mptcp_cb subs (dfin_path_index mpcb) (infinite_mapping_snd mpcb)
    (send_infinite_mapping mpcb) (reinject_queue mpcb) (rcv_shutdown mpcb)
    (send_head mpcb) (rtx_queue_head mpcb) (stream_memory_free mpcb)
    (sock_nospace mpcb) (stream_wspace mpcb) (stream_min_wspace mpcb)
    (tcp_jiffies32 mpcb) (chrono_log mpcb).

(** Modelled from the spec: §6 takes the chronograph setters as opaque
    markers; a call of [tcp_chrono_start] adds an entry to the log. *)
Definition tcp_chrono_start (owner : chrono_owner) (c : tcp_chrono)
    (mpcb : mptcp_cb) : mptcp_cb :=
  mk_mptcp_cb (conn_list mpcb) (dfin_path_index mpcb)
    (infinite_mapping_snd mpcb) (send_infinite_mapping mpcb)
    (reinject_queue mpcb) (rcv_shutdown mpcb) (send_head mpcb)
    (rtx_queue_head mpcb) (stream_memory_free mpcb) (sock_nospace mpcb)
    (stream_wspace mpcb) (stream_min_wspace mpcb) (tcp_jiffies32 mpcb)
    (chrono_log mpcb ++ [(owner, c)]).

(** Modelled from the spec: the queue contract (§6), read off the fields of
    the connection. *)
Definition tcp_rtx_queue_head (mpcb : mptcp_cb) : option sk_buff :=
  rtx_queue_head mpcb.
Definition tcp_send_head (mpcb : mptcp_cb) : option sk_buff := send_head mpcb.
Definition sk_stream_memory_free (mpcb : mptcp_cb) : bool :=
  stream_memory_free mpcb.

Section RcvBufOptimization.
Context `{KernelEnv}.

(** [tp_it != tp && (path_mask(skb_head) & mptcp_pi_to_flag(tp_it))]: the
    subflow at position [i] is another subflow that already carries the
    segment. *)
Definition other_carrier (sk : nat) (skb_head : sk_buff) (i : nat)
    (tp_it : tcp_sock) : bool :=
  negb (i =? sk)%nat &&
  negb (Z.land (path_mask skb_head) (mptcp_pi_to_flag (path_index tp_it)) =? 0).

(** The assignments of lines 301-307 to [tp_it]. *)
Definition penalize (tp_it : tcp_sock) : tcp_sock :=
  let prior_cwnd := snd_cwnd tp_it in
  let tp_it := set_snd_cwnd (Z.max (Z.shiftr (snd_cwnd tp_it) 1) 1) tp_it in
  if snd_ssthresh tp_it <=? prior_cwnd then
    set_snd_ssthresh (Z.max (Z.shiftr (snd_ssthresh tp_it) 1) 2) tp_it
  else tp_it.

(** The body of the loop "Half the cwnd of the slow flows", which always
    runs to its end.  The loop state is the subflow list itself: the body
    reads [tp] (position [sk]) and [tp_it] (position [i]) from it and
    writes both back. *)
Definition penalize_body (sk : nat) (skb_head : sk_buff) (now : Z) (i : nat)
    (subs : list tcp_sock) : list tcp_sock :=
  match subs !! sk, subs !! i with
  | Some tp, Some tp_it =>
      if other_carrier sk skb_head i tp_it then
        if (srtt_us tp <? srtt_us tp_it) &&
           tcp_ca_state_eqb (icsk_ca_state tp_it) TCP_CA_Open
        then
          alter (set_last_rbuf_opti now) sk (<[i := penalize tp_it]> subs)
        else subs
      else subs
  | _, _ => subs
  end.

(** The body of the loop that decides [do_retrans]. *)
Definition retrans_body (tp : tcp_sock) (sk : nat) (skb_head : sk_buff)
    (i : nat) (tp_it : tcp_sock) (do_retrans : bool) : loop_ctl bool :=
  if other_carrier sk skb_head i tp_it then
    if snd_cwnd tp_it <=? 4 then Break true
    else if srtt_us tp_it <=? u32 (4 * srtt_us tp) then Break false
    else Continue true
  else Continue do_retrans.

Definition do_retrans_scan (subs : list tcp_sock) (tp : tcp_sock) (sk : nat)
    (skb_head : sk_buff) : bool :=
  fst (mptcp_for_each_sub subs (retrans_body tp sk skb_head) false).

(** From the label [retrans] to the end of the function. *)
Definition retrans_decision (subs : list tcp_sock) (sk : nat)
    (skb_head : sk_buff) : option sk_buff :=
  match subs !! sk with
  | Some tp =>
      if Z.land (path_mask skb_head) (mptcp_pi_to_flag (path_index tp)) =? 0
      then
        if do_retrans_scan subs tp sk skb_head &&
           mptcp_is_available tp (Some skb_head) false
        then Some skb_head
        else None
      else None
  | None => None
  end.

(** Whether the function reaches the penalisation loop: neither of the two
    [goto retrans] is taken. *)
Definition penalization_runs (mpcb : mptcp_cb) (tp : tcp_sock) (penal : Z)
    : bool :=
  if (penal =? 0) && sk_stream_memory_free mpcb then false
  else if u32 (tcp_jiffies32 mpcb - last_rbuf_opti tp) <?
          usecs_to_jiffies (Z.shiftr (srtt_us tp) 3)
  then false
  else true.

Definition penalize_slow_flows (mpcb : mptcp_cb) (sk : nat)
    (skb_head : sk_buff) : list tcp_sock :=
  fst (mptcp_for_each_sub (conn_list mpcb)
         (fun i _ subs =>
            Continue (penalize_body sk skb_head (tcp_jiffies32 mpcb) i subs))
         (conn_list mpcb)).

(** [mptcp_rcv_buf_optimization(sk, penal)]; a [sk] that names no subflow
    of the connection cannot occur and gives NULL. *)
Definition mptcp_rcv_buf_optimization (mpcb : mptcp_cb) (sk : nat)
    (penal : Z) : mptcp_cb * option sk_buff :=
  match conn_list mpcb !! sk with
  | None => (mpcb, None)
  | Some tp =>
      match tcp_rtx_queue_head mpcb with
      | None => (mpcb, None)
      | Some skb_head =>
          let mpcb :=
            if penalization_runs mpcb tp penal then
              set_conn_list (penalize_slow_flows mpcb sk skb_head) mpcb
            else mpcb in
          (mpcb, retrans_decision (conn_list mpcb) sk skb_head)
      end
  end.

End RcvBufOptimization.

(** ** The segment chooser *)

(** The three places a [struct sk_buff *] handled by the chooser can point
    to; they are distinct objects. *)
Inductive skb_ref : Type :=
| ReinjectHead
| SendHead
| RtxHead.

(** [skb_peek(&mpcb->reinject_queue)], [tcp_send_head(meta_sk)] and
    [tcp_rtx_queue_head(meta_sk)] as values. *)
Definition skb_deref (mpcb : mptcp_cb) (r : skb_ref) : option sk_buff :=
  match r with
  | ReinjectHead => head (reinject_queue mpcb)
  | SendHead => tcp_send_head mpcb
  | RtxHead => tcp_rtx_queue_head mpcb
  end.

(** The pointer itself: NULL when the queue is empty. *)
Definition skb_ptr (mpcb : mptcp_cb) (r : skb_ref) : option skb_ref :=
  match skb_deref mpcb r with
  | Some _ => Some r
  | None => None
  end.

(** Writing through the pointer. *)
Definition skb_store (r : skb_ref) (skb : sk_buff) (mpcb : mptcp_cb)
    : mptcp_cb :=
  match r with
  | ReinjectHead =>
      mk_mptcp_cb (conn_list mpcb) (dfin_path_index mpcb)
        (infinite_mapping_snd mpcb) (send_infinite_mapping mpcb)
        (match reinject_queue mpcb with [] => [] | _ :: q => skb :: q end)
        (rcv_shutdown mpcb) (send_head mpcb) (rtx_queue_head mpcb)
        (stream_memory_free mpcb) (sock_nospace mpcb) (stream_wspace mpcb)
        (stream_min_wspace mpcb) (tcp_jiffies32 mpcb) (chrono_log mpcb)
  | SendHead =>
      mk_mptcp_cb (conn_list mpcb) (dfin_path_index mpcb)
        (infinite_mapping_snd mpcb) (send_infinite_mapping mpcb)
        (reinject_queue mpcb) (rcv_shutdown mpcb)
        (match send_head mpcb with None => None | Some _ => Some skb end)
        (rtx_queue_head mpcb) (stream_memory_free mpcb) (sock_nospace mpcb)
        (stream_wspace mpcb) (stream_min_wspace mpcb) (tcp_jiffies32 mpcb)
        (chrono_log mpcb)
  | RtxHead =>
      mk_mptcp_cb (conn_list mpcb) (dfin_path_index mpcb)
        (infinite_mapping_snd mpcb) (send_infinite_mapping mpcb)
        (reinject_queue mpcb) (rcv_shutdown mpcb) (send_head mpcb)
        (match rtx_queue_head mpcb with None => None | Some _ => Some skb end)
        (stream_memory_free mpcb) (sock_nospace mpcb) (stream_wspace mpcb)
        (stream_min_wspace mpcb) (tcp_jiffies32 mpcb) (chrono_log mpcb)
  end.

(** The signature of [sched_ops->get_subflow(meta_sk, skb, zero_wnd_test)]:
    the subflow chosen and the connection as the call leaves it. *)
Definition get_subflow_t : Type :=
  mptcp_cb -> option skb_ref -> bool -> option nat * mptcp_cb.

(** What [mptcp_next_segment] returns and writes to [*reinject], [*subsk]
    and [*limit]. *)
Record next_segment_result : Type := mk_next_segment_result {
  ns_skb : option sk_buff;
  ns_reinject : Z;
  ns_subsk : option nat;
  ns_limit : Z
}.

Section SegmentChooser.
Context `{KernelEnv}.

(** [get_available_subflow] as an entry of the scheduler table: the
    segment is read through the pointer and written back. *)
Definition default_get_subflow : get_subflow_t :=
  fun mpcb skb zero_wnd_test =>
    let '(sk, skb') :=
      get_available_subflow mpcb (skb ≫= skb_deref mpcb) zero_wnd_test in
    (sk, match skb, skb' with
         | Some r, Some k => skb_store r k mpcb
         | _, _ => mpcb
         end).

Variable get_subflow : get_subflow_t.

(** [__mptcp_next_segment(meta_sk, &reinject)]. *)
Definition __mptcp_next_segment (mpcb : mptcp_cb)
    : mptcp_cb * option skb_ref * Z :=
  if infinite_mapping_snd mpcb || send_infinite_mapping mpcb then
    (mpcb, skb_ptr mpcb SendHead, 0)
  else
    match skb_ptr mpcb ReinjectHead with
    | Some skb => (mpcb, Some skb, 1)
    | None =>
        match skb_ptr mpcb SendHead with
        | Some skb => (mpcb, Some skb, 0)
        | None =>
            if sock_nospace mpcb &&
               (stream_wspace mpcb <? stream_min_wspace mpcb)
            then
              let mpcb := tcp_chrono_start OnMeta TCP_CHRONO_SNDBUF_LIMITED mpcb in
              let '(subsk, mpcb) := get_subflow mpcb None false in
              match subsk with
              | None => (mpcb, None, 0)
              | Some sk =>
                  let '(mpcb, skb) := mptcp_rcv_buf_optimization mpcb sk 0 in
                  match skb with
                  | Some _ => (mpcb, Some RtxHead, -1)
                  | None =>
                      (tcp_chrono_start (OnSubflow sk)
                         TCP_CHRONO_SNDBUF_LIMITED mpcb, None, 0)
                  end
              end
            else (mpcb, None, 0)
        end
    end.

(** Lines 449-452: [max_segs], the number of segments the cwnd and the
    NIC accept. *)
Definition split_max_segs (subtp : tcp_sock) (skb : sk_buff) : Z :=
  let gso_max_segs :=
    if sk_gso_max_segs subtp =? 0 then 1 else sk_gso_max_segs subtp in
  Z.min (u32 (tcp_cwnd_test subtp skb)) (u32 gso_max_segs).

(** Lines 449-479: the computation of [*limit] for a segment longer than
    one MSS; [None] is the [return NULL] of a zero [max_segs]. *)
Definition split_limit (subtp : tcp_sock) (skb : sk_buff) (mss_now : Z)
    : option Z :=
  let max_segs := split_max_segs subtp skb in
  if max_segs =? 0 then None
  else
    let max_len := Z.min (u32 (mss_now * max_segs)) (skb_len skb) in
    let in_flight_space :=
      u32 ((snd_cwnd subtp - tcp_packets_in_flight subtp) * mss_now) in
    let remaining_in_flight_space :=
      s32 (in_flight_space - u32 (write_seq subtp - snd_nxt subtp)) in
    let max_len :=
      if remaining_in_flight_space <=? 0 then max_len
      else Z.min max_len (u32 remaining_in_flight_space) in
    let window := u32 (tcp_wnd_end subtp - write_seq subtp) in
    Some (Z.min max_len window).

(** Lines 435-481 of [mptcp_next_segment]: the BUSY chronograph and the
    size of what is handed over, for the segment [skb], the subflow at
    position [sk] and the MSS read before. *)
Definition next_segment_clamp (mpcb : mptcp_cb) (sk : nat) (skb : sk_buff)
    (reinject mss_now : Z) : mptcp_cb * next_segment_result :=
  match conn_list mpcb !! sk with
  | None => (mpcb, mk_next_segment_result None reinject (Some sk) 0)
  | Some subtp =>
      let mpcb :=
        if reinject =? 0 then tcp_chrono_start OnMeta TCP_CHRONO_BUSY mpcb
        else mpcb in
      if skb_len skb <=? mss_now then
        (mpcb, mk_next_segment_result (Some skb) reinject (Some sk) 0)
      else
        match split_limit subtp skb mss_now with
        | None => (mpcb, mk_next_segment_result None reinject (Some sk) 0)
        | Some max_len =>
            (mpcb, mk_next_segment_result (Some skb) reinject (Some sk) max_len)
        end
  end.

(** [mptcp_next_segment(meta_sk, &reinject, &subsk, &limit)].  A pointer
    that names no subflow, or no segment, cannot occur and gives NULL. *)
Definition mptcp_next_segment (mpcb : mptcp_cb)
    : mptcp_cb * next_segment_result :=
  let '(mpcb, skb, reinject) := __mptcp_next_segment mpcb in
  match skb with
  | None => (mpcb, mk_next_segment_result None reinject None 0)
  | Some r =>
      let '(subsk, mpcb) := get_subflow mpcb (Some r) false in
      match subsk, skb_deref mpcb r with
      | Some sk, Some k =>
          match conn_list mpcb !! sk with
          | None => (mpcb, mk_next_segment_result None reinject subsk 0)
          | Some subtp =>
              let mss_now := tcp_current_mss subtp in
              if (reinject =? 0) && negb (tcp_snd_wnd_test mpcb k mss_now)
              then
                let mpcb :=
                  tcp_chrono_start OnMeta TCP_CHRONO_RWND_LIMITED mpcb in
                let '(mpcb, skb) := mptcp_rcv_buf_optimization mpcb sk 1 in
                match skb with
                | Some h => next_segment_clamp mpcb sk h (-1) mss_now
                | None =>
                    (mpcb, mk_next_segment_result None reinject subsk 0)
                end
              else next_segment_clamp mpcb sk k reinject mss_now
          end
      | _, _ => (mpcb, mk_next_segment_result None reinject subsk 0)
      end
  end.

End SegmentChooser.

(** ** The scheduler registry *)

Module Registry.

Inductive errno : Type :=
| EINVAL
| EEXIST
| ENOENT
| EPERM.

(** An [int] result: [0] or [-errno]. *)
Inductive retval : Type :=
| Ok
| Err (e : errno).

(** [struct mptcp_sched_ops]; a function pointer is its address, NULL
    being [0]. *)
Record mptcp_sched_ops : Type := mk_mptcp_sched_ops {
  get_subflow : Z;
  next_segment : Z;
  init : Z;
  name : string;
  owner : Z
}.

(** The part of the socket written by [mptcp_set_scheduler]. *)
Record sched_sockopt : Type := mk_sched_sockopt {
  mptcp_sched_name : string;
  mptcp_sched_setsockopt : bool
}.

(** [strcmp(a, b) == 0]. *)
Definition strcmp_eq (a b : string) : bool := String.eqb a b.

(** [mptcp_sched_find(name)] on the list [mptcp_sched_list]. *)
Fixpoint mptcp_sched_find (mptcp_sched_list : list mptcp_sched_ops)
    (nm : string) : option mptcp_sched_ops :=
  match mptcp_sched_list with
  | [] => None
  | e :: rest =>
      if strcmp_eq (name e) nm then Some e else mptcp_sched_find rest nm
  end.

(** [mptcp_register_scheduler(sched)]: the result and the list after the
    call. *)
Definition mptcp_register_scheduler (mptcp_sched_list : list mptcp_sched_ops)
    (sched : mptcp_sched_ops) : retval * list mptcp_sched_ops :=
  if (get_subflow sched =? 0) || (next_segment sched =? 0) then
    (Err EINVAL, mptcp_sched_list)
  else
    match mptcp_sched_find mptcp_sched_list (name sched) with
    | Some _ => (Err EEXIST, mptcp_sched_list)
    | None => (Ok, mptcp_sched_list ++ [sched])
    end.

Section Autoload.

(** Whether the kernel is built with [CONFIG_MODULES], and the effect of
    [request_module("mptcp_%s", name)] on the list: loading a module may
    register schedulers. *)
Variable CONFIG_MODULES : bool.
Variable request_module : string -> list mptcp_sched_ops -> list mptcp_sched_ops.

(** [__mptcp_sched_find_autoload(name)]; [capable] is the result of
    [capable(CAP_NET_ADMIN)]. *)
Definition __mptcp_sched_find_autoload (mptcp_sched_list : list mptcp_sched_ops)
    (capable : bool) (nm : string)
    : option mptcp_sched_ops * list mptcp_sched_ops :=
  match mptcp_sched_find mptcp_sched_list nm with
  | Some e => (Some e, mptcp_sched_list)
  | None =>
      if CONFIG_MODULES && capable then
        let l := request_module nm mptcp_sched_list in
        (mptcp_sched_find l nm, l)
      else (None, mptcp_sched_list)
  end.

(** [mptcp_set_scheduler(sk, name)]; [ns_capable] is the result of
    [ns_capable(sock_net(sk)->user_ns, CAP_NET_ADMIN)]. *)
Definition mptcp_set_scheduler (mptcp_sched_list : list mptcp_sched_ops)
    (capable ns_capable : bool) (sk : sched_sockopt) (nm : string)
    : retval * sched_sockopt * list mptcp_sched_ops :=
  let '(sched, l) :=
    __mptcp_sched_find_autoload mptcp_sched_list capable nm in
  match sched with
  | None => (Err ENOENT, sk, l)
  | Some _ =>
      if negb ns_capable then (Err EPERM, sk, l)
      else
        (Ok,
         {| mptcp_sched_name := nm; mptcp_sched_setsockopt := true |},
         l)
  end.

(** *** The other operations of the registry *)

(** [mptcp_sched_find(name)] as a pointer: the position in the list of the
    entry it returns. *)
Fixpoint mptcp_sched_find_pos (mptcp_sched_list : list mptcp_sched_ops)
    (nm : string) : option nat :=
  match mptcp_sched_list with
  | [] => None
  | e :: rest =>
      if strcmp_eq (name e) nm then Some 0%nat
      else S <$> mptcp_sched_find_pos rest nm
  end.

(** [mptcp_unregister_scheduler(sched)]: [list_del_rcu] unlinks the entry;
    [sched] is the position of the entry in the list. *)
Definition mptcp_unregister_scheduler
    (mptcp_sched_list : list mptcp_sched_ops) (sched : nat)
    : list mptcp_sched_ops :=
  delete sched mptcp_sched_list.

(** [list_move(&sched->list, &mptcp_sched_list)]: the entry at position
    [sched] is unlinked and linked again right after the list head. *)
Definition list_move (sched : nat) (mptcp_sched_list : list mptcp_sched_ops)
    : list mptcp_sched_ops :=
  match mptcp_sched_list !! sched with
  | Some e => e :: delete sched mptcp_sched_list
  | None => mptcp_sched_list
  end.

(** [mptcp_set_default_scheduler(name)]. *)
Definition mptcp_set_default_scheduler
    (mptcp_sched_list : list mptcp_sched_ops) (capable : bool) (nm : string)
    : retval * list mptcp_sched_ops :=
  let '(sched, l) :=
    match mptcp_sched_find_pos mptcp_sched_list nm with
    | Some p => (Some p, mptcp_sched_list)
    | None =>
        if CONFIG_MODULES && capable then
          let l := request_module nm mptcp_sched_list in
          (mptcp_sched_find_pos l nm, l)
        else (None, mptcp_sched_list)
    end in
  match sched with
  | Some p => (Ok, list_move p l)
  | None => (Err ENOENT, l)
  end.

(** [MPTCP_SCHED_NAME_MAX], defined in a header that is not among the
    sources. *)
Variable MPTCP_SCHED_NAME_MAX : nat.

(** [strncpy(dst, src, n)] of the C library, for a name without NUL
    inside: the [n] bytes written to [dst] are the first [n] characters of
    [src], followed by NULs if [src] is shorter. *)
Definition strncpy (n : nat) (src : string) : list Ascii.ascii :=
  take n (String.list_ascii_of_string src ++ replicate n Ascii.zero).

(** [mptcp_get_default_scheduler(name)]: the bytes written to [name];
    [None] is the [BUG_ON] of an empty list. *)
Definition mptcp_get_default_scheduler
    (mptcp_sched_list : list mptcp_sched_ops) : option (list Ascii.ascii) :=
  match mptcp_sched_list with
  | [] => None
  | sched :: _ => Some (strncpy MPTCP_SCHED_NAME_MAX (name sched))
  end.

(** [CONFIG_DEFAULT_MPTCP_SCHED] and the initcall that installs it. *)
Variable CONFIG_DEFAULT_MPTCP_SCHED : string.

Definition mptcp_scheduler_default
    (mptcp_sched_list : list mptcp_sched_ops) (capable : bool)
    : retval * list mptcp_sched_ops :=
  mptcp_set_default_scheduler mptcp_sched_list capable
    CONFIG_DEFAULT_MPTCP_SCHED.

(** Modelled from the spec: [try_module_get] and [module_put] belong to
    the module loader, which is not among the sources.  After §4.5,
    binding "takes a reference on the owner" and "increments the owner
    refcount", unbinding "drops the owner reference"; taking a reference
    can fail.  The reference counts are a function of the owner, and
    [module_live] tells the owners a reference can be taken on. *)
Variable module_live : Z -> bool.

Definition try_module_get (owner : Z) (refs : Z -> nat) : bool * (Z -> nat) :=
  if module_live owner then
    (true, fun o => if o =? owner then S (refs o) else refs o)
  else (false, refs).

Definition module_put (owner : Z) (refs : Z -> nat) : Z -> nat :=
  fun o => if o =? owner then pred (refs o) else refs o.

(** The loop of [mptcp_init_scheduler]: the first entry of the list on
    whose owner a reference can be taken. *)
Fixpoint first_module_get (mptcp_sched_list : list mptcp_sched_ops)
    (refs : Z -> nat) : option mptcp_sched_ops * (Z -> nat) :=
  match mptcp_sched_list with
  | [] => (None, refs)
  | sched :: rest =>
      let '(ok, refs') := try_module_get (owner sched) refs in
      if ok then (Some sched, refs') else first_module_get rest refs'
  end.

(** [mptcp_init_scheduler(mpcb)]: [sk] is the part of the meta socket set
    by the socket option and [sched_ops] is [mpcb->sched_ops], left as it
    is when no scheduler can be bound. *)
Definition mptcp_init_scheduler (mptcp_sched_list : list mptcp_sched_ops)
    (capable : bool) (sk : sched_sockopt)
    (sched_ops : option mptcp_sched_ops) (refs : Z -> nat)
    : option mptcp_sched_ops * list mptcp_sched_ops * (Z -> nat) :=
  let '(bound, l, refs) :=
    if mptcp_sched_setsockopt sk then
      let '(sched, l) :=
        __mptcp_sched_find_autoload mptcp_sched_list capable
          (mptcp_sched_name sk) in
      match sched with
      | Some e =>
          let '(ok, refs') := try_module_get (owner e) refs in
          if ok then (Some e, l, refs') else (None, l, refs')
      | None => (None, l, refs)
      end
    else (None, mptcp_sched_list, refs) in
  match bound with
  | Some e => (Some e, l, refs)
  | None =>
      match first_module_get l refs with
      | (Some e, refs') => (Some e, l, refs')
      | (None, refs') => (sched_ops, l, refs')
      end
  end.

(** [mptcp_cleanup_scheduler(mpcb)]; it is called on a connection that has
    a scheduler. *)
Definition mptcp_cleanup_scheduler (sched_ops : option mptcp_sched_ops)
    (refs : Z -> nat) : Z -> nat :=
  match sched_ops with
  | Some e => module_put (owner e) refs
  | None => refs
  end.

End Autoload.

End Registry.

(** ** Sample instances

    A concrete choice of the kernel helpers and a few connections, used to
    run the definitions. *)

(** Modelled from the spec: [before] and [after] come from a header that is
    not among the sources; §4.1 reads them as [<] and [>] on sequence
    numbers.  They are taken here on 32 bits, by the sign of the
    difference, which is [<] and [>] for numbers less than 2^31 apart. *)
Definition seq_before (a b : Z) : bool := s32 (a - b) <? 0.
Definition seq_after (a b : Z) : bool := seq_before b a.

(** Modelled from the spec: §6, [path_mask(S) = 1 << path_index(S)]. *)
Definition pi_to_flag (pi : Z) : Z := Z.shiftl 1 pi.

(** Modelled from the spec: §4.3 step 3 compares the two sides "converted
    to the same clock"; the sample clock ticks every millisecond. *)
Definition usecs_to_ms (us : Z) : Z := us / 1000.

(** Modelled from the spec: §4.4, [cwnd_test(S, K)] is "how many packets
    may this cwnd still carry", a non-negative number. *)
Definition cwnd_room (tp : tcp_sock) (skb : sk_buff) : Z :=
  Z.max 0 (snd_cwnd tp - packets_in_flight tp).

(** Modelled from the spec: §4.4 step 5, the meta-level [snd_wnd_test(K)]
    is opaque; in the sample the meta-level send window ends at sequence
    number 1000000 and the first MSS of the segment has to fit below it. *)
Definition sample_snd_wnd_test (mpcb : mptcp_cb) (skb : sk_buff) (mss : Z)
    : bool := skb_seq skb + Z.min (skb_len skb) mss <=? 1000000.

#[export] Instance sample_env : KernelEnv := {|
  before := seq_before;
  after := seq_after;
  mptcp_pi_to_flag := pi_to_flag;
  usecs_to_jiffies := usecs_to_ms;
  tcp_cwnd_test := cwnd_room;
  tcp_snd_wnd_test := sample_snd_wnd_test
|}.

(** An established active subflow with nothing in flight or queued. *)
Definition sample_sock (pi srtt cwnd ssthresh : Z) : tcp_sock :=
  {| path_index := pi; sk_can_send := true; pre_established := false;
     pf := false; icsk_ca_state := TCP_CA_Open; is_reno := false;
     snd_una := 0; high_seq := 0; fully_established := true;
     second_packet := false; last_end_data_seq := 0;
     packets_in_flight := 0; snd_cwnd := cwnd; snd_ssthresh := ssthresh;
     mss_now := 1000; write_seq := 0; snd_nxt := 0; wnd_end := 100000;
     srtt_us := srtt; rcv_low_prio := false; low_prio := false;
     sk_gso_max_segs := 0; last_rbuf_opti := 0 |}.

Definition sample_skb (sq len mask : Z) : sk_buff :=
  {| skb_seq := sq; skb_len := len; path_mask := mask; is_data_fin := false |}.

(** A connection over the given subflows, with the given head of the
    write queue and of the retransmit queue, at time [now]. *)
Definition sample_cb (subs : list tcp_sock) (snd rtx : option sk_buff)
    (now : Z) : mptcp_cb :=
  {| conn_list := subs; dfin_path_index := 0; infinite_mapping_snd := false;
     send_infinite_mapping := false; reinject_queue := [];
     rcv_shutdown := false; send_head := snd; rtx_queue_head := rtx;
     stream_memory_free := true; sock_nospace := false; stream_wspace := 0;
     stream_min_wspace := 0; tcp_jiffies32 := now; chrono_log := [] |}.

(** ** Vocabulary of the statements *)

Section SelectorVocabulary.
Context `{KernelEnv}.

(** A subflow of the wanted class that is neither definitively nor
    temporarily unavailable. *)
Definition candidate (skb : option sk_buff) (selector : tcp_sock -> bool)
    (zero_wnd_test : bool) (tp : tcp_sock) : bool :=
  selector tp && negb (mptcp_is_def_unavailable tp) &&
  negb (mptcp_is_temp_unavailable tp skb zero_wnd_test).

(** The segment has not been sent on the subflow yet. *)
Definition unused (skb : option sk_buff) (tp : tcp_sock) : bool :=
  negb (mptcp_dont_reinject_skb tp skb).

(** The invariant of the loop of [get_subflow_from_selectors] once the
    subflows [pre] have been walked. *)
Record sel_inv (skb : option sk_buff) (selector : tcp_sock -> bool)
    (zero_wnd_test : bool) (pre : list tcp_sock) (st : sel_state) : Prop := {
  inv_found_unused :
    found_unused st =
    existsb (fun tp => candidate skb selector zero_wnd_test tp && unused skb tp)
      pre;
  inv_best :
    match bestsk st with
    | Some i =>
        exists S, pre !! i = Some S /\
          candidate skb selector zero_wnd_test S = true /\
          unused skb S = found_unused st /\
          srtt_us S = min_srtt st
    | None => min_srtt st = U32_MAX
    end;
  inv_min :
    forall j T, pre !! j = Some T ->
      candidate skb selector zero_wnd_test T = true ->
      unused skb T = found_unused st ->
      min_srtt st <= srtt_us T /\
      (forall i, bestsk st = Some i -> (j < i)%nat -> min_srtt st < srtt_us T)
}.

End SelectorVocabulary.

(** Counting over the ghost log of [get_available_subflow_log]: the
    [goto restart] taken, the passes of the selector, and the visits a
    pass pays to the subflow at position [i]. *)
Fixpoint count_restarts (log : list sched_event) : nat :=
  match log with
  | [] => 0
  | EvRestart :: rest => S (count_restarts rest)
  | EvPass _ _ :: rest => count_restarts rest
  end.

Fixpoint count_passes (log : list sched_event) : nat :=
  match log with
  | [] => 0
  | EvPass _ _ :: rest => S (count_passes rest)
  | EvRestart :: rest => count_passes rest
  end.

Definition visits_in (i : nat) (ev : sched_event) : nat :=
  match ev with
  | EvPass _ visited => count_occ Nat.eq_dec visited i
  | EvRestart => 0
  end.

Fixpoint visits (i : nat) (log : list sched_event) : nat :=
  match log with
  | [] => 0
  | ev :: rest => visits_in i ev + visits i rest
  end.

(** The three ways a round can end. *)
Inductive round_shape (subs : list tcp_sock) (looping : bool)
    (skb : option sk_buff) : round_outcome * list sched_event -> Prop :=
| RoundActive sk :
    round_shape subs looping skb
      (Return sk skb, [EvPass ActivePass (seq 0 (length subs))])
| RoundBackup sk skb' :
    round_shape subs looping skb
      (Return sk skb',
       [EvPass ActivePass (seq 0 (length subs));
        EvPass BackupPass (seq 0 (length subs))])
| RoundRestart k :
    looping = false ->
    skb = Some k ->
    round_shape subs looping skb
      (GotoRestart (Some (set_path_mask 0 k)),
       [EvPass ActivePass (seq 0 (length subs));
        EvPass BackupPass (seq 0 (length subs)); EvRestart]).

(** A subflow that has potentially failed ([pf] set). *)
Definition sample_failed_sock (pi srtt : Z) : tcp_sock :=
  {| path_index := pi; sk_can_send := true; pre_established := false;
     pf := true; icsk_ca_state := TCP_CA_Open; is_reno := false;
     snd_una := 0; high_seq := 0; fully_established := true;
     second_packet := false; last_end_data_seq := 0;
     packets_in_flight := 0; snd_cwnd := 10; snd_ssthresh := 10;
     mss_now := 1000; write_seq := 0; snd_nxt := 0; wnd_end := 100000;
     srtt_us := srtt; rcv_low_prio := false; low_prio := false;
     sk_gso_max_segs := 0; last_rbuf_opti := 0 |}.

(** Three active subflows: a slow one, then two equally fast ones. *)
Definition sample_three_subs : list tcp_sock :=
  [sample_sock 1 20000 10 10; sample_sock 2 10000 10 10;
   sample_sock 3 10000 10 10].

Section RcvBufVocabulary.
Context `{KernelEnv}.

(** The subflow T at position [j] is penalised by a call made for the
    subflow [tp] at position [sk]: another subflow that carries the head
    segment, is slower than [tp] and is in the Open state. *)
Definition penalized (tp : tcp_sock) (sk : nat) (skb_head : sk_buff)
    (j : nat) (T : tcp_sock) : bool :=
  other_carrier sk skb_head j T &&
  ((srtt_us tp <? srtt_us T) &&
   tcp_ca_state_eqb (icsk_ca_state T) TCP_CA_Open).

(** The other subflows that already carry the head segment, in the order
    of the walk; [n] is the position of the first subflow of [subs]. *)
Fixpoint other_carriers_from (n : nat) (sk : nat) (skb_head : sk_buff)
    (subs : list tcp_sock) : list tcp_sock :=
  match subs with
  | [] => []
  | T :: rest =>
      if other_carrier sk skb_head n T
      then T :: other_carriers_from (S n) sk skb_head rest
      else other_carriers_from (S n) sk skb_head rest
  end.

Definition other_carriers (sk : nat) (skb_head : sk_buff)
    (subs : list tcp_sock) : list tcp_sock :=
  other_carriers_from 0 sk skb_head subs.

(** The state of the penalisation loop once the subflows [pre] of [subs]
    have been walked: the subflows walked and penalised hold their halved
    windows, the other ones (the sending subflow apart) are as before, and
    the sending subflow is as before up to its time stamp, which is [now]
    as soon as somebody has been penalised. *)
Definition penalize_inv (subs : list tcp_sock) (tp : tcp_sock) (sk : nat)
    (skb_head : sk_buff) (now : Z) (pre cur : list tcp_sock) : Prop :=
  (exists suf, subs = pre ++ suf) ->
  length cur = length subs /\
  (forall j T, subs !! j = Some T -> j <> sk ->
     cur !! j = Some (if (j <? length pre)%nat && penalized tp sk skb_head j T
                      then penalize T else T)) /\
  exists tp',
    cur !! sk = Some tp' /\
    (tp' = tp \/ tp' = set_last_rbuf_opti now tp) /\
    ((exists j T, (j < length pre)%nat /\ subs !! j = Some T /\
        penalized tp sk skb_head j T = true) ->
     tp' = set_last_rbuf_opti now tp).

End RcvBufVocabulary.

(** The rule of §4.3 step 5 for [do_retrans], read along the carriers of
    the head segment: a carrier with [cwnd <= 4] decides for
    retransmission and ends the scan; otherwise a carrier whose [srtt_us]
    is at most four times the one of the sending subflow decides against
    it and ends the scan; otherwise [do_retrans] is set and the scan goes
    on.  [four_srtt] is the value taken for [4 * S.srtt_us]. *)
Fixpoint do_retrans_rule (four_srtt : Z) (carriers : list tcp_sock)
    (do_retrans : bool) : bool :=
  match carriers with
  | [] => do_retrans
  | T :: rest =>
      if snd_cwnd T <=? 4 then true
      else if srtt_us T <=? four_srtt then false
      else do_retrans_rule four_srtt rest true
  end.

(** A sending subflow with a smoothed RTT of 2^30 and a slow carrier. *)
Definition sample_huge_rtt_subs : list tcp_sock :=
  [sample_sock 1 (2 ^ 30) 10 10; sample_sock 2 5 10 10].

(** A fast sending subflow and a slower carrier in the Open state. *)
Definition sample_two_subs (cwnd ssthresh : Z) : list tcp_sock :=
  [sample_sock 1 10000 10 10; sample_sock 2 20000 cwnd ssthresh].

(** A segment of 500 bytes already sent on the path of index 2 only. *)
Definition sample_head : sk_buff := sample_skb 0 500 (pi_to_flag 2).


(** An established active subflow with 100 bytes of send window left: a
    window that is open, but too small for a segment of 500 bytes. *)
Definition sample_small_wnd_sock : tcp_sock :=
  {| path_index := 1; sk_can_send := true; pre_established := false;
     pf := false; icsk_ca_state := TCP_CA_Open; is_reno := false;
     snd_una := 0; high_seq := 0; fully_established := true;
     second_packet := false; last_end_data_seq := 0;
     packets_in_flight := 0; snd_cwnd := 10; snd_ssthresh := 10;
     mss_now := 1000; write_seq := 0; snd_nxt := 0; wnd_end := 100;
     srtt_us := 10000; rcv_low_prio := false; low_prio := false;
     sk_gso_max_segs := 0; last_rbuf_opti := 0 |}.

(** A scheduler entry with both required functions, and a module loader
    that finds no module. *)
Definition sample_sched (nm : string) : Registry.mptcp_sched_ops :=
  {| Registry.get_subflow := 1; Registry.next_segment := 2;
     Registry.init := 0; Registry.name := nm; Registry.owner := 0 |}.

Definition sample_no_module (nm : string)
    (l : list Registry.mptcp_sched_ops) : list Registry.mptcp_sched_ops := l.

Definition sample_sockopt : Registry.sched_sockopt :=
  {| Registry.mptcp_sched_name := "default";
     Registry.mptcp_sched_setsockopt := false |}.

(** An active subflow whose congestion window is full, and an available
    backup subflow. *)
Definition sample_busy_sock (pi srtt : Z) : tcp_sock :=
  {| path_index := pi; sk_can_send := true; pre_established := false;
     pf := false; icsk_ca_state := TCP_CA_Open; is_reno := false;
     snd_una := 0; high_seq := 0; fully_established := true;
     second_packet := false; last_end_data_seq := 0;
     packets_in_flight := 10; snd_cwnd := 10; snd_ssthresh := 10;
     mss_now := 1000; write_seq := 0; snd_nxt := 0; wnd_end := 100000;
     srtt_us := srtt; rcv_low_prio := false; low_prio := false;
     sk_gso_max_segs := 0; last_rbuf_opti := 0 |}.

Definition sample_backup_sock (pi srtt : Z) : tcp_sock :=
  {| path_index := pi; sk_can_send := true; pre_established := false;
     pf := false; icsk_ca_state := TCP_CA_Open; is_reno := false;
     snd_una := 0; high_seq := 0; fully_established := true;
     second_packet := false; last_end_data_seq := 0;
     packets_in_flight := 0; snd_cwnd := 10; snd_ssthresh := 10;
     mss_now := 1000; write_seq := 0; snd_nxt := 0; wnd_end := 100000;
     srtt_us := srtt; rcv_low_prio := false; low_prio := true;
     sk_gso_max_segs := 0; last_rbuf_opti := 0 |}.

Section SelectorVocabularyMore.
Context `{KernelEnv}.

(** A subflow of the wanted class on which the segment has not been sent
    and which is only temporarily unavailable. *)
Definition stalled (skb : option sk_buff) (selector : tcp_sock -> bool)
    (zero_wnd_test : bool) (tp : tcp_sock) : bool :=
  selector tp && unused skb tp && negb (mptcp_is_def_unavailable tp) &&
  mptcp_is_temp_unavailable tp skb zero_wnd_test.

(** What the loop of [get_subflow_from_selectors] knows about
    [found_unused_una] and about the [srtt_us] of its choice once the
    subflows [pre] have been walked. *)
Record sel_inv_una (skb : option sk_buff) (selector : tcp_sock -> bool)
    (zero_wnd_test : bool) (pre : list tcp_sock) (st : sel_state) : Prop := {
  inv_una :
    found_unused_una st = existsb (stalled skb selector zero_wnd_test) pre;
  inv_le_max : min_srtt st <= U32_MAX;
  inv_below_max :
    forall i, bestsk st = Some i -> min_srtt st < U32_MAX
}.

End SelectorVocabularyMore.

(** ** More of the scheduler *)

(** [defsched_init(sk)]: the time stamp of the subflow at position [sk] is
    set to the current time. *)
Definition defsched_init (mpcb : mptcp_cb) (sk : nat) : mptcp_cb :=
  set_conn_list
    (alter (set_last_rbuf_opti (tcp_jiffies32 mpcb)) sk (conn_list mpcb)) mpcb.

(** The connection when the clock [tcp_jiffies32] shows [now]. *)
Definition at_time (now : Z) (mpcb : mptcp_cb) : mptcp_cb :=
  mk_mptcp_cb (conn_list mpcb) (dfin_path_index mpcb)
    (infinite_mapping_snd mpcb) (send_infinite_mapping mpcb)
    (reinject_queue mpcb) (rcv_shutdown mpcb) (send_head mpcb)
    (rtx_queue_head mpcb) (stream_memory_free mpcb) (sock_nospace mpcb)
    (stream_wspace mpcb) (stream_min_wspace mpcb) now (chrono_log mpcb).

(** The subflow [T'] is [T] up to the three fields the scheduler writes:
    [snd_cwnd], [snd_ssthresh] and [last_rbuf_opti]. *)
Definition same_but_windows (T T' : tcp_sock) : Prop :=
  set_snd_cwnd (snd_cwnd T)
    (set_snd_ssthresh (snd_ssthresh T)
       (set_last_rbuf_opti (last_rbuf_opti T) T')) = T.

(** A registry in order: no two entries have the same name and every
    entry has the two required functions. *)
Definition registry_ok (l : list Registry.mptcp_sched_ops) : Prop :=
  NoDup (Registry.name <$> l) /\
  forall e, e ∈ l ->
    Registry.get_subflow e <> 0 /\ Registry.next_segment e <> 0.

(** A DATA_FIN, and a connection whose receive side is shut down and
    whose DATA_FIN arrived on the path of index 2. *)
Definition sample_data_fin : sk_buff :=
  {| skb_seq := 0; skb_len := 0; path_mask := 0; is_data_fin := true |}.

Definition sample_shutdown_cb : mptcp_cb :=
  {| conn_list := sample_three_subs; dfin_path_index := 2;
     infinite_mapping_snd := false; send_infinite_mapping := false;
     reinject_queue := []; rcv_shutdown := true; send_head := None;
     rtx_queue_head := None; stream_memory_free := true;
     sock_nospace := false; stream_wspace := 0; stream_min_wspace := 0;
     tcp_jiffies32 := 0; chrono_log := [] |}.

(** A sending subflow with a smoothed RTT of 10 ms and a carrier twice as
    slow, at time 1000 of the millisecond clock. *)
Definition sample_slow_cb : mptcp_cb :=
  sample_cb [sample_sock 1 80000 10 10; sample_sock 2 160000 10 10]
    None (Some sample_head) 1000.

(** A registry of three schedulers owned by the modules 7, 8 and 9, of
    which the first is going away; a socket on which "roundrobin" has
    been chosen; no reference taken yet. *)
Definition sample_owned_sched (nm : string) (o : Z)
    : Registry.mptcp_sched_ops :=
  {| Registry.get_subflow := 1; Registry.next_segment := 2;
     Registry.init := 0; Registry.name := nm; Registry.owner := o |}.

Definition sample_registry : list Registry.mptcp_sched_ops :=
  [sample_owned_sched "default" 7; sample_owned_sched "redundant" 8;
   sample_owned_sched "roundrobin" 9].

Definition sample_live (o : Z) : bool := 8 <=? o.

Definition sample_chosen : Registry.sched_sockopt :=
  {| Registry.mptcp_sched_name := "roundrobin";
     Registry.mptcp_sched_setsockopt := true |}.

Definition sample_refs (o : Z) : nat := 0%nat.

(** * Properties *)

(** ** Arithmetic and loops *)


Lemma u32_small (x : Z) : 0 <= x < 2 ^ 32 -> u32 x = x.
Proof. intros Hx. unfold u32. apply Z.mod_small. exact Hx. Qed.

(** A loop whose body never leaves early establishes, for the whole list,
    an invariant that each run of the body extends by one subflow. *)
Lemma for_each_sub_invariant {A : Type} (f : nat -> tcp_sock -> A -> A)
    (Inv : list tcp_sock -> A -> Prop) :
  (forall pre tp a, Inv pre a -> Inv (pre ++ [tp]) (f (length pre) tp a)) ->
  forall subs pre a,
    Inv pre a ->
    Inv (pre ++ subs)
      (fst (for_each_sub_from (length pre) subs
              (fun i tp a => Continue (f i tp a)) a)).
Proof.
  intros Hstep subs. induction subs as [|tp rest IH]; intros pre a Ha.
  - simpl. rewrite app_nil_r. exact Ha.
  - simpl.
    specialize (IH (pre ++ [tp]) (f (length pre) tp a) (Hstep _ _ _ Ha)).
    rewrite length_app in IH. simpl in IH.
    replace (length pre + 1)%nat with (S (length pre)) in IH by lia.
    destruct (for_each_sub_from (S (length pre)) rest _ _) as [r vis].
    simpl in *. rewrite <- app_assoc in IH. exact IH.
Qed.

(** Such a loop runs its body once on every position, in order. *)
Lemma for_each_sub_visits {A : Type} (f : nat -> tcp_sock -> A -> A) :
  forall subs i a,
    snd (for_each_sub_from i subs (fun i tp a => Continue (f i tp a)) a)
    = seq i (length subs).
Proof.
  induction subs as [|tp rest IH]; intros i a; simpl; [reflexivity |].
  specialize (IH (S i) (f i tp a)).
  destruct (for_each_sub_from (S i) rest _ _) as [r vis].
  simpl in *. now rewrite IH.
Qed.

(** ** Availability *)

Section AvailabilityFacts.
Context `{KernelEnv}.

(** The test of lines 92-93 by itself: it needs a segment and
    [zero_wnd_test], and starts from the [write_seq] of the subflow. *)
Lemma snd_wnd_bypassed_true (tp : tcp_sock) (skb : option sk_buff) :
  snd_wnd_bypassed tp skb true = true <->
  exists k, skb = Some k /\
    after (u32 (write_seq tp + Z.min (skb_len k) (mss_now tp))) (wnd_end tp)
    = true.
Proof.
  unfold snd_wnd_bypassed, tcp_current_mss, tcp_wnd_end.
  destruct skb as [k|]; simpl.
  - split; [intros Hk; exists k; auto | intros (k' & [= <-] & Hk); exact Hk].
  - split; [discriminate | intros (k' & [=] & _)].
Qed.

Lemma snd_wnd_bypassed_untested (tp : tcp_sock) (skb : option sk_buff) :
  snd_wnd_bypassed tp skb false = false.
Proof. now destruct skb. Qed.

(** C1 (as amended).  What [zero_wnd_test] adds to
    [mptcp_is_temp_unavailable]: with the flag set the function answers
    true exactly when it does so without the flag, or the window of the
    subflow is closed ([write_seq] is not [before] its end), or a segment K
    is present and [S.write_seq + min(K.len, S.mss_now)], computed on 32
    bits, is [after] the end of the subflow's window.  So, when no other
    test fires, the per-segment zero-window condition decides, and it holds
    exactly when K is present and the sum that starts from the subflow's
    own [write_seq] is after the window end.  The sequence number of K
    plays no part in it: on a fully established subflow the answer is the
    same for two segments of equal length. *)
Theorem temp_unavailable_wnd_test_from_write_seq
    (tp : tcp_sock) (skb : option sk_buff) :
  (mptcp_is_temp_unavailable tp skb true = true <->
   mptcp_is_temp_unavailable tp skb false = true \/
   before (write_seq tp) (wnd_end tp) = false \/
   exists k, skb = Some k /\
     after (u32 (write_seq tp + Z.min (skb_len k) (mss_now tp))) (wnd_end tp)
     = true) /\
  (mptcp_is_temp_unavailable tp skb false = false ->
   before (write_seq tp) (wnd_end tp) = true ->
   (mptcp_is_temp_unavailable tp skb true = true <->
    exists k, skb = Some k /\
      after (u32 (write_seq tp + Z.min (skb_len k) (mss_now tp))) (wnd_end tp)
      = true)) /\
  (fully_established tp = true ->
   forall k k' z, skb_len k = skb_len k' ->
     mptcp_is_temp_unavailable tp (Some k) z
     = mptcp_is_temp_unavailable tp (Some k') z).
Proof.
  assert (Hiff :
    mptcp_is_temp_unavailable tp skb true = true <->
    mptcp_is_temp_unavailable tp skb false = true \/
    before (write_seq tp) (wnd_end tp) = false \/
    exists k, skb = Some k /\
      after (u32 (write_seq tp + Z.min (skb_len k) (mss_now tp))) (wnd_end tp)
      = true).
  { rewrite <- snd_wnd_bypassed_true.
    unfold mptcp_is_temp_unavailable.
    rewrite snd_wnd_bypassed_untested. unfold tcp_wnd_end.
    destruct (in_loss_state tp); [tauto |].
    destruct (out_of_order tp skb); [tauto |].
    destruct (snd_cwnd tp <=? tcp_packets_in_flight tp); [tauto |].
    cbv zeta.
    destruct (_ <=? u32 (write_seq tp - snd_nxt tp)); [tauto |].
    simpl.
    destruct (before (write_seq tp) (wnd_end tp)); simpl; [| tauto].
    destruct (snd_wnd_bypassed tp skb true); split; auto.
    intros [? | [? | ?]]; discriminate. }
  split; [exact Hiff |]. split.
  - intros Hother Hopen. rewrite Hiff. split; [| auto].
    intros [Hc | [Hc | Hk]]; [congruence | congruence | exact Hk].
  - intros Hest k k' z Hlen.
    unfold mptcp_is_temp_unavailable, out_of_order, snd_wnd_bypassed.
    now rewrite Hest, Hlen.
Qed.

End AvailabilityFacts.

(** C1, counterexample.  A subflow with [write_seq = 0], an MSS of 1000 and
    a window ending at 100000, and a segment of 500 bytes at sequence
    number 200000.  No other test of [mptcp_is_temp_unavailable] fires and
    the window is open; [K.seq + min(K.len, mss)] is beyond the window end,
    yet the function answers false, and so does its test of lines 92-93. *)
Lemma temp_unavailable_wnd_test_not_from_skb_seq :
  mptcp_is_temp_unavailable (sample_sock 1 10000 10 10)
    (Some (sample_skb 200000 500 0)) false = false /\
  before (write_seq (sample_sock 1 10000 10 10))
    (wnd_end (sample_sock 1 10000 10 10)) = true /\
  ~ (mptcp_is_temp_unavailable (sample_sock 1 10000 10 10)
       (Some (sample_skb 200000 500 0)) true = true <->
     skb_seq (sample_skb 200000 500 0)
     + Z.min (skb_len (sample_skb 200000 500 0))
             (mss_now (sample_sock 1 10000 10 10))
     > wnd_end (sample_sock 1 10000 10 10)) /\
  ~ (snd_wnd_bypassed (sample_sock 1 10000 10 10)
       (Some (sample_skb 200000 500 0)) true = true <->
     skb_seq (sample_skb 200000 500 0)
     + Z.min (skb_len (sample_skb 200000 500 0))
             (mss_now (sample_sock 1 10000 10 10))
     > wnd_end (sample_sock 1 10000 10 10)).
Proof.
  split; [vm_compute; reflexivity |]. split; [vm_compute; reflexivity |].
  split.
  - intros [_ Hclaim].
    assert (Hfalse : mptcp_is_temp_unavailable (sample_sock 1 10000 10 10)
                       (Some (sample_skb 200000 500 0)) true = false)
      by (vm_compute; reflexivity).
    rewrite Hclaim in Hfalse; [discriminate | vm_compute; reflexivity].
  - intros [_ Hclaim].
    assert (Hfalse : snd_wnd_bypassed (sample_sock 1 10000 10 10)
                       (Some (sample_skb 200000 500 0)) true = false)
      by (vm_compute; reflexivity).
    rewrite Hclaim in Hfalse; [discriminate | vm_compute; reflexivity].
Qed.

(** C1, instances of the amended statement: on a subflow with 100 bytes
    of window left, on which no other test fires, the function answers
    true for a segment of 500 bytes with the flag and false without it;
    and on the sample subflow the answer is the same for two segments of
    500 bytes at different sequence numbers. *)
Lemma temp_unavailable_wnd_test_from_write_seq_witness :
  mptcp_is_temp_unavailable sample_small_wnd_sock
    (Some (sample_skb 200000 500 0)) false = false /\
  mptcp_is_temp_unavailable sample_small_wnd_sock
    (Some (sample_skb 200000 500 0)) true = true /\
  mptcp_is_temp_unavailable (sample_sock 1 10000 10 10)
    (Some (sample_skb 0 500 0)) true
  = mptcp_is_temp_unavailable (sample_sock 1 10000 10 10)
      (Some (sample_skb 200000 500 0)) true.
Proof.
  destruct (temp_unavailable_wnd_test_from_write_seq sample_small_wnd_sock
              (Some (sample_skb 200000 500 0))) as (_ & Hdecides & _).
  destruct (temp_unavailable_wnd_test_from_write_seq
              (sample_sock 1 10000 10 10) None) as (_ & _ & Hsame).
  split; [vm_compute; reflexivity |]. split.
  - apply Hdecides; [vm_compute; reflexivity | vm_compute; reflexivity |].
    exists (sample_skb 200000 500 0). split; [reflexivity |].
    vm_compute; reflexivity.
  - apply Hsame; reflexivity.
Defined.

(** ** The selector *)

Section SelectorFacts.
Context `{KernelEnv}.

Lemma sel_inv_init skb selector z : sel_inv skb selector z [] sel_init.
Proof.
  split; simpl; [reflexivity | reflexivity |].
  intros j T Hj. rewrite lookup_nil in Hj. discriminate.
Qed.

Lemma existsb_snoc {A : Type} (f : A -> bool) (l : list A) (x : A) :
  existsb f (l ++ [x]) = existsb f l || f x.
Proof. rewrite existsb_app. simpl. now rewrite orb_false_r. Qed.

(** A subflow that is passed over -- it is not a candidate, or the segment
    has been sent on it while an unused candidate is known -- leaves the
    choice as it is. *)
Lemma sel_inv_skip skb selector z pre tp st st' :
  sel_inv skb selector z pre st ->
  bestsk st' = bestsk st ->
  min_srtt st' = min_srtt st ->
  found_unused st' = found_unused st ->
  candidate skb selector z tp = false \/
  (unused skb tp = false /\ found_unused st = true) ->
  sel_inv skb selector z (pre ++ [tp]) st'.
Proof.
  intros [Hfu Hbest Hmin] Hb Hm Hf Hskip.
  split; rewrite ?Hb, ?Hm, ?Hf.
  - rewrite existsb_snoc, <- Hfu.
    destruct Hskip as [-> | [-> ->]]; simpl.
    + now rewrite orb_false_r.
    + reflexivity.
  - destruct (bestsk st); [| exact Hbest].
    destruct Hbest as (S & HS & Hrest). exists S.
    split; [now apply lookup_app_l_Some | exact Hrest].
  - intros j T Hj Hc Hu.
    apply lookup_snoc_Some in Hj as [[_ Hj] | [_ <-]]; [now apply Hmin |].
    destruct Hskip as [Hnc | [Hnu Hst]]; congruence.
Qed.

(** A candidate of the class of the current choice is compared with it,
    and replaces it only if its [srtt_us] is strictly lower. *)
Lemma sel_inv_compare skb selector z pre tp st st1 fu una :
  sel_inv skb selector z pre st ->
  bestsk st1 = bestsk st ->
  min_srtt st1 = min_srtt st ->
  found_unused st1 = found_unused st ->
  fu = found_unused st ->
  candidate skb selector z tp = true ->
  unused skb tp = found_unused st ->
  sel_inv skb selector z (pre ++ [tp])
    (if srtt_us tp <? min_srtt st1 then
       {| bestsk := Some (length pre); min_srtt := srtt_us tp;
          found_unused := fu; found_unused_una := una |}
     else st1).
Proof.
  intros [Hfu Hbest Hmin] Hb Hm Hf -> Hc Hu. rewrite Hm.
  assert (Hex : existsb (fun tp => candidate skb selector z tp && unused skb tp)
                  (pre ++ [tp]) = found_unused st).
  { rewrite existsb_snoc, <- Hfu, Hc, Hu. simpl. apply orb_diag. }
  destruct (Z.ltb_spec (srtt_us tp) (min_srtt st)) as [Hlt | Hge].
  - split; simpl.
    + now rewrite Hex.
    + exists tp. rewrite lookup_app_r, Nat.sub_diag by lia. auto.
    + intros j T Hj HcT HuT.
      apply lookup_snoc_Some in Hj as [[Hlen Hj] | [-> <-]].
      * destruct (Hmin j T Hj HcT HuT) as [Hle _]. split; [lia |].
        intros i _ _. lia.
      * split; [lia |]. intros i [= <-] Hji. lia.
  - split; rewrite ?Hb, ?Hm, ?Hf.
    + now rewrite Hex.
    + destruct (bestsk st); [| exact Hbest].
      destruct Hbest as (S & HS & Hrest). exists S.
      split; [now apply lookup_app_l_Some | exact Hrest].
    + intros j T Hj HcT HuT.
      apply lookup_snoc_Some in Hj as [[Hlen Hj] | [-> <-]];
        [now apply Hmin |].
      split; [lia |]. intros i Hi Hji.
      rewrite Hi in Hbest. destruct Hbest as (S & HS & _).
      apply lookup_lt_Some in HS. lia.
Qed.

(** The first unused candidate resets the choice before it is compared. *)
Lemma sel_inv_reset skb selector z pre tp st una :
  sel_inv skb selector z pre st ->
  found_unused st = false ->
  candidate skb selector z tp = true ->
  unused skb tp = true ->
  sel_inv skb selector z (pre ++ [tp])
    (if srtt_us tp <? U32_MAX then
       {| bestsk := Some (length pre); min_srtt := srtt_us tp;
          found_unused := true; found_unused_una := una |}
     else
       {| bestsk := None; min_srtt := U32_MAX;
          found_unused := true; found_unused_una := una |}).
Proof.
  intros [Hfu _ _] Hst Hc Hu.
  assert (Hfirst : forall j T, pre !! j = Some T ->
            candidate skb selector z T = true -> unused skb T = true -> False).
  { intros j T Hj HcT HuT. rewrite Hst in Hfu. symmetry in Hfu.
    apply not_true_iff_false in Hfu. apply Hfu.
    apply existsb_exists. exists T. split.
    - apply list_elem_of_In. eapply list_elem_of_lookup_2. exact Hj.
    - now rewrite HcT, HuT. }
  assert (Hex : existsb (fun tp => candidate skb selector z tp && unused skb tp)
                  (pre ++ [tp]) = true).
  { rewrite existsb_snoc, Hc, Hu. apply orb_true_r. }
  destruct (Z.ltb_spec (srtt_us tp) U32_MAX) as [Hlt | Hge];
    (split; simpl;
     [ now rewrite Hex
     | try (exists tp; rewrite lookup_app_r, Nat.sub_diag by lia; now auto);
       try reflexivity
     | intros j T Hj HcT HuT;
       apply lookup_snoc_Some in Hj as [[Hlen Hj] | [-> <-]];
       [ exfalso; eauto
       | split; [lia | intros i [= <-] Hji; lia] ] ]).
Qed.

Lemma sel_inv_step skb selector z pre tp st :
  sel_inv skb selector z pre st ->
  sel_inv skb selector z (pre ++ [tp])
    (selector_body skb selector z (length pre) tp st).
Proof.
  intros Hinv. unfold selector_body.
  destruct (selector tp) eqn:Hsel; simpl.
  2:{ apply (sel_inv_skip _ _ _ _ _ st); auto.
      left. unfold candidate. now rewrite Hsel. }
  fold (unused skb tp).
  destruct (unused skb tp) eqn:Hun, (found_unused st) eqn:Hst; simpl;
    try (apply (sel_inv_skip _ _ _ _ _ st); now auto);
    (destruct (mptcp_is_def_unavailable tp) eqn:Hdef;
     [ apply (sel_inv_skip _ _ _ _ _ st); auto; left; unfold candidate;
       now rewrite Hdef, andb_false_r | ]);
    (destruct (mptcp_is_temp_unavailable tp skb z) eqn:Htemp;
     [ apply (sel_inv_skip _ _ _ _ _ st); auto; left; unfold candidate;
       now rewrite Htemp, andb_false_r | ]);
    assert (Hcand : candidate skb selector z tp = true)
      by (unfold candidate; now rewrite Hsel, Hdef, Htemp).
  - apply (sel_inv_compare skb selector z pre tp st
             {| bestsk := bestsk st; min_srtt := min_srtt st;
                found_unused := true;
                found_unused_una := found_unused_una st |}); auto;
      congruence.
  - apply (sel_inv_reset skb selector z pre tp st); auto.
  - apply (sel_inv_compare skb selector z pre tp st st); auto; congruence.
Qed.

(** What a pass returns, in terms of the final loop state. *)
Lemma get_subflow_from_selectors_inv subs skb selector z :
  exists st,
    get_subflow_from_selectors subs skb selector z
    = (bestsk st, sel_force st, seq 0 (length subs)) /\
    sel_inv skb selector z subs st.
Proof.
  unfold get_subflow_from_selectors, mptcp_for_each_sub.
  pose proof (for_each_sub_invariant (selector_body skb selector z)
                (sel_inv skb selector z) (sel_inv_step skb selector z)
                subs [] sel_init (sel_inv_init skb selector z)) as Hinv.
  pose proof (for_each_sub_visits (selector_body skb selector z) subs 0%nat
                sel_init) as Hvis.
  simpl in Hinv.
  destruct (for_each_sub_from 0 subs _ sel_init) as [st vis].
  simpl in *. subst vis. exists st. split; [reflexivity | exact Hinv].
Qed.

(** C5.  When a pass of the selector returns a subflow S, S is of the
    wanted class and neither definitively nor temporarily unavailable, and
    for every subflow T of that class, with the same used/unused status as
    S and neither definitively nor temporarily unavailable,
    [srtt_us(S) <= srtt_us(T)]; if T comes before S in the walk, the
    inequality is strict: among equal [srtt_us] the first one seen is
    kept. *)
Theorem selector_returns_lowest_srtt subs skb selector z i force visited :
  get_subflow_from_selectors subs skb selector z = (Some i, force, visited) ->
  exists S,
    subs !! i = Some S /\
    selector S = true /\
    mptcp_is_def_unavailable S = false /\
    mptcp_is_temp_unavailable S skb z = false /\
    forall j T,
      subs !! j = Some T ->
      selector T = true ->
      mptcp_dont_reinject_skb T skb = mptcp_dont_reinject_skb S skb ->
      mptcp_is_def_unavailable T = false ->
      mptcp_is_temp_unavailable T skb z = false ->
      srtt_us S <= srtt_us T /\ ((j < i)%nat -> srtt_us S < srtt_us T).
Proof.
  intros Hret.
  destruct (get_subflow_from_selectors_inv subs skb selector z)
    as (st & Heq & [Hfu Hbest Hmin]).
  rewrite Heq in Hret. injection Hret as Hb _ _.
  rewrite Hb in Hbest. destruct Hbest as (S & HS & Hc & Hu & Hsrtt).
  exists S. split; [exact HS |].
  unfold candidate in Hc.
  apply andb_prop in Hc as [Hc Htemp]. apply andb_prop in Hc as [Hsel Hdef].
  apply negb_true_iff in Htemp, Hdef.
  repeat (split; [assumption |]).
  intros j T HT HselT Hsame HdefT HtempT.
  rewrite Hsrtt.
  destruct (Hmin j T HT) as [Hle Hfirst].
  - unfold candidate. now rewrite HselT, HdefT, HtempT.
  - unfold unused in *. now rewrite Hsame.
  - split; [exact Hle |]. intros Hji. now apply (Hfirst i).
Qed.

End SelectorFacts.

(** C5, an instance: of a slow subflow followed by two equally fast ones,
    all active and available, the second one of the list is chosen. *)
Lemma selector_returns_lowest_srtt_witness :
  get_subflow_from_selectors sample_three_subs (Some (sample_skb 0 500 0))
    subflow_is_active false
  = (Some 1%nat, true, [0%nat; 1%nat; 2%nat]) /\
  exists S,
    sample_three_subs !! 1%nat = Some S /\
    subflow_is_active S = true /\
    mptcp_is_def_unavailable S = false /\
    mptcp_is_temp_unavailable S (Some (sample_skb 0 500 0)) false = false /\
    forall j T,
      sample_three_subs !! j = Some T ->
      subflow_is_active T = true ->
      mptcp_dont_reinject_skb T (Some (sample_skb 0 500 0))
      = mptcp_dont_reinject_skb S (Some (sample_skb 0 500 0)) ->
      mptcp_is_def_unavailable T = false ->
      mptcp_is_temp_unavailable T (Some (sample_skb 0 500 0)) false = false ->
      srtt_us S <= srtt_us T /\ ((j < 1)%nat -> srtt_us S < srtt_us T).
Proof.
  split; [vm_compute; reflexivity |].
  apply (selector_returns_lowest_srtt _ _ _ _ _ true [0%nat; 1%nat; 2%nat]).
  vm_compute; reflexivity.
Defined.

(** ** The entry point [get_available_subflow] *)

Section EntryPointFacts.
Context `{KernelEnv}.

Lemma find_best_unfold_round subs z looping skb :
  find_best subs z looping skb =
  match find_best_round subs z looping skb with
  | (Return sk skb', log) => (sk, skb', log)
  | (GotoRestart skb', log) =>
      let '(sk, skb'', log') := find_best subs z true skb' in
      (sk, skb'', log ++ log')
  end.
Proof.
  rewrite find_best_equation_1.
  generalize (inspect (find_best_round subs z looping skb)).
  intros [[r log] e].
  destruct r; cbn; rewrite e; reflexivity.
Qed.

(** A subflow returned by a pass is not definitively unavailable. *)
Lemma selectors_best_not_def_unavailable subs skb selector z i force visited :
  get_subflow_from_selectors subs skb selector z = (Some i, force, visited) ->
  exists S, subs !! i = Some S /\ mptcp_is_def_unavailable S = false.
Proof.
  intros Hret.
  destruct (get_subflow_from_selectors_inv subs skb selector z)
    as (st & Heq & [_ Hbest _]).
  rewrite Heq in Hret. injection Hret as Hb _ _.
  rewrite Hb in Hbest. destruct Hbest as (S & HS & Hc & _).
  exists S. split; [exact HS |].
  unfold candidate in Hc.
  apply andb_prop in Hc as [Hc _]. apply andb_prop in Hc as [_ Hdef].
  now apply negb_true_iff in Hdef.
Qed.

Lemma selectors_visits subs skb selector z :
  snd (get_subflow_from_selectors subs skb selector z) = seq 0 (length subs).
Proof.
  destruct (get_subflow_from_selectors_inv subs skb selector z)
    as (st & -> & _).
  reflexivity.
Qed.

Lemma find_best_round_shape subs z looping skb :
  round_shape subs looping skb (find_best_round subs z looping skb).
Proof.
  unfold find_best_round.
  pose proof (selectors_visits subs skb subflow_is_active z) as Ha.
  pose proof (selectors_visits subs skb subflow_is_backup z) as Hb.
  destruct (get_subflow_from_selectors subs skb subflow_is_active z)
    as [[sk1 force1] v1].
  destruct (get_subflow_from_selectors subs skb subflow_is_backup z)
    as [[sk2 force2] v2].
  simpl in Ha, Hb. subst v1 v2.
  destruct force1; [constructor |].
  destruct skb as [k|]; [| constructor].
  destruct force2; simpl; [constructor |].
  destruct looping; simpl; [constructor |].
  now constructor.
Qed.

Lemma find_best_round_not_def_unavailable subs z looping skb i skb' log :
  find_best_round subs z looping skb = (Return (Some i) skb', log) ->
  exists S, subs !! i = Some S /\ mptcp_is_def_unavailable S = false.
Proof.
  unfold find_best_round.
  destruct (get_subflow_from_selectors subs skb subflow_is_active z)
    as [[sk1 force1] v1] eqn:Ha.
  destruct (get_subflow_from_selectors subs skb subflow_is_backup z)
    as [[sk2 force2] v2] eqn:Hb.
  destruct force1.
  - intros [= -> _ _]. eapply selectors_best_not_def_unavailable; eauto.
  - destruct skb as [k|]; [destruct force2, looping |]; simpl;
      intros [= -> _ _]; eapply selectors_best_not_def_unavailable; eauto.
Qed.

(** The data-fin walk returns a subflow only from inside its loop, where
    the subflow has just been found available. *)
Lemma dfin_walk_available mpcb skb z :
  forall subs n i visited,
    for_each_sub_from n subs (dfin_walk_body mpcb skb z) None
    = (Some i, visited) ->
    exists T, (n <= i)%nat /\ subs !! (i - n)%nat = Some T /\
      path_index T = dfin_path_index mpcb /\
      mptcp_is_available T skb z = true.
Proof.
  induction subs as [|tp rest IH]; intros n i visited; simpl; [discriminate |].
  unfold dfin_walk_body at 1.
  destruct ((path_index tp =? dfin_path_index mpcb) &&
            mptcp_is_available tp skb z) eqn:Hc.
  - intros [= <- _]. apply andb_prop in Hc as [Hpi Hav].
    apply Z.eqb_eq in Hpi.
    exists tp. rewrite Nat.sub_diag. repeat split; auto.
  - destruct (for_each_sub_from (S n) rest _ None) as [r vis] eqn:Hrest.
    intros [= -> _].
    destruct (IH _ _ _ Hrest) as (T & Hle & HT & Hpi & Hav).
    exists T. split; [lia |]. split; [| auto].
    replace (i - n)%nat with (S (i - S n))%nat by lia. exact HT.
Qed.

(** The log of a call has one of four shapes. *)
Lemma get_available_subflow_log_shape mpcb skb z :
  let n := seq 0 (length (conn_list mpcb)) in
  let log := snd (get_available_subflow_log mpcb skb z) in
  log = [] \/
  log = [EvPass ActivePass n] \/
  log = [EvPass ActivePass n; EvPass BackupPass n] \/
  log = [EvPass ActivePass n; EvPass BackupPass n; EvRestart;
         EvPass ActivePass n] \/
  log = [EvPass ActivePass n; EvPass BackupPass n; EvRestart;
         EvPass ActivePass n; EvPass BackupPass n].
Proof.
  intros n log. subst log. unfold get_available_subflow_log.
  destruct (answer_data_fin mpcb skb z); [left; reflexivity |].
  rewrite find_best_unfold_round.
  destruct (find_best_round_shape (conn_list mpcb) z false skb)
    as [sk | sk skb' | k _ _]; simpl; auto.
  rewrite find_best_unfold_round.
  destruct (find_best_round_shape (conn_list mpcb) z true
              (Some (set_path_mask 0 k))) as [sk | sk skb' | k' Hl _];
    simpl; auto 6.
  discriminate.
Qed.

Lemma visits_in_walk (i n : nat) (kind : pass_kind) :
  (visits_in i (EvPass kind (seq 0 n)) <= 1)%nat.
Proof.
  simpl. apply (proj1 (List.NoDup_count_occ Nat.eq_dec (seq 0 n))).
  apply List.seq_NoDup.
Qed.

(** C4 (as amended).  A call of [get_available_subflow] takes the
    path-mask-clearing restart at most once -- the round run after a
    restart never asks for another one -- and returns.  Between two
    restarts the selector makes at most two passes (active, backup), so it
    makes at most four in a call, and at most two when no restart is
    taken; every pass walks each subflow exactly once, so a subflow is
    visited at most four times in a call (twice in each round). *)
Theorem get_available_subflow_visits mpcb skb z :
  let log := snd (get_available_subflow_log mpcb skb z) in
  (forall skb1 skb2,
     fst (find_best_round (conn_list mpcb) z true skb1) <> GotoRestart skb2) /\
  fst (get_available_subflow_log mpcb skb z)
  = get_available_subflow mpcb skb z /\
  (count_restarts log <= 1)%nat /\
  (count_passes log <= 2 + 2 * count_restarts log)%nat /\
  (forall kind visited,
     In (EvPass kind visited) log ->
     visited = seq 0 (length (conn_list mpcb))) /\
  (forall i, (visits i log <= 2 + 2 * count_restarts log)%nat).
Proof.
  intros log. split; [| split].
  - intros skb1 skb2 Heq.
    destruct (find_best_round_shape (conn_list mpcb) z true skb1)
      as [sk | sk skb' | k Hl _]; simpl in Heq; discriminate.
  - unfold get_available_subflow.
    destruct (get_available_subflow_log mpcb skb z) as [[sk skb'] l].
    reflexivity.
  - pose proof (fun kind i =>
      visits_in_walk i (length (conn_list mpcb)) kind) as Hone.
    pose proof (Hone ActivePass) as Ha. pose proof (Hone BackupPass) as Hb.
    subst log.
    destruct (get_available_subflow_log_shape mpcb skb z)
      as [-> | [-> | [-> | [-> | ->]]]];
      (split; [simpl; lia |]); (split; [simpl; lia |]);
      (split;
       [ intros kind visited Hin; simpl in Hin;
         repeat (destruct Hin as [Hin | Hin]; [congruence |]); contradiction
       | intros i; specialize (Ha i); specialize (Hb i);
         cbn [visits count_restarts visits_in] in *; lia ]).
Qed.

(** Whoever [get_available_subflow] returns is not definitively
    unavailable. *)
Lemma get_available_subflow_sendable mpcb skb z sk skb' :
  get_available_subflow mpcb skb z = (Some sk, skb') ->
  exists S, conn_list mpcb !! sk = Some S /\
    mptcp_is_def_unavailable S = false.
Proof.
  unfold get_available_subflow, get_available_subflow_log.
  destruct (answer_data_fin mpcb skb z) as [i|] eqn:Hdfin.
  - intros [= -> _]. unfold answer_data_fin in Hdfin.
    destruct (rcv_shutdown mpcb && _); [| discriminate].
    unfold mptcp_for_each_sub in Hdfin.
    destruct (for_each_sub_from 0 _ _ None) as [r vis] eqn:Hwalk.
    simpl in Hdfin. subst r.
    destruct (dfin_walk_available _ _ _ _ _ _ _ Hwalk)
      as (S & _ & HS & _ & Hav).
    rewrite Nat.sub_0_r in HS. exists S. split; [exact HS |].
    unfold mptcp_is_available in Hav. apply andb_prop in Hav as [Hd _].
    now apply negb_true_iff in Hd.
  - rewrite find_best_unfold_round.
    destruct (find_best_round (conn_list mpcb) z false skb)
      as [[sk1 skb1 | skb1] log1] eqn:Hr1.
    + intros [= -> _].
      eapply find_best_round_not_def_unavailable; eauto.
    + rewrite find_best_unfold_round.
      destruct (find_best_round (conn_list mpcb) z true skb1)
        as [[sk2 skb2 | skb2] log2] eqn:Hr2.
      * intros [= -> _].
        eapply find_best_round_not_def_unavailable; eauto.
      * pose proof (find_best_round_shape (conn_list mpcb) z true skb1)
          as Hshape.
        rewrite Hr2 in Hshape. inversion Hshape. discriminate.
Qed.

End EntryPointFacts.

(** C4, counterexample.  A connection whose only subflow has potentially
    failed, and a segment to send: the active and the backup pass find
    nobody, the path mask is cleared and both passes run again, so that the
    subflow is visited four times in the call. *)
Lemma get_available_subflow_four_visits :
  snd (get_available_subflow_log
         (sample_cb [sample_failed_sock 1 10000] None None 0)
         (Some (sample_skb 0 500 0)) false)
  = [EvPass ActivePass [0%nat]; EvPass BackupPass [0%nat]; EvRestart;
     EvPass ActivePass [0%nat]; EvPass BackupPass [0%nat]] /\
  ~ (visits 0
       (snd (get_available_subflow_log
               (sample_cb [sample_failed_sock 1 10000] None None 0)
               (Some (sample_skb 0 500 0)) false)) <= 2)%nat.
Proof.
  assert (Hlog :
    snd (get_available_subflow_log
           (sample_cb [sample_failed_sock 1 10000] None None 0)
           (Some (sample_skb 0 500 0)) false)
    = [EvPass ActivePass [0%nat]; EvPass BackupPass [0%nat]; EvRestart;
       EvPass ActivePass [0%nat]; EvPass BackupPass [0%nat]])
    by (vm_compute; reflexivity).
  split; [exact Hlog |]. rewrite Hlog. simpl. lia.
Qed.

(** C4, an instance of the amended statement: in the call above the
    backup pass made after the restart walks the only subflow once. *)
Lemma get_available_subflow_visits_witness :
  [0%nat] = seq 0 (length
    (conn_list (sample_cb [sample_failed_sock 1 10000] None None 0))).
Proof.
  destruct (get_available_subflow_visits
              (sample_cb [sample_failed_sock 1 10000] None None 0)
              (Some (sample_skb 0 500 0)) false)
    as (_ & _ & _ & _ & Hwalk & _).
  apply (Hwalk BackupPass [0%nat]).
  vm_compute. do 4 right. left. reflexivity.
Defined.

(** ** The receive-buffer optimisation *)

Section RcvBufFacts.
Context `{KernelEnv}.

Lemma penalize_inv_step subs tp sk skb_head now :
  subs !! sk = Some tp ->
  forall pre x cur,
    penalize_inv subs tp sk skb_head now pre cur ->
    penalize_inv subs tp sk skb_head now (pre ++ [x])
      (penalize_body sk skb_head now (length pre) cur).
Proof.
  intros Hsk pre x cur Hinv [suf Hsuf].
  rewrite <- app_assoc in Hsuf. simpl in Hsuf.
  destruct Hinv as (Hlen & Hother & tp' & Htp' & Hshape & Hstamp);
    [eexists; exact Hsuf |].
  assert (Hx : subs !! length pre = Some x).
  { rewrite Hsuf. apply list_lookup_middle. reflexivity. }
  assert (Hsrtt : srtt_us tp' = srtt_us tp) by (destruct Hshape; now subst).
  rewrite length_app. simpl.
  unfold penalize_body. rewrite Htp'.
  destruct (decide (length pre = sk)) as [Heq | Hne].
  - (* the sending subflow itself *)
    rewrite Heq, Htp'.
    assert (Hself : other_carrier sk skb_head sk tp' = false)
      by (unfold other_carrier; now rewrite Nat.eqb_refl).
    rewrite Hself.
    split; [exact Hlen |]. split.
    + intros j T HT Hj. rewrite (Hother j T HT Hj).
      replace (j <? sk + 1)%nat with (j <? sk)%nat; [now rewrite Heq |].
      destruct (Nat.ltb_spec j sk), (Nat.ltb_spec j (sk + 1)); auto; lia.
    + exists tp'. split; [exact Htp' |]. split; [exact Hshape |].
      intros (j & T & Hj & HT & Hp). apply Hstamp. exists j, T.
      split; [| auto]. destruct (decide (j = sk)) as [-> | ?]; [| lia].
      unfold penalized, other_carrier in Hp.
      rewrite Nat.eqb_refl in Hp. discriminate.
  - rewrite (Hother _ x Hx Hne), Nat.ltb_irrefl. simpl.
    fold (penalized tp' sk skb_head (length pre) x).
    assert (Hpen : penalized tp' sk skb_head (length pre) x
                   = penalized tp sk skb_head (length pre) x)
      by (unfold penalized; now rewrite Hsrtt).
    assert (Hbody :
      (if other_carrier sk skb_head (length pre) x
       then if (srtt_us tp' <? srtt_us x) &&
               tcp_ca_state_eqb (icsk_ca_state x) TCP_CA_Open
            then alter (set_last_rbuf_opti now) sk
                   (<[length pre := penalize x]> cur)
            else cur
       else cur)
      = if penalized tp sk skb_head (length pre) x
        then alter (set_last_rbuf_opti now) sk
               (<[length pre := penalize x]> cur)
        else cur).
    { rewrite <- Hpen. unfold penalized.
      destruct (other_carrier sk skb_head (length pre) x); [| reflexivity].
      simpl. reflexivity. }
    rewrite Hbody. clear Hbody Hpen.
    assert (Hlt : (length pre < length cur)%nat).
    { rewrite Hlen. eapply lookup_lt_Some. exact Hx. }
    destruct (penalized tp sk skb_head (length pre) x) eqn:Hp.
    + split; [now rewrite length_alter, length_insert |]. split.
      * intros j T HT Hj.
        rewrite list_lookup_alter_ne by auto.
        destruct (decide (j = length pre)) as [-> | Hjn].
        -- rewrite list_lookup_insert_eq by exact Hlt.
           assert (T = x) by congruence. subst T.
           replace (length pre <? length pre + 1)%nat with true
             by (symmetry; apply Nat.ltb_lt; lia).
           simpl. now rewrite Hp.
        -- rewrite list_lookup_insert_ne by auto.
           rewrite (Hother j T HT Hj).
           replace (j <? length pre + 1)%nat with (j <? length pre)%nat;
             [reflexivity |].
           destruct (Nat.ltb_spec j (length pre)),
                    (Nat.ltb_spec j (length pre + 1)); auto; lia.
      * exists (set_last_rbuf_opti now tp).
        rewrite list_lookup_alter_eq, list_lookup_insert_ne by auto.
        rewrite Htp'. simpl. split.
        -- destruct Hshape as [-> | ->]; reflexivity.
        -- split; [now right | reflexivity].
    + split; [exact Hlen |]. split.
      * intros j T HT Hj. rewrite (Hother j T HT Hj).
        destruct (decide (j = length pre)) as [-> | Hjn].
        -- assert (T = x) by congruence. subst T.
           rewrite Hp, !andb_false_r. reflexivity.
        -- replace (j <? length pre + 1)%nat with (j <? length pre)%nat;
             [reflexivity |].
           destruct (Nat.ltb_spec j (length pre)),
                    (Nat.ltb_spec j (length pre + 1)); auto; lia.
      * exists tp'. split; [exact Htp' |]. split; [exact Hshape |].
        intros (j & T & Hj & HT & HpT). apply Hstamp. exists j, T.
        split; [| auto]. destruct (decide (j = length pre)) as [-> | ?];
          [| lia].
        assert (T = x) by congruence. subst T. congruence.
Qed.

(** The subflow list after the penalisation loop. *)
Lemma penalize_slow_flows_spec mpcb sk tp skb_head :
  conn_list mpcb !! sk = Some tp ->
  let subs' := penalize_slow_flows mpcb sk skb_head in
  length subs' = length (conn_list mpcb) /\
  (forall j T, conn_list mpcb !! j = Some T -> j <> sk ->
     subs' !! j = Some (if penalized tp sk skb_head j T
                        then penalize T else T)) /\
  exists tp',
    subs' !! sk = Some tp' /\
    (tp' = tp \/ tp' = set_last_rbuf_opti (tcp_jiffies32 mpcb) tp) /\
    ((exists j T, conn_list mpcb !! j = Some T /\
        penalized tp sk skb_head j T = true) ->
     tp' = set_last_rbuf_opti (tcp_jiffies32 mpcb) tp).
Proof.
  intros Hsk subs'. subst subs'.
  unfold penalize_slow_flows, mptcp_for_each_sub.
  pose proof (for_each_sub_invariant
    (fun i (_ : tcp_sock) subs =>
       penalize_body sk skb_head (tcp_jiffies32 mpcb) i subs)
    (penalize_inv (conn_list mpcb) tp sk skb_head (tcp_jiffies32 mpcb))
    (penalize_inv_step _ _ _ _ _ Hsk) (conn_list mpcb) [] (conn_list mpcb))
    as Hinv.
  simpl in Hinv.
  destruct Hinv as (Hlen & Hother & tp' & Htp' & Hshape & Hstamp).
  - intros _. split; [reflexivity |]. split.
    + intros j T HT _. simpl. exact HT.
    + exists tp. split; [exact Hsk |]. split; [now left |].
      intros (j & T & Hj & _). simpl in Hj. lia.
  - exists []. now rewrite app_nil_r.
  - split; [exact Hlen |]. split.
    + intros j T HT Hj. rewrite (Hother j T HT Hj).
      replace (j <? length (conn_list mpcb))%nat with true; [reflexivity |].
      symmetry. apply Nat.ltb_lt. eapply lookup_lt_Some. exact HT.
    + exists tp'. split; [exact Htp' |]. split; [exact Hshape |].
      intros (j & T & HT & Hp). apply Hstamp. exists j, T.
      split; [eapply lookup_lt_Some; exact HT | auto].
Qed.

Lemma penalize_fields T :
  snd_cwnd (penalize T) = Z.max (Z.shiftr (snd_cwnd T) 1) 1 /\
  snd_ssthresh (penalize T)
  = (if snd_ssthresh T <=? snd_cwnd T
     then Z.max (Z.shiftr (snd_ssthresh T) 1) 2 else snd_ssthresh T).
Proof.
  unfold penalize. simpl.
  destruct (snd_ssthresh T <=? snd_cwnd T); simpl; auto.
Qed.

Lemma penalized_other tp sk skb_head j T :
  penalized tp sk skb_head j T = true -> j <> sk.
Proof.
  unfold penalized, other_carrier. intros Hp ->.
  rewrite Nat.eqb_refl in Hp. discriminate.
Qed.

(** The scan that decides [do_retrans] follows the rule along the other
    carriers of the head segment, with [4 * tp->srtt_us] taken on 32
    bits. *)
Lemma retrans_scan_rule tp sk skb_head :
  forall subs n b,
    fst (for_each_sub_from n subs (retrans_body tp sk skb_head) b)
    = do_retrans_rule (u32 (4 * srtt_us tp))
        (other_carriers_from n sk skb_head subs) b.
Proof.
  induction subs as [|T rest IH]; intros n b; simpl; [reflexivity |].
  unfold retrans_body at 1.
  destruct (other_carrier sk skb_head n T); simpl.
  - destruct (snd_cwnd T <=? 4); [reflexivity |].
    destruct (srtt_us T <=? u32 (4 * srtt_us tp)); [reflexivity |].
    rewrite <- IH.
    destruct (for_each_sub_from (S n) rest _ true); reflexivity.
  - rewrite <- IH.
    destruct (for_each_sub_from (S n) rest _ b); reflexivity.
Qed.

(** The call leaves the sending subflow as it was, up to its time stamp. *)
Lemma rcv_buf_opt_keeps_sender mpcb sk tp penal :
  conn_list mpcb !! sk = Some tp ->
  exists tp',
    conn_list (fst (mptcp_rcv_buf_optimization mpcb sk penal)) !! sk
    = Some tp' /\
    (tp' = tp \/ tp' = set_last_rbuf_opti (tcp_jiffies32 mpcb) tp).
Proof.
  intros Hsk. unfold mptcp_rcv_buf_optimization. rewrite Hsk.
  destruct (tcp_rtx_queue_head mpcb) as [skb_head|]; simpl; [| eauto].
  destruct (penalization_runs mpcb tp penal); simpl; [| eauto].
  destruct (penalize_slow_flows_spec mpcb sk tp skb_head Hsk)
    as (_ & _ & tp' & Htp' & Hshape & _).
  eauto.
Qed.

(** C2 (as amended).  When [mptcp_rcv_buf_optimization] is called with
    [penal = 0] while the meta socket has send-buffer space, and likewise
    when the rate limit fires ([tcp_jiffies32 - last_rbuf_opti], on 32
    bits, below [usecs_to_jiffies(srtt_us >> 3)]), control goes to the
    reinjection decision: the penalisation loop is not run, the connection
    is left as it was (no [snd_cwnd], [snd_ssthresh] or [last_rbuf_opti] is
    written) and the result is the reinjection decision taken on the
    unchanged subflows. *)
Theorem rcv_buf_opt_skips_penalization mpcb sk tp skb_head penal :
  conn_list mpcb !! sk = Some tp ->
  rtx_queue_head mpcb = Some skb_head ->
  (penal = 0 /\ sk_stream_memory_free mpcb = true) \/
  u32 (tcp_jiffies32 mpcb - last_rbuf_opti tp)
  < usecs_to_jiffies (Z.shiftr (srtt_us tp) 3) ->
  penalization_runs mpcb tp penal = false /\
  mptcp_rcv_buf_optimization mpcb sk penal
  = (mpcb, retrans_decision (conn_list mpcb) sk skb_head).
Proof.
  intros Hsk Hhead Hskip.
  assert (Hruns : penalization_runs mpcb tp penal = false).
  { unfold penalization_runs. destruct Hskip as [[-> ->] | Hlt].
    - reflexivity.
    - apply Z.ltb_lt in Hlt. rewrite Hlt.
      destruct ((penal =? 0) && sk_stream_memory_free mpcb); reflexivity. }
  split; [exact Hruns |].
  unfold mptcp_rcv_buf_optimization, tcp_rtx_queue_head.
  now rewrite Hsk, Hhead, Hruns.
Qed.

(** X26.  The reinjection decision, as the code computes it.  The call
    returns the decision taken on the subflows as the penalisation leaves
    them.  When the head segment H has not been sent on S, [do_retrans]
    starts false and the scan of the other subflows T that carry H, in
    list order, obeys: if [T.cwnd <= 4] then [do_retrans] becomes true and
    the scan stops; else if the product [4 * S.srtt_us], which the code
    forms on 32 bits, is at least [T.srtt_us] then [do_retrans] becomes
    false and the scan stops; otherwise [do_retrans] is set and the scan
    goes on.  H is returned exactly when the final [do_retrans] is true and
    S is available for H without the zero-window test; nothing else than H
    is ever returned.  For [S.srtt_us < 2^30] the product does not
    overflow and the scan is the rule with the plain [4 * S.srtt_us]. *)
Theorem rcv_buf_opt_reinjection mpcb sk tp skb_head penal :
  conn_list mpcb !! sk = Some tp ->
  rtx_queue_head mpcb = Some skb_head ->
  snd (mptcp_rcv_buf_optimization mpcb sk penal)
  = retrans_decision (conn_list (fst (mptcp_rcv_buf_optimization mpcb sk penal)))
      sk skb_head /\
  forall subs S,
    subs !! sk = Some S ->
    do_retrans_scan subs S sk skb_head
    = do_retrans_rule (u32 (4 * srtt_us S)) (other_carriers sk skb_head subs)
        false /\
    (Z.land (path_mask skb_head) (mptcp_pi_to_flag (path_index S)) = 0 ->
     (retrans_decision subs sk skb_head = Some skb_head <->
      do_retrans_scan subs S sk skb_head = true /\
      mptcp_is_available S (Some skb_head) false = true)) /\
    (retrans_decision subs sk skb_head = None \/
     retrans_decision subs sk skb_head = Some skb_head) /\
    (Z.land (path_mask skb_head) (mptcp_pi_to_flag (path_index S)) <> 0 ->
     retrans_decision subs sk skb_head = None) /\
    (0 <= srtt_us S < 2 ^ 30 ->
     do_retrans_scan subs S sk skb_head
     = do_retrans_rule (4 * srtt_us S) (other_carriers sk skb_head subs) false).
Proof.
  intros Hsk Hhead. split.
  - unfold mptcp_rcv_buf_optimization, tcp_rtx_queue_head.
    rewrite Hsk, Hhead. reflexivity.
  - intros subs S HS.
    assert (Hscan : do_retrans_scan subs S sk skb_head
                    = do_retrans_rule (u32 (4 * srtt_us S))
                        (other_carriers sk skb_head subs) false)
      by apply retrans_scan_rule.
    split; [exact Hscan |].
    unfold retrans_decision. rewrite HS.
    destruct (Z.eqb_spec
                (Z.land (path_mask skb_head)
                   (mptcp_pi_to_flag (path_index S))) 0) as [Hz | Hnz].
    + split; [| split; [| split]].
      * intros _.
        destruct (do_retrans_scan subs S sk skb_head);
          destruct (mptcp_is_available S (Some skb_head) false); simpl;
          split; auto; try discriminate; intros [? ?]; discriminate.
      * destruct (do_retrans_scan subs S sk skb_head &&
                  mptcp_is_available S (Some skb_head) false); auto.
      * intros Hc. contradiction.
      * intros Hrange. rewrite Hscan, u32_small; [reflexivity | lia].
    + split; [| split; [| split]].
      * intros Hc. contradiction.
      * now left.
      * reflexivity.
      * intros Hrange. rewrite Hscan, u32_small; [reflexivity | lia].
Qed.

(** C7.  When the penalisation loop runs, every other subflow T that
    carries the head segment, is slower than S and is in the Open state
    comes out with [cwnd = max(cwnd >> 1, 1)], hence [cwnd >= 1], and with
    [ssthresh = max(ssthresh >> 1, 2)] if its [cwnd] before the call was at
    least its [ssthresh], its [ssthresh] being untouched otherwise.  Hence
    [ssthresh >= 2] after the call: whenever it has been halved, and, for
    a subflow that came in with a congestion window of at least one
    segment, as every subflow of the TCP stack does (line 303 keeps it
    so), also when it has been left alone, since it is then above
    [cwnd].  The time stamp [last_rbuf_opti] of S is then the current
    time. *)
Theorem rcv_buf_opt_penalty mpcb sk tp skb_head penal :
  conn_list mpcb !! sk = Some tp ->
  rtx_queue_head mpcb = Some skb_head ->
  penalization_runs mpcb tp penal = true ->
  forall j T,
    conn_list mpcb !! j = Some T ->
    penalized tp sk skb_head j T = true ->
    exists T' tp',
      conn_list (fst (mptcp_rcv_buf_optimization mpcb sk penal)) !! j
      = Some T' /\
      snd_cwnd T' = Z.max (Z.shiftr (snd_cwnd T) 1) 1 /\
      1 <= snd_cwnd T' /\
      snd_ssthresh T'
      = (if snd_ssthresh T <=? snd_cwnd T
         then Z.max (Z.shiftr (snd_ssthresh T) 1) 2 else snd_ssthresh T) /\
      (snd_ssthresh T <= snd_cwnd T -> 2 <= snd_ssthresh T') /\
      (1 <= snd_cwnd T -> 2 <= snd_ssthresh T') /\
      conn_list (fst (mptcp_rcv_buf_optimization mpcb sk penal)) !! sk
      = Some tp' /\
      last_rbuf_opti tp' = tcp_jiffies32 mpcb.
Proof.
  intros Hsk Hhead Hruns j T HT Hp.
  unfold mptcp_rcv_buf_optimization, tcp_rtx_queue_head.
  rewrite Hsk, Hhead, Hruns. simpl.
  destruct (penalize_slow_flows_spec mpcb sk tp skb_head Hsk)
    as (_ & Hother & tp' & Htp' & _ & Hstamp).
  exists (penalize T), tp'.
  rewrite (Hother j T HT (penalized_other _ _ _ _ _ Hp)), Hp.
  destruct (penalize_fields T) as [Hcwnd Hss].
  rewrite Hcwnd, Hss.
  split; [reflexivity |]. split; [reflexivity |]. split; [lia |].
  split; [reflexivity |]. split; [| split; [| split]].
  - intros Hle. apply Z.leb_le in Hle. rewrite Hle. lia.
  - intros Hcw. destruct (Z.leb_spec (snd_ssthresh T) (snd_cwnd T)); lia.
  - exact Htp'.
  - rewrite Hstamp; [reflexivity |]. exists j, T. auto.
Qed.

End RcvBufFacts.

(** C2, counterexample.  The sending subflow is the first of two; the
    second one carries the head segment, is slower and is in the Open
    state, with a window of 10.  Called with [penal = 0] while the meta
    socket has send-buffer space, and called with [penal = 1] at the time
    of the last penalisation, the function leaves that window at 10,
    whereas the penalisation loop would make it 5. *)
Lemma rcv_buf_opt_bypass_keeps_cwnd :
  penalized (sample_sock 1 10000 10 10) 0 sample_head 1
    (sample_sock 2 20000 10 10) = true /\
  snd_cwnd <$>
    conn_list (fst (mptcp_rcv_buf_optimization
                      (sample_cb (sample_two_subs 10 10) None
                         (Some sample_head) 0) 0 0)) !! 1%nat = Some 10 /\
  snd_cwnd <$>
    conn_list (fst (mptcp_rcv_buf_optimization
                      (sample_cb (sample_two_subs 10 10) None
                         (Some sample_head) 0) 0 1)) !! 1%nat = Some 10 /\
  snd_cwnd <$>
    penalize_slow_flows
      (sample_cb (sample_two_subs 10 10) None (Some sample_head) 0)
      0 sample_head !! 1%nat = Some 5 /\
  conn_list (fst (mptcp_rcv_buf_optimization
                    (sample_cb (sample_two_subs 10 10) None
                       (Some sample_head) 0) 0 0))
  <> penalize_slow_flows
       (sample_cb (sample_two_subs 10 10) None (Some sample_head) 0)
       0 sample_head.
Proof.
  repeat split; try (vm_compute; reflexivity).
  vm_compute. discriminate.
Qed.

(** C2, an instance of the amended statement: the call with [penal = 0]
    and send-buffer space leaves the sample connection as it is. *)
Lemma rcv_buf_opt_skips_penalization_witness :
  penalization_runs
    (sample_cb (sample_two_subs 10 10) None (Some sample_head) 0)
    (sample_sock 1 10000 10 10) 0 = false /\
  mptcp_rcv_buf_optimization
    (sample_cb (sample_two_subs 10 10) None (Some sample_head) 0) 0 0
  = (sample_cb (sample_two_subs 10 10) None (Some sample_head) 0,
     retrans_decision (sample_two_subs 10 10) 0 sample_head).
Proof.
  apply (rcv_buf_opt_skips_penalization
           (sample_cb (sample_two_subs 10 10) None (Some sample_head) 0)
           0 (sample_sock 1 10000 10 10) sample_head 0).
  - reflexivity.
  - reflexivity.
  - left. split; reflexivity.
Defined.

(** C6, the code at the failing input.  The sending subflow has
    [srtt_us = 2^30]; the only carrier of the head segment has a window of
    10 and [srtt_us = 5].  Since [4 * 2^30] overflows to 0 on 32 bits, the
    comparison [4 * tp->srtt_us >= tp_it->srtt_us] comes out false, the
    code sets [do_retrans] and returns the head segment, whereas the rule
    of the claim, with the product the comparison is after
    ([2^32 >= 5]), decides against the retransmission. *)
Lemma rcv_buf_opt_product_wraps :
  snd (mptcp_rcv_buf_optimization
         (sample_cb sample_huge_rtt_subs None (Some sample_head) 0) 0 0)
  = Some sample_head /\
  do_retrans_rule (4 * srtt_us (sample_sock 1 (2 ^ 30) 10 10))
    (other_carriers 0 sample_head sample_huge_rtt_subs) false = false /\
  ~ (snd (mptcp_rcv_buf_optimization
            (sample_cb sample_huge_rtt_subs None (Some sample_head) 0) 0 0)
     = Some sample_head <->
     do_retrans_rule (4 * srtt_us (sample_sock 1 (2 ^ 30) 10 10))
       (other_carriers 0 sample_head sample_huge_rtt_subs) false = true /\
     mptcp_is_available (sample_sock 1 (2 ^ 30) 10 10) (Some sample_head)
       false = true).
Proof.
  split; [vm_compute; reflexivity |]. split; [vm_compute; reflexivity |].
  intros [Hret _].
  destruct Hret as [Hrule _]; [vm_compute; reflexivity |].
  vm_compute in Hrule. discriminate.
Qed.

(** X26, an instance (scenario 5 of the spec): the head segment is
    carried by a subflow with [srtt_us = 20000] and a window of 10 only,
    the sending subflow has [srtt_us = 10000]; the scan decides against
    the retransmission and NULL is returned. *)
Lemma rcv_buf_opt_reinjection_witness :
  mptcp_rcv_buf_optimization
    (sample_cb (sample_two_subs 10 10) None (Some sample_head) 0) 0 0
  = (sample_cb (sample_two_subs 10 10) None (Some sample_head) 0, None) /\
  (retrans_decision (sample_two_subs 10 10) 0 sample_head = Some sample_head
   <->
   do_retrans_scan (sample_two_subs 10 10) (sample_sock 1 10000 10 10) 0
     sample_head = true /\
   mptcp_is_available (sample_sock 1 10000 10 10) (Some sample_head) false
   = true) /\
  do_retrans_scan (sample_two_subs 10 10) (sample_sock 1 10000 10 10) 0
    sample_head
  = do_retrans_rule (4 * 10000)
      (other_carriers 0 sample_head (sample_two_subs 10 10)) false.
Proof.
  split; [vm_compute; reflexivity |].
  destruct (rcv_buf_opt_reinjection
              (sample_cb (sample_two_subs 10 10) None (Some sample_head) 0)
              0 (sample_sock 1 10000 10 10) sample_head 0
              eq_refl eq_refl) as [_ Hdec].
  destruct (Hdec (sample_two_subs 10 10) (sample_sock 1 10000 10 10) eq_refl)
    as (_ & Hiff & _ & _ & Hplain).
  split.
  - apply Hiff. vm_compute; reflexivity.
  - apply Hplain. simpl. lia.
Defined.

(** The bound on [ssthresh] needs the congestion window of at least one
    segment that the TCP stack keeps.  A carrier made up with [cwnd = 0]
    and [ssthresh = 1], which no subflow of the stack has, is penalised,
    its [cwnd] becomes 1, and since 0 is below its [ssthresh] the latter
    stays at 1. *)
Lemma rcv_buf_opt_ssthresh_below_two :
  penalization_runs
    (sample_cb (sample_two_subs 0 1) None (Some sample_head) 1000)
    (sample_sock 1 10000 10 10) 1 = true /\
  penalized (sample_sock 1 10000 10 10) 0 sample_head 1
    (sample_sock 2 20000 0 1) = true /\
  ~ (forall T',
       conn_list (fst (mptcp_rcv_buf_optimization
                         (sample_cb (sample_two_subs 0 1) None
                            (Some sample_head) 1000) 0 1)) !! 1%nat
       = Some T' ->
       1 <= snd_cwnd T' /\ 2 <= snd_ssthresh T').
Proof.
  split; [vm_compute; reflexivity |]. split; [vm_compute; reflexivity |].
  intros Hclaim.
  destruct (Hclaim (set_snd_cwnd 1 (sample_sock 2 20000 0 1))) as [_ Hss].
  - vm_compute; reflexivity.
  - vm_compute in Hss. apply Hss. reflexivity.
Qed.

(** C7, an instance: a carrier with a window and a threshold of 10 comes
    out with 5 and 5, and the sending subflow with the time of the call as
    its time stamp. *)
Lemma rcv_buf_opt_penalty_witness :
  exists T' tp',
    conn_list (fst (mptcp_rcv_buf_optimization
                      (sample_cb (sample_two_subs 10 10) None
                         (Some sample_head) 1000) 0 1)) !! 1%nat
    = Some T' /\
    snd_cwnd T' = Z.max (Z.shiftr 10 1) 1 /\
    1 <= snd_cwnd T' /\
    snd_ssthresh T' = (if 10 <=? 10 then Z.max (Z.shiftr 10 1) 2 else 10) /\
    (10 <= 10 -> 2 <= snd_ssthresh T') /\
    (1 <= 10 -> 2 <= snd_ssthresh T') /\
    conn_list (fst (mptcp_rcv_buf_optimization
                      (sample_cb (sample_two_subs 10 10) None
                         (Some sample_head) 1000) 0 1)) !! 0%nat
    = Some tp' /\
    last_rbuf_opti tp' = 1000.
Proof.
  assert (Hruns :
    penalization_runs
      (sample_cb (sample_two_subs 10 10) None (Some sample_head) 1000)
      (sample_sock 1 10000 10 10) 1 = true) by (vm_compute; reflexivity).
  assert (Hpen :
    penalized (sample_sock 1 10000 10 10) 0 sample_head 1
      (sample_sock 2 20000 10 10) = true) by (vm_compute; reflexivity).
  exact (rcv_buf_opt_penalty
           (sample_cb (sample_two_subs 10 10) None (Some sample_head) 1000)
           0 (sample_sock 1 10000 10 10) sample_head 1
           eq_refl eq_refl Hruns 1%nat (sample_sock 2 20000 10 10)
           eq_refl Hpen).
Defined.

(** ** The segment chooser *)


(** Closes a case in which the call returns NULL although the result is
    known to carry a segment, or a subflow. *)
Ltac returns_null H := injection H as _ <-; discriminate.

Section SegmentFacts.
Context `{KernelEnv}.
Variable get_subflow : get_subflow_t.




Lemma skb_store_conn_list r skb mpcb :
  conn_list (skb_store r skb mpcb) = conn_list mpcb.
Proof. destruct r; reflexivity. Qed.

Lemma default_get_subflow_sendable mpcb skb z sk mpcb' :
  default_get_subflow mpcb skb z = (Some sk, mpcb') ->
  exists S, conn_list mpcb' !! sk = Some S /\
    mptcp_is_def_unavailable S = false.
Proof.
  unfold default_get_subflow.
  destruct (get_available_subflow mpcb (skb ≫= skb_deref mpcb) z)
    as [sk0 skb'] eqn:Hget.
  intros [= -> <-].
  destruct (get_available_subflow_sendable _ _ _ _ _ Hget) as (S & HS & Hdef).
  exists S. split; [| exact Hdef].
  destruct skb as [r|], skb' as [k|]; rewrite ?skb_store_conn_list; exact HS.
Qed.

Lemma next_segment_clamp_subsk m sk k reinject mss :
  conn_list (fst (next_segment_clamp m sk k reinject mss)) = conn_list m /\
  ns_subsk (snd (next_segment_clamp m sk k reinject mss)) = Some sk.
Proof.
  unfold next_segment_clamp.
  destruct (conn_list m !! sk) as [subtp|]; [| now split].
  destruct (skb_len k <=? mss); [| destruct (split_limit subtp k mss)];
    destruct (reinject =? 0); now split.
Qed.

(** The subflow handed out by [mptcp_next_segment], under the default
    [get_subflow], is not definitively unavailable. *)
Lemma next_segment_sendable mpcb mpcb' r sk :
  mptcp_next_segment default_get_subflow mpcb = (mpcb', r) ->
  ns_subsk r = Some sk ->
  exists S, conn_list mpcb' !! sk = Some S /\
    mptcp_is_def_unavailable S = false.
Proof.
  unfold mptcp_next_segment. intros Hns Hsk.
  destruct (__mptcp_next_segment default_get_subflow mpcb)
    as [[m1 skb] reinject].
  destruct skb as [r0|]; [| returns_null Hns].
  destruct (default_get_subflow m1 (Some r0) false) as [subsk m2] eqn:Hget.
  destruct subsk as [sk0|]; [| returns_null Hns].
  destruct (default_get_subflow_sendable _ _ _ _ _ Hget) as (S & HS & Hdef).
  destruct (skb_deref m2 r0) as [k|];
    [| injection Hns as <- <-; injection Hsk as <-; eauto].
  rewrite HS in Hns. unfold tcp_current_mss in Hns.
  destruct ((reinject =? 0) && negb (tcp_snd_wnd_test m2 k (mss_now S))).
  - destruct (rcv_buf_opt_keeps_sender
                (tcp_chrono_start OnMeta TCP_CHRONO_RWND_LIMITED m2)
                sk0 S 1 HS) as (tp' & Htp' & Hshape).
    assert (Hdef' : mptcp_is_def_unavailable tp' = false)
      by (destruct Hshape; subst; exact Hdef).
    destruct (mptcp_rcv_buf_optimization _ sk0 1) as [m3 [h|]];
      simpl in Htp'.
    + destruct (next_segment_clamp_subsk m3 sk0 h (-1) (mss_now S))
        as [Hlist Hsub].
      rewrite Hns in Hlist, Hsub. simpl in Hlist, Hsub.
      rewrite Hsk in Hsub. injection Hsub as ->.
      exists tp'. now rewrite Hlist.
    + injection Hns as <- <-. injection Hsk as <-. eauto.
  - destruct (next_segment_clamp_subsk m2 sk0 k reinject (mss_now S))
      as [Hlist Hsub].
    rewrite Hns in Hlist, Hsub. simpl in Hlist, Hsub.
    rewrite Hsk in Hsub. injection Hsub as ->.
    exists S. now rewrite Hlist.
Qed.

(** C8.  A subflow that is definitively unavailable -- it cannot send, or
    is pre-established, or has potentially failed -- is never returned:
    whoever [get_available_subflow] returns, from the data-fin walk or from
    a pass of the selector, before or after the restart, is a subflow of
    the connection for which none of the three holds; and so is the subflow
    that [mptcp_next_segment] hands out when it asks
    [get_available_subflow]. *)
Theorem def_unavailable_never_returned :
  (forall mpcb skb z sk skb',
     get_available_subflow mpcb skb z = (Some sk, skb') ->
     exists S,
       conn_list mpcb !! sk = Some S /\
       mptcp_is_def_unavailable S = false /\
       mptcp_sk_can_send S = true /\ pre_established S = false /\
       pf S = false) /\
  (forall mpcb mpcb' r sk,
     mptcp_next_segment default_get_subflow mpcb = (mpcb', r) ->
     ns_subsk r = Some sk ->
     exists S,
       conn_list mpcb' !! sk = Some S /\
       mptcp_is_def_unavailable S = false).
Proof.
  split.
  - intros mpcb skb z sk skb' Hret.
    destruct (get_available_subflow_sendable _ _ _ _ _ Hret)
      as (S & HS & Hdef).
    exists S. split; [exact HS |]. split; [exact Hdef |].
    unfold mptcp_is_def_unavailable in Hdef.
    destruct (mptcp_sk_can_send S), (pre_established S), (pf S);
      simpl in Hdef; try discriminate; auto.
  - intros mpcb mpcb' r sk. apply next_segment_sendable.
Qed.

End SegmentFacts.

(** C8, instances: [get_available_subflow] returns the second of the three
    sample subflows, and [mptcp_next_segment] hands it out. *)
Lemma def_unavailable_never_returned_witness :
  (get_available_subflow (sample_cb sample_three_subs None None 0)
     (Some (sample_skb 0 500 0)) false
   = (Some 1%nat, Some (sample_skb 0 500 0)) /\
   exists S,
     sample_three_subs !! 1%nat = Some S /\
     mptcp_is_def_unavailable S = false /\
     mptcp_sk_can_send S = true /\ pre_established S = false /\
     pf S = false) /\
  (ns_subsk
     (snd (mptcp_next_segment default_get_subflow
             (sample_cb sample_three_subs (Some (sample_skb 0 500 0))
                None 0))) = Some 1%nat /\
   exists S,
     sample_three_subs !! 1%nat = Some S /\
     mptcp_is_def_unavailable S = false).
Proof.
  split; (split; [vm_compute; reflexivity |]).
  - apply (proj1 def_unavailable_never_returned
             (sample_cb sample_three_subs None None 0)
             (Some (sample_skb 0 500 0)) false 1%nat
             (Some (sample_skb 0 500 0))).
    vm_compute; reflexivity.
  - assert (Hrun :
      mptcp_next_segment default_get_subflow
        (sample_cb sample_three_subs (Some (sample_skb 0 500 0)) None 0)
      = (tcp_chrono_start OnMeta TCP_CHRONO_BUSY
           (sample_cb sample_three_subs (Some (sample_skb 0 500 0)) None 0),
         {| ns_skb := Some (sample_skb 0 500 0); ns_reinject := 0;
            ns_subsk := Some 1%nat; ns_limit := 0 |}))
      by (vm_compute; reflexivity).
    exact (proj2 def_unavailable_never_returned _ _ _ 1%nat Hrun eq_refl).
Defined.



(** ** The registry *)

Section RegistryFacts.
Import Registry.

Lemma mptcp_sched_find_Some l nm e :
  mptcp_sched_find l nm = Some e -> e ∈ l /\ name e = nm.
Proof.
  induction l as [|x rest IH]; simpl; [discriminate |].
  unfold strcmp_eq. destruct (String.eqb_spec (name x) nm) as [Heq | Hne].
  - intros [= <-]. split; [left | exact Heq].
  - intros Hfind. destruct (IH Hfind). split; [now right | assumption].
Qed.

Lemma mptcp_sched_find_None l nm :
  mptcp_sched_find l nm = None <-> forall e, e ∈ l -> name e <> nm.
Proof.
  induction l as [|x rest IH]; simpl.
  - split; [intros _ e He; inversion He | reflexivity].
  - unfold strcmp_eq. destruct (String.eqb_spec (name x) nm) as [Heq | Hne].
    + split; [discriminate |]. intros Hall. exfalso.
      apply (Hall x); [left | exact Heq].
    + rewrite IH. split.
      * intros Hall e He. inversion He; subst; auto.
      * intros Hall e He. apply Hall. now right.
Qed.

(** C9.  [mptcp_register_scheduler] fails with [-EINVAL] when
    [get_subflow] or [next_segment] is missing, and with [-EEXIST] when an
    entry of the list has the name of the new one; in both cases the list
    is left as it was.  Otherwise it succeeds and the list is the old one
    followed by the new entry. *)
Theorem register_scheduler_outcomes (l : list mptcp_sched_ops)
    (sched : mptcp_sched_ops) :
  (get_subflow sched = 0 \/ next_segment sched = 0 ->
   mptcp_register_scheduler l sched = (Err EINVAL, l)) /\
  (get_subflow sched <> 0 -> next_segment sched <> 0 ->
   (exists e, e ∈ l /\ name e = name sched) ->
   mptcp_register_scheduler l sched = (Err EEXIST, l)) /\
  (get_subflow sched <> 0 -> next_segment sched <> 0 ->
   (forall e, e ∈ l -> name e <> name sched) ->
   mptcp_register_scheduler l sched = (Ok, l ++ [sched])).
Proof.
  unfold mptcp_register_scheduler. split; [| split].
  - intros [-> | ->]; simpl; [reflexivity |]. now rewrite orb_true_r.
  - intros Hg Hn (e & He & Hname).
    apply Z.eqb_neq in Hg, Hn. rewrite Hg, Hn. simpl.
    destruct (mptcp_sched_find l (name sched)) eqn:Hfind; [reflexivity |].
    exfalso. rewrite mptcp_sched_find_None in Hfind. now apply (Hfind e).
  - intros Hg Hn Hfresh.
    apply Z.eqb_neq in Hg, Hn. rewrite Hg, Hn. simpl.
    apply mptcp_sched_find_None in Hfresh. now rewrite Hfresh.
Qed.

Variable CONFIG_MODULES : bool.
Variable request_module : string -> list mptcp_sched_ops -> list mptcp_sched_ops.

(** C10.  [mptcp_set_scheduler] returns [-ENOENT] exactly when the lookup
    with autoload finds nothing; this is the case, whatever the privileges
    of the caller, when no entry has the name either in the list or in the
    list as loading the module would leave it.  It returns [-EPERM] only
    when the scheduler has been found and [ns_capable] denies the
    capability.  The name and the flag stored in the socket change only
    when the call succeeds, and are then the name given and 1. *)
Theorem set_scheduler_outcomes (l : list mptcp_sched_ops)
    (capable ns_capable : bool) (sk : sched_sockopt) (nm : string)
    (ret : retval) (sk' : sched_sockopt) (l' : list mptcp_sched_ops) :
  mptcp_set_scheduler CONFIG_MODULES request_module l capable ns_capable sk nm
  = (ret, sk', l') ->
  (ret = Err ENOENT <->
   fst (__mptcp_sched_find_autoload CONFIG_MODULES request_module l capable nm)
   = None) /\
  ((forall e, e ∈ l -> name e <> nm) ->
   (forall e, e ∈ request_module nm l -> name e <> nm) ->
   ret = Err ENOENT) /\
  (ret = Err EPERM ->
   (exists e, e ∈ l' /\ name e = nm) /\ ns_capable = false) /\
  (ret <> Ok -> sk' = sk) /\
  (ret = Ok ->
   sk' = {| mptcp_sched_name := nm; mptcp_sched_setsockopt := true |} /\
   ns_capable = true /\ exists e, e ∈ l' /\ name e = nm).
Proof.
  unfold mptcp_set_scheduler.
  destruct (__mptcp_sched_find_autoload CONFIG_MODULES request_module l
              capable nm) as [sched l1] eqn:Hfind.
  assert (Hin : forall e, sched = Some e -> e ∈ l1 /\ name e = nm).
  { intros e ->. unfold __mptcp_sched_find_autoload in Hfind.
    destruct (mptcp_sched_find l nm) as [e0|] eqn:Hl.
    - injection Hfind as <- <-. now apply mptcp_sched_find_Some.
    - destruct (CONFIG_MODULES && capable); [| discriminate].
      injection Hfind as Hf <-. now apply mptcp_sched_find_Some. }
  assert (Hnone : (forall e, e ∈ l -> name e <> nm) ->
                  (forall e, e ∈ request_module nm l -> name e <> nm) ->
                  sched = None).
  { intros Hl Hrm. apply mptcp_sched_find_None in Hl, Hrm.
    unfold __mptcp_sched_find_autoload in Hfind. rewrite Hl in Hfind.
    destruct (CONFIG_MODULES && capable); injection Hfind as <- _;
      [exact Hrm | reflexivity]. }
  simpl. destruct sched as [e|].
  - destruct ns_capable; simpl; intros [= <- <- <-].
    + split; [split; discriminate |]. split.
      * intros Hl Hrm. specialize (Hnone Hl Hrm). discriminate.
      * split; [discriminate |]. split; [intros Hc; now contradiction Hc |].
        intros _. split; [reflexivity |]. split; [reflexivity |].
        exists e. now apply Hin.
    + split; [split; discriminate |]. split.
      * intros Hl Hrm. specialize (Hnone Hl Hrm). discriminate.
      * split; [| split; [reflexivity | discriminate]].
        intros _. split; [| reflexivity]. exists e. now apply Hin.
  - intros [= <- <- <-].
    split; [split; reflexivity |]. split; [reflexivity |].
    split; [discriminate |]. split; [reflexivity | discriminate].
Qed.

End RegistryFacts.

(** C9, instances: a new name is appended, a second registration of it is
    refused, and so is an entry without [next_segment]. *)
Lemma register_scheduler_outcomes_witness :
  Registry.mptcp_register_scheduler [sample_sched "default"] (sample_sched "x")
  = (Registry.Ok, [sample_sched "default"; sample_sched "x"]) /\
  Registry.mptcp_register_scheduler [sample_sched "default"; sample_sched "x"]
    (sample_sched "x")
  = (Registry.Err Registry.EEXIST, [sample_sched "default"; sample_sched "x"]) /\
  Registry.mptcp_register_scheduler [sample_sched "default"]
    (Registry.mk_mptcp_sched_ops 1 0 0 "y" 0)
  = (Registry.Err Registry.EINVAL, [sample_sched "default"]).
Proof.
  split; [| split].
  - apply (register_scheduler_outcomes [sample_sched "default"]
             (sample_sched "x")).
    + simpl. lia.
    + simpl. lia.
    + intros e He. apply list_elem_of_singleton in He. subst e.
      simpl. discriminate.
  - apply (register_scheduler_outcomes
             [sample_sched "default"; sample_sched "x"] (sample_sched "x")).
    + simpl. lia.
    + simpl. lia.
    + exists (sample_sched "x"). split; [| reflexivity].
      right. left.
  - apply (register_scheduler_outcomes [sample_sched "default"]
             (Registry.mk_mptcp_sched_ops 1 0 0 "y" 0)).
    right. reflexivity.
Defined.

(** C10, instances: for an unprivileged caller an unknown name gives
    [-ENOENT] and a registered one [-EPERM], and the socket keeps its
    setting in both cases. *)
Lemma set_scheduler_outcomes_witness :
  (Registry.mptcp_set_scheduler true sample_no_module
     [sample_sched "default"] false false sample_sockopt "nope"
   = (Registry.Err Registry.ENOENT, sample_sockopt, [sample_sched "default"])
   /\
   Registry.mptcp_set_scheduler true sample_no_module
     [sample_sched "default"] false false sample_sockopt "default"
   = (Registry.Err Registry.EPERM, sample_sockopt, [sample_sched "default"]))
  /\
  Registry.Err Registry.ENOENT = Registry.Err Registry.ENOENT /\
  ((exists e, e ∈ [sample_sched "default"] /\ Registry.name e = "default") /\
   false = false) /\
  sample_sockopt = sample_sockopt.
Proof.
  split; [split; reflexivity |].
  split; [| split].
  - apply (set_scheduler_outcomes true sample_no_module
             [sample_sched "default"] false false sample_sockopt "nope"
             (Registry.Err Registry.ENOENT) sample_sockopt
             [sample_sched "default"] eq_refl).
    + intros e He. apply list_elem_of_singleton in He. subst e.
      simpl. discriminate.
    + intros e He. apply list_elem_of_singleton in He. subst e.
      simpl. discriminate.
  - apply (set_scheduler_outcomes true sample_no_module
             [sample_sched "default"] false false sample_sockopt "default"
             (Registry.Err Registry.EPERM) sample_sockopt
             [sample_sched "default"] eq_refl).
    reflexivity.
  - apply (set_scheduler_outcomes true sample_no_module
             [sample_sched "default"] false false sample_sockopt "default"
             (Registry.Err Registry.EPERM) sample_sockopt
             [sample_sched "default"] eq_refl).
    discriminate.
Defined.

(** ** The scenarios of §8 of the spec, run on the sample instance *)

(** Scenario 1: of two available active subflows the faster one is chosen,
    as a fresh subflow. *)
Example scenario_fastest_active :
  get_subflow_from_selectors
    [sample_sock 1 10000 10 10; sample_sock 2 20000 10 10]
    (Some (sample_skb 0 500 0)) subflow_is_active false
  = (Some 0%nat, true, [0%nat; 1%nat]).
Proof. vm_compute; reflexivity. Qed.

(** Scenario 2: the faster subflow has a full window. *)
Example scenario_fastest_busy :
  get_subflow_from_selectors
    [sample_busy_sock 1 10000; sample_sock 2 20000 10 10]
    (Some (sample_skb 0 500 0)) subflow_is_active false
  = (Some 1%nat, true, [0%nat; 1%nat]).
Proof. vm_compute; reflexivity. Qed.

(** Scenario 3: the segment has been sent on the faster subflow; and on
    both. *)
Example scenario_already_sent :
  get_subflow_from_selectors
    [sample_sock 1 10000 10 10; sample_sock 2 20000 10 10]
    (Some (sample_skb 0 500 (pi_to_flag 1))) subflow_is_active false
  = (Some 1%nat, true, [0%nat; 1%nat]) /\
  get_subflow_from_selectors
    [sample_sock 1 10000 10 10; sample_sock 2 20000 10 10]
    (Some (sample_skb 0 500 (Z.lor (pi_to_flag 1) (pi_to_flag 2))))
    subflow_is_active false
  = (Some 0%nat, false, [0%nat; 1%nat]).
Proof. split; vm_compute; reflexivity. Qed.

(** Scenario 4: no active subflow can be used, a backup one can. *)
Example scenario_backup :
  get_available_subflow
    (sample_cb [sample_failed_sock 1 10000; sample_backup_sock 2 50000]
       None None 0)
    (Some (sample_skb 0 500 0)) false
  = (Some 1%nat, Some (sample_skb 0 500 0)).
Proof. vm_compute; reflexivity. Qed.

(** Scenario 5: the head segment is carried by a subflow with
    [srtt_us = 20000], resp. 80000, and the sending subflow has
    [srtt_us = 10000]. *)
Example scenario_reinjection :
  snd (mptcp_rcv_buf_optimization
         (sample_cb [sample_sock 1 10000 10 10; sample_sock 2 20000 10 10]
            None (Some sample_head) 0) 0 0) = None /\
  snd (mptcp_rcv_buf_optimization
         (sample_cb [sample_sock 1 10000 10 10; sample_sock 2 80000 10 10]
            None (Some sample_head) 0) 0 0) = Some sample_head.
Proof. split; vm_compute; reflexivity. Qed.

(** Scenario 6: a name is registered once. *)
Example scenario_registry :
  Registry.mptcp_register_scheduler [] (sample_sched "x")
  = (Registry.Ok, [sample_sched "x"]) /\
  Registry.mptcp_register_scheduler [sample_sched "x"] (sample_sched "x")
  = (Registry.Err Registry.EEXIST, [sample_sched "x"]).
Proof. split; vm_compute; reflexivity. Qed.

(** * Further properties *)

(** ** The selector: what [*force] tells *)

Section SelectorForce.
Context `{KernelEnv}.

Lemma existsb_lookup {A : Type} (f : A -> bool) (l : list A) :
  existsb f l = true <-> exists j x, l !! j = Some x /\ f x = true.
Proof.
  rewrite existsb_exists. split.
  - intros (x & Hin & Hf). apply list_elem_of_In in Hin.
    apply list_elem_of_lookup_1 in Hin as [j Hj]. eauto.
  - intros (j & x & Hj & Hf). exists x. split; [| exact Hf].
    apply list_elem_of_In. eapply list_elem_of_lookup_2. exact Hj.
Qed.

Lemma sel_inv_una_step skb selector z pre tp st :
  sel_inv_una skb selector z pre st ->
  sel_inv_una skb selector z (pre ++ [tp])
    (selector_body skb selector z (length pre) tp st).
Proof.
  intros [Hu Hle Hlt]. unfold selector_body.
  assert (Hsn : existsb (stalled skb selector z) (pre ++ [tp])
                = found_unused_una st || stalled skb selector z tp)
    by (now rewrite existsb_snoc, Hu).
  unfold stalled at 2 in Hsn. unfold unused in Hsn. unfold U32_MAX in *.
  destruct (selector tp), (mptcp_dont_reinject_skb tp skb),
    (found_unused st), (mptcp_is_def_unavailable tp),
    (mptcp_is_temp_unavailable tp skb z); simpl in *;
    try destruct (Z.ltb_spec (srtt_us tp) (min_srtt st));
    try destruct (Z.ltb_spec (srtt_us tp) 0xffffffff);
    (split; simpl; unfold U32_MAX;
     [ rewrite Hsn, ?orb_false_r, ?orb_true_r; reflexivity
     | lia
     | intros i Hi; try discriminate; try (apply Hlt in Hi); lia ]).
Qed.

Lemma sel_inv_una_init skb selector z : sel_inv_una skb selector z [] sel_init.
Proof. split; simpl; [reflexivity | reflexivity | discriminate]. Qed.

(** Both invariants hold for the final state of a pass. *)
Lemma get_subflow_from_selectors_inv_una subs skb selector z :
  exists st,
    get_subflow_from_selectors subs skb selector z
    = (bestsk st, sel_force st, seq 0 (length subs)) /\
    sel_inv skb selector z subs st /\
    sel_inv_una skb selector z subs st.
Proof.
  unfold get_subflow_from_selectors, mptcp_for_each_sub.
  pose proof (for_each_sub_invariant (selector_body skb selector z)
    (fun pre st => sel_inv skb selector z pre st /\
                   sel_inv_una skb selector z pre st)) as Hinv.
  specialize (Hinv (fun pre tp st '(conj Ha Hb) =>
    conj (sel_inv_step skb selector z pre tp st Ha)
         (sel_inv_una_step skb selector z pre tp st Hb))).
  specialize (Hinv subs [] sel_init
    (conj (sel_inv_init skb selector z) (sel_inv_una_init skb selector z))).
  pose proof (for_each_sub_visits (selector_body skb selector z) subs 0%nat
                sel_init) as Hvis.
  simpl in Hinv.
  destruct (for_each_sub_from 0 subs _ sel_init) as [st vis].
  simpl in *. subst vis. exists st. split; [reflexivity | exact Hinv].
Qed.

Lemma candidate_true skb selector z tp :
  candidate skb selector z tp = true <->
  selector tp = true /\ mptcp_is_def_unavailable tp = false /\
  mptcp_is_temp_unavailable tp skb z = false.
Proof.
  unfold candidate.
  destruct (selector tp), (mptcp_is_def_unavailable tp),
    (mptcp_is_temp_unavailable tp skb z); simpl; intuition discriminate.
Qed.

Lemma unused_candidate_exists skb selector z subs :
  existsb (fun tp => candidate skb selector z tp && unused skb tp) subs = true
  <->
  exists j U, subs !! j = Some U /\ selector U = true /\
    mptcp_dont_reinject_skb U skb = false /\
    mptcp_is_def_unavailable U = false /\
    mptcp_is_temp_unavailable U skb z = false.
Proof.
  rewrite existsb_lookup. unfold unused. split.
  - intros (j & U & Hj & Hc). apply andb_prop in Hc as [Hc Hu].
    apply candidate_true in Hc as (? & ? & ?). apply negb_true_iff in Hu.
    exists j, U. auto.
  - intros (j & U & Hj & Hs & Hu & Hd & Ht). exists j, U. split; [exact Hj |].
    rewrite Hu. simpl. rewrite andb_true_r. apply candidate_true. auto.
Qed.

(** X1.  When a pass of the selector returns a subflow, the flag written to
    [*force] tells whether the segment is new to that subflow; it is set
    exactly when some subflow of the class is a candidate the segment has
    not been sent on: a subflow the segment has been sent on is returned
    only if there is no such candidate.  A returned subflow has
    [srtt_us < 0xffffffff]. *)
Theorem selector_force_marks_fresh subs skb selector z i force visited :
  get_subflow_from_selectors subs skb selector z = (Some i, force, visited) ->
  exists T,
    subs !! i = Some T /\
    force = negb (mptcp_dont_reinject_skb T skb) /\
    (force = true <->
     exists j U, subs !! j = Some U /\ selector U = true /\
       mptcp_dont_reinject_skb U skb = false /\
       mptcp_is_def_unavailable U = false /\
       mptcp_is_temp_unavailable U skb z = false) /\
    srtt_us T < U32_MAX.
Proof.
  intros Hret.
  destruct (get_subflow_from_selectors_inv_una subs skb selector z)
    as (st & Heq & [Hfu Hbest _] & [_ _ Hlt]).
  rewrite Heq in Hret. injection Hret as Hb Hf _.
  rewrite Hb in Hbest. destruct Hbest as (T & HT & _ & Hu & Hsrtt).
  assert (Hforce : force = found_unused st).
  { rewrite <- Hf. unfold sel_force. rewrite Hb.
    now destruct (found_unused st). }
  exists T. split; [exact HT |]. split; [| split].
  - rewrite Hforce, <- Hu. reflexivity.
  - rewrite Hforce, Hfu. apply unused_candidate_exists.
  - rewrite Hsrtt. now apply (Hlt i).
Qed.

(** X2.  When a pass of the selector returns NULL, [*force] is set exactly
    when some subflow of the class, on which the segment has not been
    sent, is temporarily but not definitively unavailable.  NULL is
    returned only if every candidate the segment has not been sent on has
    [srtt_us >= 0xffffffff] and, when there is no such candidate at all,
    every candidate has: a candidate with [srtt_us = 0xffffffff] is never
    chosen. *)
Theorem selector_null_force subs skb selector z force visited :
  get_subflow_from_selectors subs skb selector z = (None, force, visited) ->
  (force = true <->
   exists j U, subs !! j = Some U /\ selector U = true /\
     mptcp_dont_reinject_skb U skb = false /\
     mptcp_is_def_unavailable U = false /\
     mptcp_is_temp_unavailable U skb z = true) /\
  (forall j U, subs !! j = Some U -> selector U = true ->
     mptcp_is_def_unavailable U = false ->
     mptcp_is_temp_unavailable U skb z = false ->
     mptcp_dont_reinject_skb U skb = false \/
     (forall j' U', subs !! j' = Some U' -> selector U' = true ->
        mptcp_is_def_unavailable U' = false ->
        mptcp_is_temp_unavailable U' skb z = false ->
        mptcp_dont_reinject_skb U' skb = true) ->
     U32_MAX <= srtt_us U).
Proof.
  intros Hret.
  destruct (get_subflow_from_selectors_inv_una subs skb selector z)
    as (st & Heq & [Hfu Hbest Hmin] & [Huna _ _]).
  rewrite Heq in Hret. injection Hret as Hb Hf _.
  rewrite Hb in Hbest. split.
  - rewrite <- Hf. unfold sel_force. rewrite Hb.
    replace (if found_unused_una st then true else false)
      with (found_unused_una st) by now destruct (found_unused_una st).
    rewrite Huna, existsb_lookup. unfold stalled, unused. split.
    + intros (j & U & Hj & Hs). exists j, U. split; [exact Hj |].
      destruct (selector U), (mptcp_dont_reinject_skb U skb),
        (mptcp_is_def_unavailable U); simpl in Hs; try discriminate; auto.
    + intros (j & U & Hj & Hs & Hu & Hd & Ht). exists j, U.
      split; [exact Hj |]. now rewrite Hs, Hu, Hd, Ht.
  - intros j U Hj Hs Hd Ht Hclass. rewrite <- Hbest.
    apply (Hmin j U Hj); [apply candidate_true; auto |].
    unfold unused. destruct Hclass as [Hu | Hnone].
    + rewrite Hu. simpl. symmetry. rewrite Hfu.
      apply unused_candidate_exists. exists j, U. auto.
    + destruct (found_unused st) eqn:Hst.
      * symmetry in Hfu. apply unused_candidate_exists in Hfu
          as (j' & U' & Hj' & Hs' & Hu' & Hd' & Ht').
        rewrite (Hnone j' U' Hj' Hs' Hd' Ht') in Hu'. discriminate.
      * destruct (mptcp_dont_reinject_skb U skb) eqn:Hu; [reflexivity |].
        exfalso. symmetry in Hfu.
        apply not_true_iff_false in Hfu. apply Hfu.
        apply unused_candidate_exists. exists j, U. auto.
Qed.

End SelectorForce.

(** ** Availability and the entry point: what is returned, and when *)

Section EntryPointMore.
Context `{KernelEnv}.

Lemma temp_unavailable_path_mask m k tp z :
  mptcp_is_temp_unavailable tp (Some (set_path_mask m k)) z
  = mptcp_is_temp_unavailable tp (Some k) z.
Proof. reflexivity. Qed.

Lemma active_or_backup tp :
  subflow_is_backup tp = negb (subflow_is_active tp).
Proof.
  unfold subflow_is_backup, subflow_is_active.
  now destruct (rcv_low_prio tp), (low_prio tp).
Qed.

Lemma available_path_mask_free tp k z m :
  mptcp_is_available tp (Some (set_path_mask m k)) z
  = mptcp_is_available tp (Some k) z.
Proof. reflexivity. Qed.

(** X3.  Whether a subflow is available does not depend on the path mask
    of the segment, and the segment and the zero-window test only add
    reasons to be unavailable: a subflow available for a segment with the
    test is available for it without the test, and for no segment. *)
Theorem available_needs_less tp k z m :
  mptcp_is_available tp (Some (set_path_mask m k)) z
  = mptcp_is_available tp (Some k) z /\
  (mptcp_is_available tp (Some k) z = true ->
   mptcp_is_available tp (Some k) false = true /\
   mptcp_is_available tp None z = true /\
   mptcp_is_available tp None false = true).
Proof.
  split; [reflexivity |].
  unfold mptcp_is_available, mptcp_is_temp_unavailable, out_of_order,
    snd_wnd_bypassed.
  destruct (mptcp_is_def_unavailable tp); simpl; [discriminate |].
  destruct (in_loss_state tp); simpl; [discriminate |].
  destruct (negb (fully_established tp)); simpl;
    [destruct (second_packet tp &&
               negb (last_end_data_seq tp =? skb_seq k)); simpl;
       [discriminate |] |];
    (destruct (snd_cwnd tp <=? tcp_packets_in_flight tp); simpl;
       [discriminate |]);
    (destruct (u32 ((snd_cwnd tp - tcp_packets_in_flight tp)
                    * tcp_current_mss tp)
               <=? u32 (write_seq tp - snd_nxt tp)); simpl;
       [discriminate |]);
    destruct z; simpl; auto;
    (destruct (negb (before (write_seq tp) (tcp_wnd_end tp))); simpl;
       [discriminate | auto]).
Qed.

(** A subflow returned by a pass is a candidate of the pass. *)
Lemma selectors_best_candidate subs skb selector z i force visited :
  get_subflow_from_selectors subs skb selector z = (Some i, force, visited) ->
  exists T, subs !! i = Some T /\ candidate skb selector z T = true.
Proof.
  intros Hret.
  destruct (get_subflow_from_selectors_inv subs skb selector z)
    as (st & Heq & [_ Hbest _]).
  rewrite Heq in Hret. injection Hret as Hb _ _.
  rewrite Hb in Hbest. destruct Hbest as (T & HT & Hc & _). eauto.
Qed.

Lemma find_best_round_available subs z looping skb i skb' log :
  find_best_round subs z looping skb = (Return (Some i) skb', log) ->
  exists T, subs !! i = Some T /\ mptcp_is_available T skb z = true.
Proof.
  unfold find_best_round.
  destruct (get_subflow_from_selectors subs skb subflow_is_active z)
    as [[sk1 force1] v1] eqn:Ha.
  destruct (get_subflow_from_selectors subs skb subflow_is_backup z)
    as [[sk2 force2] v2] eqn:Hb.
  assert (Hav : forall selector T,
    candidate skb selector z T = true -> mptcp_is_available T skb z = true).
  { intros selector T Hc. apply candidate_true in Hc as (_ & Hd & Ht).
    unfold mptcp_is_available. now rewrite Hd, Ht. }
  destruct force1.
  - intros [= -> _ _].
    destruct (selectors_best_candidate _ _ _ _ _ _ _ Ha) as (T & ? & ?).
    eauto.
  - destruct skb as [k|]; [destruct force2, looping |]; simpl;
      intros [= -> _ _];
      destruct (selectors_best_candidate _ _ _ _ _ _ _ Hb) as (T & ? & ?);
      eauto.
Qed.

Lemma get_available_subflow_returns_available mpcb skb z sk skb' :
  get_available_subflow mpcb skb z = (Some sk, skb') ->
  exists T, conn_list mpcb !! sk = Some T /\
    mptcp_is_available T skb z = true.
Proof.
  unfold get_available_subflow, get_available_subflow_log.
  destruct (answer_data_fin mpcb skb z) as [i|] eqn:Hdfin.
  - intros [= -> _]. unfold answer_data_fin in Hdfin.
    destruct (rcv_shutdown mpcb && _); [| discriminate].
    unfold mptcp_for_each_sub in Hdfin.
    destruct (for_each_sub_from 0 _ _ None) as [r vis] eqn:Hwalk.
    simpl in Hdfin. subst r.
    destruct (dfin_walk_available _ _ _ _ _ _ _ Hwalk)
      as (T & _ & HT & _ & Hav).
    rewrite Nat.sub_0_r in HT. eauto.
  - rewrite find_best_unfold_round.
    pose proof (find_best_round_shape (conn_list mpcb) z false skb) as Hs1.
    destruct (find_best_round (conn_list mpcb) z false skb)
      as [[sk1 skb1 | skb1] log1] eqn:Hr1.
    + intros [= -> _]. eapply find_best_round_available; eauto.
    + inversion Hs1 as [| | k _ Hk]; subst.
      rewrite find_best_unfold_round.
      pose proof (find_best_round_shape (conn_list mpcb) z true
                    (Some (set_path_mask 0 k))) as Hs2.
      destruct (find_best_round (conn_list mpcb) z true
                  (Some (set_path_mask 0 k)))
        as [[sk2 skb2 | skb2] log2] eqn:Hr2.
      * intros [= -> _].
        destruct (find_best_round_available _ _ _ _ _ _ _ Hr2)
          as (T & HT & Hav).
        exists T. split; [exact HT |].
        now rewrite available_path_mask_free in Hav.
      * inversion Hs2. discriminate.
Qed.

(** X4.  A subflow returned by [get_available_subflow] is available for
    the segment: neither definitively nor temporarily unavailable.  Hence
    NULL is returned when no subflow of the connection is available. *)
Theorem get_available_subflow_available mpcb skb z :
  (forall sk skb',
     get_available_subflow mpcb skb z = (Some sk, skb') ->
     exists T, conn_list mpcb !! sk = Some T /\
       mptcp_is_available T skb z = true) /\
  ((forall j T, conn_list mpcb !! j = Some T ->
      mptcp_is_available T skb z = false) ->
   fst (get_available_subflow mpcb skb z) = None).
Proof.
  split; [apply get_available_subflow_returns_available |].
  intros Hbusy.
  destruct (get_available_subflow mpcb skb z) as [[sk|] skb'] eqn:Hret;
    [| reflexivity].
  destruct (get_available_subflow_returns_available _ _ _ _ _ Hret)
    as (T & HT & Hav).
  rewrite (Hbusy sk T HT) in Hav. discriminate.
Qed.

(** A pass that leaves [*force] clear has found no candidate with a usable
    [srtt_us] on which the segment has not been sent. *)
Lemma selector_unforced_all_sent subs skb selector z best visited :
  get_subflow_from_selectors subs skb selector z = (best, false, visited) ->
  forall j U, subs !! j = Some U -> selector U = true ->
    mptcp_is_def_unavailable U = false ->
    mptcp_is_temp_unavailable U skb z = false ->
    srtt_us U < U32_MAX ->
    mptcp_dont_reinject_skb U skb = true.
Proof.
  intros Hret j U Hj Hs Hd Ht Hlt.
  destruct (get_subflow_from_selectors_inv_una subs skb selector z)
    as (st & Heq & [Hfu Hbest Hmin] & _).
  rewrite Heq in Hret. injection Hret as Hb Hf _.
  destruct (mptcp_dont_reinject_skb U skb) eqn:Hu; [reflexivity |].
  exfalso.
  assert (Hex : found_unused st = true).
  { rewrite Hfu. apply unused_candidate_exists. exists j, U. auto. }
  unfold sel_force in Hf. rewrite Hex in Hf.
  destruct (bestsk st) as [i|] eqn:Hbest'; [discriminate |].
  destruct (Hmin j U Hj) as [Hle _].
  - apply candidate_true. auto.
  - unfold unused. now rewrite Hu, Hex.
  - rewrite Hbest in Hle. lia.
Qed.

(** How a round leaves the segment. *)
Lemma find_best_round_segment subs z looping skb r log :
  find_best_round subs z looping skb = (r, log) ->
  (exists sk, r = Return sk skb) \/
  (exists k best1 v1 best2 v2,
     skb = Some k /\
     get_subflow_from_selectors subs skb subflow_is_active z
     = (best1, false, v1) /\
     get_subflow_from_selectors subs skb subflow_is_backup z
     = (best2, false, v2) /\
     (r = GotoRestart (Some (set_path_mask 0 k)) \/
      r = Return best2 (Some (set_path_mask 0 k)))).
Proof.
  unfold find_best_round.
  destruct (get_subflow_from_selectors subs skb subflow_is_active z)
    as [[sk1 force1] v1].
  destruct (get_subflow_from_selectors subs skb subflow_is_backup z)
    as [[sk2 force2] v2].
  destruct force1; [intros [= <- _]; eauto |].
  destruct skb as [k|]; [| intros [= <- _]; eauto].
  destruct force2; simpl; [intros [= <- _]; eauto |].
  destruct looping; simpl; intros [= <- _]; right;
    exists k, sk1, v1, sk2, v2; auto.
Qed.

(** X5.  [get_available_subflow] hands the segment back either as it was
    or with its path mask cleared and nothing else changed; without a
    segment nothing is touched and no restart is taken.  The path mask is
    changed only when the segment has already been sent on every subflow
    that is neither definitively nor temporarily unavailable and has
    [srtt_us < 0xffffffff]. *)
Theorem get_available_subflow_path_mask mpcb skb z sk skb' :
  get_available_subflow mpcb skb z = (sk, skb') ->
  (skb' = skb \/ exists k, skb = Some k /\ skb' = Some (set_path_mask 0 k)) /\
  (skb = None ->
   skb' = None /\
   count_restarts (snd (get_available_subflow_log mpcb skb z)) = 0%nat) /\
  (skb' <> skb ->
   forall j U, conn_list mpcb !! j = Some U ->
     mptcp_is_def_unavailable U = false ->
     mptcp_is_temp_unavailable U skb z = false ->
     srtt_us U < U32_MAX ->
     mptcp_dont_reinject_skb U skb = true).
Proof.
  unfold get_available_subflow, get_available_subflow_log.
  destruct (answer_data_fin mpcb skb z) as [i|].
  { intros [= <- <-]. split; [now left |].
    split; [intros ->; now split | intros Hne; now contradiction Hne]. }
  rewrite find_best_unfold_round.
  pose proof (find_best_round_shape (conn_list mpcb) z false skb) as Hs1.
  destruct (find_best_round (conn_list mpcb) z false skb)
    as [r1 log1] eqn:Hr1.
  destruct (find_best_round_segment _ _ _ _ _ _ Hr1)
    as [[sk1 ->] | (k & b1 & v1 & b2 & v2 & -> & Ha & Hb & Hr)].
  { intros [= <- <-]. split; [now left |].
    split; [| intros Hne; now contradiction Hne].
    intros ->. split; [reflexivity |].
    inversion Hs1; subst; reflexivity. }
  assert (Hsent : forall j U, conn_list mpcb !! j = Some U ->
            mptcp_is_def_unavailable U = false ->
            mptcp_is_temp_unavailable U (Some k) z = false ->
            srtt_us U < U32_MAX ->
            mptcp_dont_reinject_skb U (Some k) = true).
  { intros j U Hj Hd Ht Hlt.
    destruct (subflow_is_active U) eqn:Hact.
    - eapply (selector_unforced_all_sent _ _ _ _ _ _ Ha); eauto.
    - eapply (selector_unforced_all_sent _ _ _ _ _ _ Hb); eauto.
      now rewrite active_or_backup, Hact. }
  destruct Hr as [-> | ->].
  - rewrite find_best_unfold_round.
    pose proof (find_best_round_shape (conn_list mpcb) z true
                  (Some (set_path_mask 0 k))) as Hs2.
    destruct (find_best_round (conn_list mpcb) z true
                (Some (set_path_mask 0 k))) as [r2 log2] eqn:Hr2.
    destruct (find_best_round_segment _ _ _ _ _ _ Hr2)
      as [[sk2 ->] | (k2 & b3 & v3 & b4 & v4 & Hk2 & _ & _ & Hr)].
    + intros [= <- <-]. split; [right; eauto |].
      split; [discriminate | intros _; exact Hsent].
    + injection Hk2 as <-.
      destruct Hr as [-> | ->]; [inversion Hs2; discriminate |].
      intros [= <- <-]. split; [right; eauto |].
      split; [discriminate | intros _; exact Hsent].
  - intros [= <- <-]. split; [right; eauto |].
    split; [discriminate | intros _; exact Hsent].
Qed.

(** The data-fin walk stops at the first subflow of the wanted path that is
    available. *)
Lemma dfin_walk_finds mpcb skb z :
  forall subs n i T,
    subs !! i = Some T ->
    path_index T = dfin_path_index mpcb ->
    mptcp_is_available T skb z = true ->
    (forall j U, (j < i)%nat -> subs !! j = Some U ->
       path_index U <> dfin_path_index mpcb) ->
    fst (for_each_sub_from n subs (dfin_walk_body mpcb skb z) None)
    = Some (n + i)%nat.
Proof.
  induction subs as [|tp rest IH]; intros n i T HT Hpi Hav Hfirst;
    [rewrite lookup_nil in HT; discriminate |].
  simpl. unfold dfin_walk_body at 1. destruct i as [|i]; simpl in HT.
  - injection HT as ->. rewrite Hpi, Z.eqb_refl, Hav. simpl.
    now rewrite Nat.add_0_r.
  - assert (Hne : path_index tp <> dfin_path_index mpcb)
      by (apply (Hfirst 0%nat); [lia | reflexivity]).
    apply Z.eqb_neq in Hne. rewrite Hne. simpl.
    specialize (IH (S n) i T HT Hpi Hav).
    destruct (for_each_sub_from (S n) rest _ None) as [r vis]. simpl in *.
    rewrite IH; [f_equal; lia |].
    intros j U Hj HU. apply (Hfirst (S j)); [lia | exact HU].
Qed.

(** X6.  A data-fin is answered on the subflow it came in on: when the
    receive side of the meta socket is shut down and the segment is a
    data-fin, the subflow whose path index is [dfin_path_index] is
    returned if it is available, whatever its [srtt_us], its priority and
    the path mask of the segment, which is left as it is. *)
Theorem data_fin_same_subflow mpcb k z i T :
  rcv_shutdown mpcb = true ->
  is_data_fin k = true ->
  conn_list mpcb !! i = Some T ->
  path_index T = dfin_path_index mpcb ->
  mptcp_is_available T (Some k) z = true ->
  (forall j U, conn_list mpcb !! j = Some U ->
     path_index U = dfin_path_index mpcb -> j = i) ->
  get_available_subflow mpcb (Some k) z = (Some i, Some k).
Proof.
  intros Hshut Hfin HT Hpi Hav Huniq.
  unfold get_available_subflow, get_available_subflow_log, answer_data_fin,
    mptcp_is_data_fin, mptcp_for_each_sub.
  rewrite Hshut, Hfin. simpl.
  rewrite (dfin_walk_finds mpcb (Some k) z (conn_list mpcb) 0 i T HT Hpi Hav);
    [reflexivity |].
  intros j U Hlt HU Heq. specialize (Huniq j U HU Heq). lia.
Qed.

(** A candidate with a usable [srtt_us] on which the segment has not been
    sent makes the pass return such a candidate, forced, and not a slower
    one. *)
Lemma selector_fresh_candidate_chosen subs skb selector z j U :
  subs !! j = Some U -> selector U = true ->
  mptcp_dont_reinject_skb U skb = false ->
  mptcp_is_def_unavailable U = false ->
  mptcp_is_temp_unavailable U skb z = false ->
  srtt_us U < U32_MAX ->
  exists i T,
    get_subflow_from_selectors subs skb selector z
    = (Some i, true, seq 0 (length subs)) /\
    subs !! i = Some T /\ selector T = true /\
    mptcp_dont_reinject_skb T skb = false /\
    srtt_us T <= srtt_us U.
Proof.
  intros Hj Hs Hu Hd Ht Hlt.
  destruct (get_subflow_from_selectors_inv_una subs skb selector z)
    as (st & Heq & [Hfu Hbest Hmin] & _).
  assert (Hex : found_unused st = true).
  { rewrite Hfu. apply unused_candidate_exists. exists j, U. auto. }
  destruct (Hmin j U Hj) as [Hle _].
  { apply candidate_true. auto. }
  { unfold unused. now rewrite Hu, Hex. }
  destruct (bestsk st) as [i|] eqn:Hb; [| rewrite Hbest in Hle; lia].
  destruct Hbest as (T & HT & Hc & HuT & Hsrtt).
  exists i, T. split.
  - rewrite Heq. unfold sel_force. now rewrite Hb, Hex.
  - apply candidate_true in Hc as (HsT & _ & _).
    unfold unused in HuT. rewrite Hex in HuT. apply negb_true_iff in HuT.
    repeat split; auto. lia.
Qed.

(** X7.  Active subflows go first: when the data-fin walk returns nobody
    and some active subflow is available, has not carried the segment yet
    and has [srtt_us < 0xffffffff], [get_available_subflow] returns an
    active subflow that has not carried the segment, with an [srtt_us] that
    is not above that one's, and leaves the path mask alone -- whatever
    the backup subflows are. *)
Theorem active_subflow_preferred mpcb skb z j U :
  answer_data_fin mpcb skb z = None ->
  conn_list mpcb !! j = Some U ->
  subflow_is_active U = true ->
  mptcp_dont_reinject_skb U skb = false ->
  mptcp_is_available U skb z = true ->
  srtt_us U < U32_MAX ->
  exists i T,
    get_available_subflow mpcb skb z = (Some i, skb) /\
    conn_list mpcb !! i = Some T /\
    subflow_is_active T = true /\
    mptcp_dont_reinject_skb T skb = false /\
    srtt_us T <= srtt_us U.
Proof.
  intros Hdfin Hj Hact Hu Hav Hlt.
  unfold mptcp_is_available in Hav. apply andb_prop in Hav as [Hd Ht].
  apply negb_true_iff in Hd, Ht.
  destruct (selector_fresh_candidate_chosen (conn_list mpcb) skb
              subflow_is_active z j U Hj Hact Hu Hd Ht Hlt)
    as (i & T & Hsel & HT & HactT & HuT & Hle).
  exists i, T. split; [| auto].
  unfold get_available_subflow, get_available_subflow_log.
  rewrite Hdfin, find_best_unfold_round.
  unfold find_best_round. rewrite Hsel. reflexivity.
Qed.

(** X8.  Rather wait for an active subflow than use a backup one: when the
    data-fin walk returns nobody, no active subflow is available, and some
    active subflow that has not carried the segment is only temporarily
    unavailable, NULL is returned and the path mask is left alone --
    whatever the backup subflows are. *)
Theorem active_subflow_awaited mpcb skb z j U :
  answer_data_fin mpcb skb z = None ->
  (forall j' U', conn_list mpcb !! j' = Some U' ->
     subflow_is_active U' = true -> mptcp_is_available U' skb z = false) ->
  conn_list mpcb !! j = Some U ->
  subflow_is_active U = true ->
  mptcp_dont_reinject_skb U skb = false ->
  mptcp_is_def_unavailable U = false ->
  get_available_subflow mpcb skb z = (None, skb).
Proof.
  intros Hdfin Hnone Hj Hact Hu Hd.
  destruct (get_subflow_from_selectors_inv_una (conn_list mpcb) skb
              subflow_is_active z)
    as (st & Heq & [_ Hbest _] & [Huna _ _]).
  assert (Hb : bestsk st = None).
  { destruct (bestsk st) as [i|]; [| reflexivity].
    destruct Hbest as (T & HT & Hc & _).
    apply candidate_true in Hc as (HsT & HdT & HtT).
    specialize (Hnone i T HT HsT). unfold mptcp_is_available in Hnone.
    rewrite HdT, HtT in Hnone. discriminate. }
  assert (Hst : found_unused_una st = true).
  { rewrite Huna. apply existsb_lookup. exists j, U. split; [exact Hj |].
    unfold stalled, unused. rewrite Hact, Hu, Hd. simpl.
    specialize (Hnone j U Hj Hact). unfold mptcp_is_available in Hnone.
    rewrite Hd in Hnone. simpl in Hnone. now apply negb_false_iff in Hnone. }
  unfold get_available_subflow, get_available_subflow_log.
  rewrite Hdfin, find_best_unfold_round.
  unfold find_best_round. rewrite Heq. unfold sel_force.
  rewrite Hb, Hst. reflexivity.
Qed.

End EntryPointMore.

(** ** The receive-buffer optimisation: what it writes *)

Section RcvBufMore.
Context `{KernelEnv}.

Lemma set_conn_list_same mpcb : set_conn_list (conn_list mpcb) mpcb = mpcb.
Proof. now destruct mpcb. Qed.

Lemma same_but_windows_cases now T T' :
  T' = T \/ T' = penalize T \/ T' = set_last_rbuf_opti now T ->
  same_but_windows T T'.
Proof.
  unfold same_but_windows, penalize.
  intros [-> | [-> | ->]]; destruct T; simpl;
    try destruct (_ <=? _); reflexivity.
Qed.

(** X9.  [mptcp_rcv_buf_optimization] writes nothing but the subflow list,
    whose length it keeps, and of a subflow nothing but [snd_cwnd],
    [snd_ssthresh] and [last_rbuf_opti]: the sending subflow keeps its
    windows, and its time stamp becomes the current time or stays; every
    other subflow keeps its time stamp. *)
Theorem rcv_buf_opt_frame mpcb sk penal j T :
  conn_list mpcb !! j = Some T ->
  fst (mptcp_rcv_buf_optimization mpcb sk penal)
  = set_conn_list
      (conn_list (fst (mptcp_rcv_buf_optimization mpcb sk penal))) mpcb /\
  length (conn_list (fst (mptcp_rcv_buf_optimization mpcb sk penal)))
  = length (conn_list mpcb) /\
  exists T',
    conn_list (fst (mptcp_rcv_buf_optimization mpcb sk penal)) !! j = Some T' /\
    same_but_windows T T' /\
    (j = sk ->
     snd_cwnd T' = snd_cwnd T /\ snd_ssthresh T' = snd_ssthresh T /\
     (last_rbuf_opti T' = last_rbuf_opti T \/
      last_rbuf_opti T' = tcp_jiffies32 mpcb)) /\
    (j <> sk -> last_rbuf_opti T' = last_rbuf_opti T).
Proof.
  intros HT. unfold mptcp_rcv_buf_optimization.
  assert (Hsame : same_but_windows T T)
    by (apply (same_but_windows_cases 0); now left).
  assert (Hid : exists T', conn_list mpcb !! j = Some T' /\
            same_but_windows T T' /\
            (j = sk -> snd_cwnd T' = snd_cwnd T /\
               snd_ssthresh T' = snd_ssthresh T /\
               (last_rbuf_opti T' = last_rbuf_opti T \/
                last_rbuf_opti T' = tcp_jiffies32 mpcb)) /\
            (j <> sk -> last_rbuf_opti T' = last_rbuf_opti T))
    by (exists T; auto 8).
  destruct (conn_list mpcb !! sk) as [tp|] eqn:Hsk; simpl;
    [| rewrite set_conn_list_same; auto].
  destruct (tcp_rtx_queue_head mpcb) as [skb_head|]; simpl;
    [| rewrite set_conn_list_same; auto].
  destruct (penalization_runs mpcb tp penal); simpl;
    [| rewrite set_conn_list_same; auto].
  destruct (penalize_slow_flows_spec mpcb sk tp skb_head Hsk)
    as (Hlen & Hother & tp' & Htp' & Hshape & _).
  split; [reflexivity |]. split; [exact Hlen |].
  destruct (decide (j = sk)) as [-> | Hne].
  - assert (T = tp) by congruence. subst T.
    exists tp'. split; [exact Htp' |]. split; [| split].
    + apply (same_but_windows_cases (tcp_jiffies32 mpcb)).
      destruct Hshape; auto.
    + intros _. destruct Hshape as [-> | ->]; simpl; auto.
    + intros Hne. now contradiction Hne.
  - rewrite (Hother j T HT Hne).
    exists (if penalized tp sk skb_head j T then penalize T else T).
    split; [reflexivity |]. split; [| split].
    + apply (same_but_windows_cases 0).
      destruct (penalized tp sk skb_head j T); auto.
    + intros Heq. now contradiction Hne.
    + intros _. destruct (penalized tp sk skb_head j T); [| reflexivity].
      unfold penalize. simpl. now destruct (_ <=? _).
Qed.

Lemma shiftr_one_le (x : Z) : 0 <= x -> Z.shiftr x 1 <= x.
Proof.
  intros Hx. rewrite Z.shiftr_div_pow2 by lia.
  change (2 ^ 1) with 2. apply Z.div_le_upper_bound; lia.
Qed.

(** X10.  The penalisation keeps the windows sane and never opens them:
    if before the call every subflow has [cwnd >= 1] and [ssthresh >= 2],
    so has every subflow after it, and no [cwnd] or [ssthresh] is larger
    than it was. *)
Theorem rcv_buf_opt_keeps_windows_sane mpcb sk penal :
  (forall j T, conn_list mpcb !! j = Some T ->
     1 <= snd_cwnd T /\ 2 <= snd_ssthresh T) ->
  forall j T',
    conn_list (fst (mptcp_rcv_buf_optimization mpcb sk penal)) !! j = Some T' ->
    1 <= snd_cwnd T' /\ 2 <= snd_ssthresh T' /\
    exists T, conn_list mpcb !! j = Some T /\
      snd_cwnd T' <= snd_cwnd T /\ snd_ssthresh T' <= snd_ssthresh T.
Proof.
  intros Hsane j T' HT'.
  assert (Hlen : length (conn_list (fst (mptcp_rcv_buf_optimization
                                            mpcb sk penal)))
                 = length (conn_list mpcb)).
  { unfold mptcp_rcv_buf_optimization.
    destruct (conn_list mpcb !! sk) as [tp|] eqn:Hsk; [| reflexivity].
    destruct (tcp_rtx_queue_head mpcb) as [skb_head|]; [| reflexivity].
    destruct (penalization_runs mpcb tp penal); [| reflexivity].
    apply (penalize_slow_flows_spec mpcb sk tp skb_head Hsk). }
  destruct (conn_list mpcb !! j) as [T|] eqn:HT.
  2:{ apply lookup_ge_None in HT. apply lookup_lt_Some in HT'. lia. }
  destruct (Hsane j T HT) as [Hc Hs].
  assert (Hcases : T' = T \/ T' = penalize T \/
                   T' = set_last_rbuf_opti (tcp_jiffies32 mpcb) T).
  { revert HT'. unfold mptcp_rcv_buf_optimization.
    destruct (conn_list mpcb !! sk) as [tp|] eqn:Hsk; simpl;
      [| intros; left; congruence].
    destruct (tcp_rtx_queue_head mpcb) as [skb_head|]; simpl;
      [| intros; left; congruence].
    destruct (penalization_runs mpcb tp penal); simpl;
      [| intros; left; congruence].
    destruct (penalize_slow_flows_spec mpcb sk tp skb_head Hsk)
      as (_ & Hother & tp' & Htp' & Hshape & _).
    destruct (decide (j = sk)) as [-> | Hne].
    - rewrite Htp'. intros [= <-]. assert (T = tp) by congruence. subst T.
      destruct Hshape; auto.
    - rewrite (Hother j T HT Hne). intros [= <-].
      destruct (penalized tp sk skb_head j T); auto. }
  pose proof (shiftr_one_le (snd_cwnd T)) as Hc2.
  pose proof (shiftr_one_le (snd_ssthresh T)) as Hs2.
  destruct (penalize_fields T) as [Hpc Hps].
  destruct Hcases as [-> | [-> | ->]].
  - split; [lia |]. split; [lia |]. exists T. split; [reflexivity | lia].
  - rewrite Hpc, Hps. destruct (snd_ssthresh T <=? snd_cwnd T);
      (split; [lia |]); (split; [lia |]); exists T;
      (split; [reflexivity | lia]).
  - simpl. split; [lia |]. split; [lia |]. exists T.
    split; [reflexivity | lia].
Qed.

(** A call for a sending subflow whose time stamp is recent writes
    nothing. *)
Lemma rcv_buf_opt_rate_limited mpcb sk tp penal :
  conn_list mpcb !! sk = Some tp ->
  u32 (tcp_jiffies32 mpcb - last_rbuf_opti tp)
  < usecs_to_jiffies (Z.shiftr (srtt_us tp) 3) ->
  fst (mptcp_rcv_buf_optimization mpcb sk penal) = mpcb.
Proof.
  intros Hsk Hlt. unfold mptcp_rcv_buf_optimization. rewrite Hsk.
  destruct (tcp_rtx_queue_head mpcb); [| reflexivity].
  unfold penalization_runs. apply Z.ltb_lt in Hlt. rewrite Hlt.
  now destruct ((penal =? 0) && sk_stream_memory_free mpcb).
Qed.

(** X11.  Only penalise again after an RTT has elapsed: once a call made
    at time [now] has penalised a subflow, a call for the same sending
    subflow at a time [later] with [later - now], on 32 bits, below
    [usecs_to_jiffies(srtt_us >> 3)] writes nothing, whatever [penal]. *)
Theorem penalization_rate_limited mpcb sk tp skb_head penal j T later penal' :
  conn_list mpcb !! sk = Some tp ->
  rtx_queue_head mpcb = Some skb_head ->
  penalization_runs mpcb tp penal = true ->
  conn_list mpcb !! j = Some T ->
  penalized tp sk skb_head j T = true ->
  u32 (later - tcp_jiffies32 mpcb)
  < usecs_to_jiffies (Z.shiftr (srtt_us tp) 3) ->
  fst (mptcp_rcv_buf_optimization
         (at_time later (fst (mptcp_rcv_buf_optimization mpcb sk penal)))
         sk penal')
  = at_time later (fst (mptcp_rcv_buf_optimization mpcb sk penal)).
Proof.
  intros Hsk Hhead Hruns HT Hp Hlt.
  assert (Hstamp :
    conn_list (fst (mptcp_rcv_buf_optimization mpcb sk penal)) !! sk
    = Some (set_last_rbuf_opti (tcp_jiffies32 mpcb) tp)).
  { unfold mptcp_rcv_buf_optimization, tcp_rtx_queue_head.
    rewrite Hsk, Hhead, Hruns. simpl.
    destruct (penalize_slow_flows_spec mpcb sk tp skb_head Hsk)
      as (_ & _ & tp' & Htp' & _ & Hst).
    rewrite Htp', Hst; [reflexivity |]. exists j, T. auto. }
  apply (rcv_buf_opt_rate_limited _ sk
           (set_last_rbuf_opti (tcp_jiffies32 mpcb) tp)).
  - exact Hstamp.
  - exact Hlt.
Qed.

(** X12.  [defsched_init] writes the time stamp of its subflow and nothing
    else, and starts the rate limit: a call of
    [mptcp_rcv_buf_optimization] for that subflow at a time [later] with
    [later - now], on 32 bits, below [usecs_to_jiffies(srtt_us >> 3)]
    writes nothing. *)
Theorem defsched_init_starts_rate_limit mpcb sk tp later penal :
  conn_list mpcb !! sk = Some tp ->
  conn_list (defsched_init mpcb sk) !! sk
  = Some (set_last_rbuf_opti (tcp_jiffies32 mpcb) tp) /\
  (forall j, j <> sk ->
     conn_list (defsched_init mpcb sk) !! j = conn_list mpcb !! j) /\
  defsched_init mpcb sk = set_conn_list (conn_list (defsched_init mpcb sk)) mpcb
  /\
  (u32 (later - tcp_jiffies32 mpcb)
   < usecs_to_jiffies (Z.shiftr (srtt_us tp) 3) ->
   fst (mptcp_rcv_buf_optimization (at_time later (defsched_init mpcb sk))
          sk penal)
   = at_time later (defsched_init mpcb sk)).
Proof.
  intros Hsk.
  assert (Hstamp : conn_list (defsched_init mpcb sk) !! sk
                   = Some (set_last_rbuf_opti (tcp_jiffies32 mpcb) tp)).
  { unfold defsched_init. simpl. now rewrite list_lookup_alter_eq, Hsk. }
  split; [exact Hstamp |]. split; [| split].
  - intros j Hne. unfold defsched_init. simpl.
    now rewrite list_lookup_alter_ne.
  - reflexivity.
  - intros Hlt.
    apply (rcv_buf_opt_rate_limited _ sk
             (set_last_rbuf_opti (tcp_jiffies32 mpcb) tp));
      [exact Hstamp | exact Hlt].
Qed.

(** Without another carrier the scan decides nothing. *)
Lemma no_other_carrier_scan tp sk skb_head :
  forall subs n,
    (forall j T, subs !! j = Some T ->
       other_carrier sk skb_head (n + j) T = false) ->
    fst (for_each_sub_from n subs (retrans_body tp sk skb_head) false) = false.
Proof.
  induction subs as [|T rest IH]; intros n Hnone; [reflexivity |].
  simpl. unfold retrans_body at 1.
  rewrite <- (Nat.add_0_r n) at 1. rewrite (Hnone 0%nat T eq_refl).
  specialize (IH (S n)).
  destruct (for_each_sub_from (S n) rest _ false) as [r vis]. simpl in *.
  apply IH. intros j U Hj.
  replace (S (n + j)) with (n + S j)%nat by lia. now apply Hnone.
Qed.

Lemma no_other_carrier_penalty sk skb_head now :
  forall subs,
    (forall j T, subs !! j = Some T -> other_carrier sk skb_head j T = false) ->
    forall i, penalize_body sk skb_head now i subs = subs.
Proof.
  intros subs Hnone i. unfold penalize_body.
  destruct (subs !! sk); [| reflexivity].
  destruct (subs !! i) as [tp_it|] eqn:Hi; [| reflexivity].
  now rewrite (Hnone i tp_it Hi).
Qed.

(** X13.  Nothing is reinjected that nobody else carries: when no other
    subflow has its bit in the path mask of the head of the retransmit
    queue, [mptcp_rcv_buf_optimization] returns NULL and writes nothing,
    whatever [penal], the clock and the state of the sending subflow. *)
Theorem no_other_carrier_no_reinjection mpcb sk penal skb_head :
  rtx_queue_head mpcb = Some skb_head ->
  (forall j T, conn_list mpcb !! j = Some T -> j <> sk ->
     Z.land (path_mask skb_head) (mptcp_pi_to_flag (path_index T)) = 0) ->
  mptcp_rcv_buf_optimization mpcb sk penal = (mpcb, None).
Proof.
  intros Hhead Hnone.
  assert (Hoc : forall j T, conn_list mpcb !! j = Some T ->
                  other_carrier sk skb_head j T = false).
  { intros j T HT. unfold other_carrier.
    destruct (Nat.eqb_spec j sk) as [-> | Hne]; [reflexivity |].
    rewrite (Hnone j T HT Hne). reflexivity. }
  unfold mptcp_rcv_buf_optimization, tcp_rtx_queue_head.
  destruct (conn_list mpcb !! sk) as [tp|] eqn:Hsk; [| reflexivity].
  rewrite Hhead.
  assert (Hpen : penalize_slow_flows mpcb sk skb_head = conn_list mpcb).
  { unfold penalize_slow_flows, mptcp_for_each_sub.
    pose proof (for_each_sub_invariant
      (fun i (_ : tcp_sock) subs =>
         penalize_body sk skb_head (tcp_jiffies32 mpcb) i subs)
      (fun _ cur => cur = conn_list mpcb)) as Hinv.
    apply (Hinv (fun pre tp a Ha =>
             eq_trans (f_equal _ Ha)
               (no_other_carrier_penalty sk skb_head (tcp_jiffies32 mpcb)
                  (conn_list mpcb) Hoc (length pre)))
             (conn_list mpcb) [] (conn_list mpcb) eq_refl). }
  assert (Hdec : retrans_decision (conn_list mpcb) sk skb_head = None).
  { unfold retrans_decision, do_retrans_scan, mptcp_for_each_sub.
    rewrite Hsk, (no_other_carrier_scan tp sk skb_head (conn_list mpcb) 0 Hoc).
    simpl. now destruct (Z.land _ _ =? 0). }
  destruct (penalization_runs mpcb tp penal); simpl.
  - rewrite Hpen, set_conn_list_same, Hdec. reflexivity.
  - rewrite Hdec. reflexivity.
Qed.

End RcvBufMore.

(** ** The segment chooser: where the segment comes from, and how much *)

Section SegmentMore.
Context `{KernelEnv}.
Variable get_subflow : get_subflow_t.

(** The receive-buffer optimisation returns nothing but the head of the
    retransmit queue, which it leaves in place. *)
Lemma rcv_buf_opt_returns_head mpcb sk penal m h :
  mptcp_rcv_buf_optimization mpcb sk penal = (m, Some h) ->
  rtx_queue_head mpcb = Some h /\ rtx_queue_head m = Some h /\
  reinject_queue m = reinject_queue mpcb /\ send_head m = send_head mpcb.
Proof.
  unfold mptcp_rcv_buf_optimization, tcp_rtx_queue_head.
  destruct (conn_list mpcb !! sk) as [tp|]; [| discriminate].
  destruct (rtx_queue_head mpcb) as [skb_head|] eqn:Hhead; [| discriminate].
  intros [= <- Hdec].
  assert (h = skb_head).
  { unfold retrans_decision in Hdec.
    destruct (_ !! sk); [| discriminate].
    destruct (_ =? 0); [| discriminate].
    destruct (_ && _); [congruence | discriminate]. }
  subst h.
  destruct (penalization_runs mpcb tp penal); simpl; auto.
Qed.

(** X14.  Where [__mptcp_next_segment] takes the segment from: in fallback
    mode the head of the write queue, whatever the reinject queue holds;
    otherwise the head of the reinject queue if there is one, and only
    then the head of the write queue; in these cases it writes nothing.
    The value written to [*reinject] tells the source -- 1 for the
    reinject queue, 0 for the write queue, -1 for the retransmit queue --
    and a segment returned is really there. *)
Theorem next_segment_source mpcb m skb tag :
  __mptcp_next_segment get_subflow mpcb = (m, skb, tag) ->
  (infinite_mapping_snd mpcb = true \/ send_infinite_mapping mpcb = true ->
   m = mpcb /\ tag = 0 /\ skb = skb_ptr mpcb SendHead) /\
  (infinite_mapping_snd mpcb = false -> send_infinite_mapping mpcb = false ->
   (reinject_queue mpcb <> [] ->
    m = mpcb /\ tag = 1 /\ skb = Some ReinjectHead) /\
   (reinject_queue mpcb = [] -> send_head mpcb <> None ->
    m = mpcb /\ tag = 0 /\ skb = Some SendHead)) /\
  (forall r, skb = Some r ->
     is_Some (skb_deref m r) /\
     (r = ReinjectHead /\ tag = 1 \/ r = SendHead /\ tag = 0 \/
      r = RtxHead /\ tag = -1)) /\
  (skb = None -> tag = 0).
Proof.
  unfold __mptcp_next_segment, skb_ptr. simpl.
  destruct (infinite_mapping_snd mpcb), (send_infinite_mapping mpcb); simpl;
    try (intros [= <- <- <-];
         (split; [auto |]); (split; [discriminate |]);
         (split; [| reflexivity]);
         intros r Hr; unfold tcp_send_head in Hr;
         destruct (send_head mpcb) eqn:Hs; [| discriminate];
         injection Hr as <-; simpl; unfold tcp_send_head; rewrite Hs;
         now eauto).
  destruct (reinject_queue mpcb) as [|k q] eqn:Hq; simpl.
  2:{ intros [= <- <- <-].
      split; [intros [? | ?]; discriminate |].
      split; [intros _ _; split; [auto | discriminate] |].
      split; [| discriminate].
      intros r [= <-]. simpl. rewrite Hq. simpl. eauto. }
  unfold tcp_send_head.
  destruct (send_head mpcb) as [k|] eqn:Hs.
  { intros [= <- <- <-].
    split; [intros [? | ?]; discriminate |].
    split; [intros _ _; split; [intros Hne; now contradiction Hne | auto] |].
    split; [| discriminate].
    intros r [= <-]. simpl. unfold tcp_send_head. rewrite Hs. eauto. }
  assert (Hgen : forall m skb tag,
    (forall r, skb = Some r ->
       is_Some (skb_deref m r) /\
       (r = ReinjectHead /\ tag = 1 \/ r = SendHead /\ tag = 0 \/
        r = RtxHead /\ tag = -1)) ->
    (skb = None -> tag = 0) ->
    (false = true \/ false = true ->
     m = mpcb /\ tag = 0 /\ skb = None) /\
    (false = false -> false = false ->
     (@nil sk_buff <> [] -> m = mpcb /\ tag = 1 /\ skb = Some ReinjectHead) /\
     (@nil sk_buff = [] -> @None sk_buff <> None ->
      m = mpcb /\ tag = 0 /\ skb = Some SendHead)) /\
    (forall r, skb = Some r ->
       is_Some (skb_deref m r) /\
       (r = ReinjectHead /\ tag = 1 \/ r = SendHead /\ tag = 0 \/
        r = RtxHead /\ tag = -1)) /\
    (skb = None -> tag = 0)).
  { intros m0 skb0 tag0 Hp Hn.
    split; [intros [? | ?]; discriminate |].
    split; [| split; assumption].
    intros _ _. split; intros Hc; [now contradiction Hc |].
    intros Hc'. now contradiction Hc'. }
  destruct (sock_nospace mpcb && (stream_wspace mpcb <? stream_min_wspace mpcb)).
  2:{ intros [= <- <- <-]. apply Hgen; [discriminate | reflexivity]. }
  destruct (get_subflow _ None false) as [[sk|] m1].
  2:{ intros [= <- <- <-]. apply Hgen; [discriminate | reflexivity]. }
  destruct (mptcp_rcv_buf_optimization m1 sk 0) as [m2 [h|]] eqn:Hopt.
  - intros [= <- <- <-]. apply Hgen; [| discriminate].
    intros r [= <-]. simpl. unfold tcp_rtx_queue_head.
    destruct (rcv_buf_opt_returns_head _ _ _ _ _ Hopt) as (_ & -> & _).
    eauto 6.
  - intros [= <- <- <-]. apply Hgen; [discriminate | reflexivity].
Qed.

Lemma next_segment_pointer_tag mpcb m r tag :
  __mptcp_next_segment get_subflow mpcb = (m, Some r, tag) ->
  r = ReinjectHead /\ tag = 1 \/ r = SendHead /\ tag = 0 \/
  r = RtxHead /\ tag = -1.
Proof.
  unfold __mptcp_next_segment, skb_ptr.
  destruct (infinite_mapping_snd mpcb || send_infinite_mapping mpcb).
  { destruct (skb_deref mpcb SendHead); intros [= <- <- <-]; auto. }
  destruct (skb_deref mpcb ReinjectHead); [intros [= <- <- <-]; auto |].
  destruct (skb_deref mpcb SendHead); [intros [= <- <- <-]; auto |].
  destruct (sock_nospace mpcb && _); [| discriminate].
  destruct (get_subflow _ None false) as [[sk|] m1]; [| discriminate].
  destruct (mptcp_rcv_buf_optimization m1 sk 0) as [m2 [h|]];
    [intros [= <- <- <-]; auto | discriminate].
Qed.

(** A result that carries a segment comes out of the clamp, run on a
    segment that sits at the head of the queue its tag names. *)
Lemma next_segment_through_clamp mpcb mpcb' r K :
  mptcp_next_segment get_subflow mpcb = (mpcb', r) ->
  ns_skb r = Some K ->
  exists m sk k reinject subtp,
    conn_list m !! sk = Some subtp /\
    next_segment_clamp m sk k reinject (mss_now subtp) = (mpcb', r) /\
    (reinject = 1 /\ head (reinject_queue m) = Some k \/
     reinject = 0 /\ send_head m = Some k \/
     reinject = -1 /\ rtx_queue_head m = Some k).
Proof.
  unfold mptcp_next_segment. intros Hns HK.
  destruct (__mptcp_next_segment get_subflow mpcb)
    as [[m1 skb] reinject] eqn:Hsrc.
  destruct skb as [r0|]; [| returns_null Hns].
  pose proof (next_segment_pointer_tag _ _ _ _ Hsrc) as Htag.
  destruct (get_subflow m1 (Some r0) false) as [subsk m2].
  destruct subsk as [sk|]; [| returns_null Hns].
  destruct (skb_deref m2 r0) as [k|] eqn:Hk; [| returns_null Hns].
  destruct (conn_list m2 !! sk) as [subtp|] eqn:Hsub; [| returns_null Hns].
  unfold tcp_current_mss in Hns.
  destruct ((reinject =? 0) && negb (tcp_snd_wnd_test m2 k (mss_now subtp))).
  - destruct (rcv_buf_opt_keeps_sender
                (tcp_chrono_start OnMeta TCP_CHRONO_RWND_LIMITED m2)
                sk subtp 1 Hsub) as (tp' & Htp' & Hshape).
    destruct (mptcp_rcv_buf_optimization _ sk 1) as [m3 [h|]] eqn:Hopt;
      [| returns_null Hns].
    simpl in Htp'.
    destruct (rcv_buf_opt_returns_head _ _ _ _ _ Hopt) as (_ & Hh & _).
    exists m3, sk, h, (-1), tp'. split; [exact Htp' |]. split; [| auto].
    replace (mss_now tp') with (mss_now subtp)
      by (destruct Hshape; subst; reflexivity).
    exact Hns.
  - exists m2, sk, k, reinject, subtp. split; [exact Hsub |].
    split; [exact Hns |].
    destruct Htag as [[-> ->] | [[-> ->] | [-> ->]]]; simpl in Hk; auto.
Qed.

Lemma next_segment_clamp_result m sk k reinject mss mpcb' r K :
  next_segment_clamp m sk k reinject mss = (mpcb', r) ->
  ns_skb r = Some K ->
  K = k /\ ns_reinject r = reinject /\ ns_subsk r = Some sk /\
  conn_list mpcb' = conn_list m /\
  reinject_queue mpcb' = reinject_queue m /\
  send_head mpcb' = send_head m /\ rtx_queue_head mpcb' = rtx_queue_head m /\
  (skb_len k <= mss /\ ns_limit r = 0 \/
   mss < skb_len k /\
   exists subtp, conn_list m !! sk = Some subtp /\
     split_limit subtp k mss = Some (ns_limit r)).
Proof.
  unfold next_segment_clamp. intros Hns HK.
  destruct (conn_list m !! sk) as [subtp|]; [| returns_null Hns].
  destruct (Z.leb_spec (skb_len k) mss).
  - injection Hns as <- <-. injection HK as <-.
    destruct (reinject =? 0); simpl; auto 10.
  - destruct (split_limit subtp k mss) as [max_len|] eqn:Hsplit;
      [| returns_null Hns].
    injection Hns as <- <-. injection HK as <-.
    destruct (reinject =? 0); simpl; repeat split; eauto.
Qed.

(** X15.  The value [mptcp_next_segment] writes to [*reinject] tells where
    the returned segment sits: 1 at the head of the reinject queue, 0 at
    the head of the write queue, -1 at the head of the retransmit queue;
    no other value comes with a segment. *)
Theorem next_segment_reinject_tag mpcb mpcb' r K :
  mptcp_next_segment get_subflow mpcb = (mpcb', r) ->
  ns_skb r = Some K ->
  ns_reinject r = 1 /\ head (reinject_queue mpcb') = Some K \/
  ns_reinject r = 0 /\ send_head mpcb' = Some K \/
  ns_reinject r = -1 /\ rtx_queue_head mpcb' = Some K.
Proof.
  intros Hns HK.
  destruct (next_segment_through_clamp _ _ _ _ Hns HK)
    as (m & sk & k & reinject & subtp & _ & Hclamp & Hsrc).
  destruct (next_segment_clamp_result _ _ _ _ _ _ _ _ Hclamp HK)
    as (-> & -> & _ & _ & -> & -> & -> & _).
  exact Hsrc.
Qed.

Lemma split_limit_bounds subtp k mss limit :
  split_limit subtp k mss = Some limit ->
  limit <= skb_len k /\
  limit <= u32 (mss * split_max_segs subtp k) /\
  limit <= u32 (wnd_end subtp - write_seq subtp).
Proof.
  unfold split_limit, tcp_wnd_end.
  destruct (split_max_segs subtp k =? 0); [discriminate |].
  intros [= <-]. destruct (_ <=? 0); lia.
Qed.

(** X16.  The limit [mptcp_next_segment] writes to [*limit] is 0 or the
    size of a split of a segment longer than one MSS, and then never more
    than the length of the segment, than [mss * max_segs] on 32 bits, or
    than the room [wnd_end - write_seq] left in the send window of the
    subflow returned. *)
Theorem next_segment_limit_bounds mpcb mpcb' r K :
  mptcp_next_segment get_subflow mpcb = (mpcb', r) ->
  ns_skb r = Some K ->
  exists sk S,
    ns_subsk r = Some sk /\ conn_list mpcb' !! sk = Some S /\
    (ns_limit r = 0 \/
     mss_now S < skb_len K /\
     ns_limit r <= skb_len K /\
     ns_limit r <= u32 (mss_now S * split_max_segs S K) /\
     ns_limit r <= u32 (wnd_end S - write_seq S)).
Proof.
  intros Hns HK.
  destruct (next_segment_through_clamp _ _ _ _ Hns HK)
    as (m & sk & k & reinject & subtp & Hsub & Hclamp & _).
  destruct (next_segment_clamp_result _ _ _ _ _ _ _ _ Hclamp HK)
    as (-> & _ & Hsk & Hlist & _ & _ & _ & Hlim).
  exists sk, subtp. split; [exact Hsk |]. split; [now rewrite Hlist |].
  destruct Hlim as [[_ Hz] | (Hgt & subtp' & Hsub' & Hsplit)]; [now left |].
  right. assert (subtp' = subtp) by congruence. subst subtp'.
  split; [exact Hgt |]. now apply split_limit_bounds.
Qed.

Lemma next_segment_clamp_null mpcb sk skb reinject mss_now :
  ns_skb (snd (next_segment_clamp mpcb sk skb reinject mss_now)) = None ->
  ns_limit (snd (next_segment_clamp mpcb sk skb reinject mss_now)) = 0.
Proof.
  unfold next_segment_clamp.
  destruct (conn_list mpcb !! sk); [| reflexivity].
  destruct (skb_len skb <=? mss_now); [reflexivity |].
  destruct (split_limit _ skb mss_now); [discriminate | reflexivity].
Qed.

(** X25.  [*limit] is reset on every path that hands out nothing: when
    [mptcp_next_segment] returns no segment, the limit it leaves is 0,
    whatever the scheduler's [get_subflow] does. *)
Theorem next_segment_null_limit mpcb :
  ns_skb (snd (mptcp_next_segment get_subflow mpcb)) = None ->
  ns_limit (snd (mptcp_next_segment get_subflow mpcb)) = 0.
Proof.
  unfold mptcp_next_segment.
  destruct (__mptcp_next_segment get_subflow mpcb) as [[m skb] tag].
  destruct skb as [r|]; [| reflexivity].
  destruct (get_subflow m (Some r) false) as [subsk m1].
  destruct subsk as [sk|]; [| reflexivity].
  destruct (skb_deref m1 r) as [k|]; [| reflexivity].
  destruct (conn_list m1 !! sk) as [subtp|]; [| reflexivity].
  destruct ((tag =? 0) && negb (tcp_snd_wnd_test m1 k (tcp_current_mss subtp))).
  - destruct (mptcp_rcv_buf_optimization _ sk 1) as [m2 [h|]];
      [apply next_segment_clamp_null | reflexivity].
  - apply next_segment_clamp_null.
Qed.

End SegmentMore.

(** ** The registry: lookups, removal, default, binding *)

Section RegistryMore.
Import Registry.
Variable CONFIG_MODULES : bool.
Variable request_module : string -> list mptcp_sched_ops -> list mptcp_sched_ops.
Variable MPTCP_SCHED_NAME_MAX : nat.
Variable module_live : Z -> bool.

Lemma mptcp_sched_find_pos_lookup l nm :
  mptcp_sched_find l nm = mptcp_sched_find_pos l nm ≫= (l !!.).
Proof.
  induction l as [|x rest IH]; simpl; [reflexivity |].
  destruct (strcmp_eq (name x) nm); [reflexivity |].
  rewrite IH. now destruct (mptcp_sched_find_pos rest nm).
Qed.

Lemma mptcp_sched_find_app l1 l2 nm :
  mptcp_sched_find (l1 ++ l2) nm =
  match mptcp_sched_find l1 nm with
  | Some e => Some e
  | None => mptcp_sched_find l2 nm
  end.
Proof.
  induction l1 as [|x rest IH]; simpl; [reflexivity |].
  now destruct (strcmp_eq (name x) nm).
Qed.

(** In a list without two entries of the same name, the lookup of a name
    returns the entry that has it, wherever it is. *)
Lemma mptcp_sched_find_member l e :
  NoDup (name <$> l) -> e ∈ l -> mptcp_sched_find l (name e) = Some e.
Proof.
  induction l as [|x rest IH]; simpl; intros Hnd He; [inversion He |].
  apply NoDup_cons in Hnd as [Hx Hnd]. unfold strcmp_eq.
  destruct (String.eqb_spec (name x) (name e)) as [Heq | Hne].
  - apply elem_of_cons in He as [-> | He]; [reflexivity |].
    exfalso. apply Hx. rewrite Heq. apply list_elem_of_fmap. eauto.
  - apply elem_of_cons in He as [-> | He]; [now contradiction Hne | auto].
Qed.

Lemma mptcp_sched_find_perm l l' nm :
  NoDup (name <$> l) -> l' ≡ₚ l ->
  mptcp_sched_find l' nm = mptcp_sched_find l nm.
Proof.
  intros Hnd Hperm.
  assert (Hnd' : NoDup (name <$> l')) by now rewrite Hperm.
  destruct (mptcp_sched_find l nm) as [e|] eqn:Hl.
  - apply mptcp_sched_find_Some in Hl as [He <-].
    apply mptcp_sched_find_member; [exact Hnd' | now rewrite Hperm].
  - rewrite mptcp_sched_find_None in Hl. apply mptcp_sched_find_None.
    intros e He. apply Hl. now rewrite <- Hperm.
Qed.

(** X17.  Registration keeps the registry in order -- names stay unique
    and every entry has both required functions -- and is seen by the
    lookup: after a successful registration the new name is found, with
    the new entry, and every other name is found as before; a failed
    registration leaves the list as it was. *)
Theorem register_keeps_registry_ok l sched ret l' :
  mptcp_register_scheduler l sched = (ret, l') ->
  registry_ok l ->
  registry_ok l' /\
  (ret = Ok ->
   mptcp_sched_find l' (name sched) = Some sched /\
   forall nm, nm <> name sched ->
     mptcp_sched_find l' nm = mptcp_sched_find l nm) /\
  (ret <> Ok -> l' = l).
Proof.
  unfold mptcp_register_scheduler. intros Hreg [Hnd Hops].
  destruct (Z.eqb_spec (get_subflow sched) 0) as [Hg | Hg]; simpl in Hreg.
  { injection Hreg as <- <-. split; [split; assumption | now split]. }
  destruct (Z.eqb_spec (next_segment sched) 0) as [Hn | Hn]; simpl in Hreg.
  { injection Hreg as <- <-. split; [split; assumption | now split]. }
  destruct (mptcp_sched_find l (name sched)) eqn:Hfind.
  { injection Hreg as <- <-. split; [split; assumption | now split]. }
  injection Hreg as <- <-.
  pose proof (proj1 (mptcp_sched_find_None _ _) Hfind) as Hfresh.
  split; [split |].
  - rewrite fmap_app. apply NoDup_app. split; [exact Hnd |]. split.
    + intros nm Hin Hin'. apply list_elem_of_fmap in Hin as (e & -> & He).
      apply list_elem_of_singleton in Hin'. now apply (Hfresh e).
    + apply NoDup_singleton.
  - intros e He. apply elem_of_app in He as [He | He]; [auto |].
    apply list_elem_of_singleton in He. now subst e.
  - split; [| intros Hc; now contradiction Hc]. intros _. split.
    + rewrite mptcp_sched_find_app, Hfind. simpl. unfold strcmp_eq.
      now rewrite String.eqb_refl.
    + intros nm Hne. rewrite mptcp_sched_find_app.
      destruct (mptcp_sched_find l nm); [reflexivity |]. simpl.
      unfold strcmp_eq.
      destruct (String.eqb_spec (name sched) nm); [congruence | reflexivity].
Qed.

Lemma delete_decompose (l : list mptcp_sched_ops) i e :
  l !! i = Some e ->
  exists l1 l2, l = l1 ++ e :: l2 /\ delete i l = l1 ++ l2.
Proof.
  intros Hi. exists (take i l), (drop (S i) l). split.
  - symmetry. now apply take_drop_middle.
  - apply delete_take_drop.
Qed.

(** X18.  Unregistering the entry at a position of a registry in order
    makes its name unknown and changes no other lookup, and the registry
    stays in order; unregistering the entry that a successful registration
    has just appended gives the list of before. *)
Theorem unregister_scheduler_forgets l i e :
  registry_ok l ->
  l !! i = Some e ->
  mptcp_sched_find (mptcp_unregister_scheduler l i) (name e) = None /\
  (forall nm, nm <> name e ->
     mptcp_sched_find (mptcp_unregister_scheduler l i) nm
     = mptcp_sched_find l nm) /\
  registry_ok (mptcp_unregister_scheduler l i) /\
  (forall sched l', mptcp_register_scheduler l sched = (Ok, l') ->
     mptcp_unregister_scheduler l' (length l) = l).
Proof.
  intros [Hnd Hops] Hi. unfold mptcp_unregister_scheduler.
  destruct (delete_decompose l i e Hi) as (l1 & l2 & -> & ->).
  rewrite fmap_app, fmap_cons in Hnd.
  apply NoDup_app in Hnd as (Hnd1 & Hdisj & Hnd2).
  apply NoDup_cons in Hnd2 as [He2 Hnd2].
  assert (He1 : name e ∉ name <$> l1).
  { intros Hin. apply (Hdisj _ Hin). left. }
  assert (Hnone : forall l0, name e ∉ name <$> l0 ->
                    mptcp_sched_find l0 (name e) = None).
  { intros l0 Hnot. apply mptcp_sched_find_None. intros e' He' Heq.
    apply Hnot. rewrite <- Heq. apply list_elem_of_fmap. eauto. }
  split; [| split; [| split]].
  - rewrite mptcp_sched_find_app, (Hnone l1 He1). now apply Hnone.
  - intros nm Hne. rewrite !mptcp_sched_find_app. simpl. unfold strcmp_eq.
    destruct (String.eqb_spec (name e) nm); [congruence | reflexivity].
  - split.
    + rewrite fmap_app. apply NoDup_app. split; [exact Hnd1 |].
      split; [| exact Hnd2].
      intros nm Hin Hin'. apply (Hdisj _ Hin). now right.
    + intros e' He'. apply Hops.
      apply elem_of_app in He' as [? | ?]; apply elem_of_app; [now left |].
      right. now right.
  - intros sched l' Hreg. unfold mptcp_register_scheduler in Hreg.
    destruct (_ || _); [discriminate |].
    destruct (mptcp_sched_find _ (name sched)); [discriminate |].
    injection Hreg as <-.
    rewrite (delete_middle (l1 ++ e :: l2) [] sched). apply app_nil_r.
Qed.

Lemma mptcp_sched_find_pos_Some l nm p :
  mptcp_sched_find_pos l nm = Some p ->
  exists e, l !! p = Some e /\ mptcp_sched_find l nm = Some e.
Proof.
  intros Hp. pose proof (mptcp_sched_find_pos_lookup l nm) as Hfind.
  rewrite Hp in Hfind. simpl in Hfind.
  revert p Hp Hfind. induction l as [|x rest IH]; simpl; [discriminate |].
  intros p Hp Hfind. destruct (strcmp_eq (name x) nm).
  - injection Hp as <-. eauto.
  - destruct (mptcp_sched_find_pos rest nm) as [q|] eqn:Hq; [| discriminate].
    injection Hp as <-. simpl in *.
    destruct (IH q eq_refl) as (e & He & Hfe).
    { now rewrite mptcp_sched_find_pos_lookup, Hq. }
    exists e. split; [exact He | congruence].
Qed.

Lemma mptcp_sched_find_pos_None l nm :
  mptcp_sched_find_pos l nm = None -> mptcp_sched_find l nm = None.
Proof. intros Hp. now rewrite mptcp_sched_find_pos_lookup, Hp. Qed.

Lemma list_move_spec l p e :
  l !! p = Some e ->
  head (list_move p l) = Some e /\ list_move p l ≡ₚ l.
Proof.
  intros Hp. unfold list_move. rewrite Hp. split; [reflexivity |].
  destruct (delete_decompose l p e Hp) as (l1 & l2 & Hl & ->).
  rewrite Hl. apply Permutation_middle.
Qed.

Lemma registry_ok_perm l l' :
  l' ≡ₚ l -> registry_ok l -> registry_ok l'.
Proof.
  intros Hperm [Hnd Hops]. split; [now rewrite Hperm |].
  intros e He. apply Hops. now rewrite <- Hperm.
Qed.

(** X19.  Setting the default scheduler either fails with [ENOENT], when
    the name is unknown also after the module load that an administrator
    triggers, and then moves nothing; or succeeds, and then the named
    entry is the head of the list, the list has the entries of before in
    another order, and, for a registry in order, every lookup by name
    answers as before.  A module load is requested only for a name that is
    not registered, with [CONFIG_MODULES], by an administrator. *)
Theorem set_default_scheduler_moves_to_head l capable nm ret l' :
  mptcp_set_default_scheduler CONFIG_MODULES request_module l capable nm
  = (ret, l') ->
  exists l0,
    (l0 = l \/
     (CONFIG_MODULES = true /\ capable = true /\
      mptcp_sched_find l nm = None /\ l0 = request_module nm l)) /\
    match ret with
    | Ok =>
        exists e,
          mptcp_sched_find l0 nm = Some e /\
          head l' = Some e /\
          l' ≡ₚ l0 /\
          (registry_ok l0 ->
           registry_ok l' /\
           forall nm', mptcp_sched_find l' nm' = mptcp_sched_find l0 nm')
    | Err c => c = ENOENT /\ l' = l0 /\ mptcp_sched_find l0 nm = None
    end.
Proof.
  unfold mptcp_set_default_scheduler. intros Hset.
  assert (Hmove : forall l0 p, mptcp_sched_find_pos l0 nm = Some p ->
            exists e, mptcp_sched_find l0 nm = Some e /\
              head (list_move p l0) = Some e /\ list_move p l0 ≡ₚ l0 /\
              (registry_ok l0 ->
               registry_ok (list_move p l0) /\
               forall nm', mptcp_sched_find (list_move p l0) nm'
                           = mptcp_sched_find l0 nm')).
  { intros l0 p Hp. apply mptcp_sched_find_pos_Some in Hp as (e & He & Hfe).
    destruct (list_move_spec l0 p e He) as [Hhd Hperm].
    exists e. split; [exact Hfe |]. split; [exact Hhd |].
    split; [exact Hperm |]. intros Hok.
    split; [now apply (registry_ok_perm l0) |].
    intros nm'. apply mptcp_sched_find_perm; [apply Hok | exact Hperm]. }
  destruct (mptcp_sched_find_pos l nm) as [p|] eqn:Hp.
  { injection Hset as <- <-. exists l. split; [now left | auto]. }
  apply mptcp_sched_find_pos_None in Hp.
  destruct CONFIG_MODULES, capable; simpl in Hset;
    try (injection Hset as <- <-; exists l; split; [now left | now auto]).
  destruct (mptcp_sched_find_pos (request_module nm l) nm) as [q|] eqn:Hq;
    injection Hset as <- <-; exists (request_module nm l);
    (split; [right; now auto |]); [now apply Hmove |].
  apply mptcp_sched_find_pos_None in Hq. auto.
Qed.

Lemma length_list_ascii_of_string s :
  length (String.list_ascii_of_string s) = String.length s.
Proof. induction s; simpl; congruence. Qed.

(** X20.  After the default scheduler has been set, reading it back
    writes [MPTCP_SCHED_NAME_MAX] bytes: the name that was set, followed
    by NULs when it is shorter than that, and only its first
    [MPTCP_SCHED_NAME_MAX] characters, with no NUL after them, when it is
    not. *)
Theorem get_default_scheduler_after_set l capable nm l' :
  mptcp_set_default_scheduler CONFIG_MODULES request_module l capable nm
  = (Ok, l') ->
  exists buf,
    mptcp_get_default_scheduler MPTCP_SCHED_NAME_MAX l' = Some buf /\
    length buf = MPTCP_SCHED_NAME_MAX /\
    ((String.length nm < MPTCP_SCHED_NAME_MAX)%nat ->
     buf = String.list_ascii_of_string nm
           ++ replicate (MPTCP_SCHED_NAME_MAX - String.length nm)%nat Ascii.zero)
    /\
    ((MPTCP_SCHED_NAME_MAX <= String.length nm)%nat ->
     buf = take MPTCP_SCHED_NAME_MAX (String.list_ascii_of_string nm)).
Proof.
  intros Hset.
  assert (Hhead : exists e rest, l' = e :: rest /\ name e = nm).
  { unfold mptcp_set_default_scheduler in Hset.
    assert (Hmove : forall l0 p, mptcp_sched_find_pos l0 nm = Some p ->
              exists e rest, list_move p l0 = e :: rest /\ name e = nm).
    { intros l0 p Hp. apply mptcp_sched_find_pos_Some in Hp as (e & He & Hfe).
      apply mptcp_sched_find_Some in Hfe as [_ Hname].
      unfold list_move. rewrite He. eauto. }
    destruct (mptcp_sched_find_pos l nm) as [p|] eqn:Hp.
    { injection Hset as <-. eauto. }
    destruct (CONFIG_MODULES && capable); [| discriminate].
    destruct (mptcp_sched_find_pos (request_module nm l) nm) as [q|] eqn:Hq;
      [| discriminate].
    injection Hset as <-. eauto. }
  destruct Hhead as (e & rest & -> & <-). simpl.
  exists (strncpy MPTCP_SCHED_NAME_MAX (name e)). unfold strncpy.
  pose proof (length_list_ascii_of_string (name e)) as Hlen.
  split; [reflexivity |]. split; [| split].
  - rewrite length_take, length_app, length_replicate. lia.
  - intros Hshort. rewrite take_app_ge by lia.
    rewrite take_replicate, Hlen. f_equal. f_equal. lia.
  - intros Hlong. now rewrite take_app_le by lia.
Qed.

(** The loop of [mptcp_init_scheduler] stops at the first entry whose
    module is live and takes one reference on it; it takes none when no
    entry is live. *)
Lemma first_module_get_spec l refs :
  (exists i e,
     l !! i = Some e /\ module_live (owner e) = true /\
     (forall j e', (j < i)%nat -> l !! j = Some e' ->
        module_live (owner e') = false) /\
     first_module_get module_live l refs
     = (Some e, fun o => if o =? owner e then S (refs o) else refs o))
  \/
  ((forall e, e ∈ l -> module_live (owner e) = false) /\
   first_module_get module_live l refs = (None, refs)).
Proof.
  induction l as [|x rest IH]; simpl.
  { right. split; [intros e He; inversion He | reflexivity]. }
  unfold try_module_get. destruct (module_live (owner x)) eqn:Hx.
  - left. exists 0%nat, x. repeat split; try assumption. intros j e' Hj. lia.
  - destruct IH as [(i & e & Hi & He & Hbefore & Hget) | [Hnone Hget]].
    + left. exists (S i), e. repeat split; try assumption.
      intros [|j] e' Hj Hl; simpl in Hl; [congruence |].
      apply (Hbefore j); [lia | exact Hl].
    + right. split; [| exact Hget].
      intros e He. apply elem_of_cons in He as [-> | He]; auto.
Qed.

Lemma find_autoload_member l capable nm e l1 :
  __mptcp_sched_find_autoload CONFIG_MODULES request_module l capable nm
  = (Some e, l1) ->
  e ∈ l1 /\ name e = nm.
Proof.
  unfold __mptcp_sched_find_autoload. intros Hfind.
  destruct (mptcp_sched_find l nm) as [e0|] eqn:Hl.
  { injection Hfind as <- <-. now apply mptcp_sched_find_Some. }
  destruct (CONFIG_MODULES && capable); [| discriminate].
  injection Hfind as Hfind <-. now apply mptcp_sched_find_Some.
Qed.

(** X21.  Binding a scheduler to a connection has two outcomes.  Either a
    scheduler is bound: it is an entry of the registry whose module is
    live, and exactly one reference has been taken, on its owner.  Or no
    registered scheduler has a live module: the connection keeps what it
    had and no reference is taken.  A module whose reference cannot be
    taken is never bound. *)
Theorem init_scheduler_binds_live l capable sk sched_ops refs :
  let '(sched_ops', l', refs') :=
    mptcp_init_scheduler CONFIG_MODULES request_module module_live
      l capable sk sched_ops refs in
  (exists e,
     sched_ops' = Some e /\ e ∈ l' /\ module_live (owner e) = true /\
     forall o, refs' o = if o =? owner e then S (refs o) else refs o)
  \/
  (sched_ops' = sched_ops /\ refs' = refs /\
   forall e, e ∈ l' -> module_live (owner e) = false).
Proof.
  assert (Hloop : forall l1,
    let '(sched_ops', l', refs') :=
      match first_module_get module_live l1 refs with
      | (Some e, refs') => (Some e, l1, refs')
      | (None, refs') => (sched_ops, l1, refs')
      end in
    (exists e,
       sched_ops' = Some e /\ e ∈ l' /\ module_live (owner e) = true /\
       forall o, refs' o = if o =? owner e then S (refs o) else refs o)
    \/
    (sched_ops' = sched_ops /\ refs' = refs /\
     forall e, e ∈ l' -> module_live (owner e) = false)).
  { intros l1.
    destruct (first_module_get_spec l1 refs)
      as [(i & e & Hi & He & _ & ->) | [Hnone ->]].
    - left. exists e. repeat split; try assumption.
      now apply list_elem_of_lookup_2 in Hi.
    - right. auto. }
  unfold mptcp_init_scheduler.
  destruct (mptcp_sched_setsockopt sk); [| apply Hloop].
  destruct (__mptcp_sched_find_autoload _ _ l capable (mptcp_sched_name sk))
    as [[e|] l1] eqn:Hfind; [| apply Hloop].
  unfold try_module_get. destruct (module_live (owner e)) eqn:He;
    [| apply Hloop].
  left. exists e. apply find_autoload_member in Hfind as [Hin _].
  repeat split; assumption.
Qed.

(** X22.  Which scheduler is bound.  A connection whose socket option
    names a registered scheduler with a live module gets that one,
    wherever it stands in the list.  A connection without the socket
    option gets the first entry of the list whose module is live, so the
    default at the head when its module is live, and the list is not
    touched: no module is loaded. *)
Theorem init_scheduler_choice l capable sk sched_ops refs :
  (mptcp_sched_setsockopt sk = true ->
   forall e, mptcp_sched_find l (mptcp_sched_name sk) = Some e ->
     module_live (owner e) = true ->
     (mptcp_init_scheduler CONFIG_MODULES request_module module_live
        l capable sk sched_ops refs).1 = (Some e, l)) /\
  (mptcp_sched_setsockopt sk = false ->
   forall i e, l !! i = Some e ->
     module_live (owner e) = true ->
     (forall j e', (j < i)%nat -> l !! j = Some e' ->
        module_live (owner e') = false) ->
     (mptcp_init_scheduler CONFIG_MODULES request_module module_live
        l capable sk sched_ops refs).1 = (Some e, l)).
Proof.
  unfold mptcp_init_scheduler. split; intros ->.
  - intros e Hfind He. unfold __mptcp_sched_find_autoload, try_module_get.
    now rewrite Hfind, He.
  - intros i e Hi He Hbefore.
    destruct (first_module_get_spec l refs)
      as [(i' & e' & Hi' & He' & Hbefore' & ->) | [Hnone ->]].
    + simpl. destruct (Nat.lt_trichotomy i i') as [Hlt | [-> | Hgt]].
      * rewrite (Hbefore' i e Hlt Hi) in He. discriminate.
      * congruence.
      * rewrite (Hbefore i' e' Hgt Hi') in He'. discriminate.
    + apply list_elem_of_lookup_2 in Hi. rewrite (Hnone e Hi) in He.
      discriminate.
Qed.

(** The references after binding: one more on the owner of the scheduler
    that was bound, none when the connection keeps what it had. *)
Lemma init_scheduler_refs l capable sk sched_ops refs :
  let '(sched_ops', _, refs') :=
    mptcp_init_scheduler CONFIG_MODULES request_module module_live
      l capable sk sched_ops refs in
  (exists e, sched_ops' = Some e /\
     forall o, refs' o = if o =? owner e then S (refs o) else refs o)
  \/ (sched_ops' = sched_ops /\ refs' = refs).
Proof.
  assert (Hloop : forall l1,
    let '(sched_ops', _, refs') :=
      match first_module_get module_live l1 refs with
      | (Some e, refs') => (Some e, l1, refs')
      | (None, refs') => (sched_ops, l1, refs')
      end in
    (exists e, sched_ops' = Some e /\
       forall o, refs' o = if o =? owner e then S (refs o) else refs o)
    \/ (sched_ops' = sched_ops /\ refs' = refs)).
  { intros l1.
    destruct (first_module_get_spec l1 refs)
      as [(i & e & _ & _ & _ & ->) | [_ ->]]; [left | right]; eauto. }
  unfold mptcp_init_scheduler.
  destruct (mptcp_sched_setsockopt sk); [| apply Hloop].
  destruct (__mptcp_sched_find_autoload _ _ l capable (mptcp_sched_name sk))
    as [[e|] l1]; [| apply Hloop].
  unfold try_module_get. destruct (module_live (owner e)); [| apply Hloop].
  left. eauto.
Qed.

(** X23.  Binding a scheduler to a connection that has none and then
    unbinding it leaves every reference count as it was: the reference
    that [mptcp_init_scheduler] takes on the owner of the scheduler it
    binds is the one that [mptcp_cleanup_scheduler] drops. *)
Theorem init_then_cleanup_restores_refs l capable sk refs e l' refs' :
  mptcp_init_scheduler CONFIG_MODULES request_module module_live
    l capable sk None refs = (Some e, l', refs') ->
  forall o, mptcp_cleanup_scheduler (Some e) refs' o = refs o.
Proof.
  intros Hinit o.
  pose proof (init_scheduler_refs l capable sk None refs) as Hb.
  rewrite Hinit in Hb.
  destruct Hb as [(e0 & [= <-] & Hrefs) | [Hnone _]]; [| discriminate].
  simpl. unfold module_put. rewrite Hrefs.
  now destruct (o =? owner e).
Qed.

(** X24.  A scheduler chosen with the socket option is the one the
    connection gets: after [mptcp_set_scheduler] has succeeded, and as
    long as the registry is the same, [mptcp_init_scheduler] binds the
    entry registered under the chosen name if its module is live. *)
Theorem set_scheduler_then_init
    l capable ns_capable sk nm sk' l1 capable' sched_ops refs :
  mptcp_set_scheduler CONFIG_MODULES request_module
    l capable ns_capable sk nm = (Ok, sk', l1) ->
  exists e,
    mptcp_sched_find l1 nm = Some e /\
    (module_live (owner e) = true ->
     (mptcp_init_scheduler CONFIG_MODULES request_module module_live
        l1 capable' sk' sched_ops refs).1 = (Some e, l1)).
Proof.
  unfold mptcp_set_scheduler. intros Hset.
  destruct (__mptcp_sched_find_autoload _ _ l capable nm)
    as [[e|] l0] eqn:Hfind; [| discriminate].
  destruct ns_capable; [| discriminate]. simpl in Hset.
  injection Hset as <- <-.
  assert (Hl0 : mptcp_sched_find l0 nm = Some e).
  { unfold __mptcp_sched_find_autoload in Hfind.
    destruct (mptcp_sched_find l nm) eqn:Hl.
    - injection Hfind as <- <-. exact Hl.
    - destruct (CONFIG_MODULES && capable); [| discriminate].
      now injection Hfind as Hfind <-. }
  exists e. split; [exact Hl0 |]. intros He.
  unfold mptcp_init_scheduler, __mptcp_sched_find_autoload, try_module_get.
  simpl. now rewrite Hl0, He.
Qed.

End RegistryMore.

(** ** Instances of the further properties *)

(** X1, an instance: over three subflows that have not carried the
    segment, the selector returns the second one, with [force] set. *)
Lemma selector_force_marks_fresh_witness :
  get_subflow_from_selectors sample_three_subs (Some (sample_skb 0 500 0))
    subflow_is_active false
  = (Some 1%nat, true, [0%nat; 1%nat; 2%nat]) /\
  exists T,
    sample_three_subs !! 1%nat = Some T /\
    true = negb (mptcp_dont_reinject_skb T (Some (sample_skb 0 500 0))) /\
    (true = true <->
     exists j U, sample_three_subs !! j = Some U /\
       subflow_is_active U = true /\
       mptcp_dont_reinject_skb U (Some (sample_skb 0 500 0)) = false /\
       mptcp_is_def_unavailable U = false /\
       mptcp_is_temp_unavailable U (Some (sample_skb 0 500 0)) false = false)
    /\
    srtt_us T < U32_MAX.
Proof.
  assert (Hrun :
    get_subflow_from_selectors sample_three_subs (Some (sample_skb 0 500 0))
      subflow_is_active false
    = (Some 1%nat, true, [0%nat; 1%nat; 2%nat])) by (vm_compute; reflexivity).
  split; [exact Hrun |].
  exact (selector_force_marks_fresh sample_three_subs
           (Some (sample_skb 0 500 0)) subflow_is_active false
           1%nat true [0%nat; 1%nat; 2%nat] Hrun).
Defined.

(** X2, an instance: the only active subflow has a full congestion window
    and has not carried the segment; the selector returns nothing, with
    [force] set. *)
Lemma selector_null_force_witness :
  get_subflow_from_selectors
    [sample_busy_sock 1 10000; sample_backup_sock 2 20000]
    (Some (sample_skb 0 500 0)) subflow_is_active false
  = (None, true, [0%nat; 1%nat]) /\
  (true = true <->
   exists j U,
     [sample_busy_sock 1 10000; sample_backup_sock 2 20000] !! j = Some U /\
     subflow_is_active U = true /\
     mptcp_dont_reinject_skb U (Some (sample_skb 0 500 0)) = false /\
     mptcp_is_def_unavailable U = false /\
     mptcp_is_temp_unavailable U (Some (sample_skb 0 500 0)) false = true).
Proof.
  assert (Hrun :
    get_subflow_from_selectors
      [sample_busy_sock 1 10000; sample_backup_sock 2 20000]
      (Some (sample_skb 0 500 0)) subflow_is_active false
    = (None, true, [0%nat; 1%nat])) by (vm_compute; reflexivity).
  split; [exact Hrun |].
  exact (proj1 (selector_null_force
                  [sample_busy_sock 1 10000; sample_backup_sock 2 20000]
                  (Some (sample_skb 0 500 0)) subflow_is_active false
                  true [0%nat; 1%nat] Hrun)).
Defined.

(** X5, an instance: the only subflow has carried the segment already;
    the entry point clears the path mask and returns that subflow. *)
Lemma get_available_subflow_path_mask_witness :
  get_available_subflow
    (sample_cb [sample_sock 1 10000 10 10] None None 0)
    (Some (sample_skb 0 500 (pi_to_flag 1))) false
  = (Some 0%nat, Some (sample_skb 0 500 0)) /\
  (Some (sample_skb 0 500 0) = Some (sample_skb 0 500 (pi_to_flag 1)) \/
   exists k, Some (sample_skb 0 500 (pi_to_flag 1)) = Some k /\
     Some (sample_skb 0 500 0) = Some (set_path_mask 0 k)).
Proof.
  assert (Hrun :
    get_available_subflow
      (sample_cb [sample_sock 1 10000 10 10] None None 0)
      (Some (sample_skb 0 500 (pi_to_flag 1))) false
    = (Some 0%nat, Some (sample_skb 0 500 0))) by (vm_compute; reflexivity).
  split; [exact Hrun |].
  exact (proj1 (get_available_subflow_path_mask
                  (sample_cb [sample_sock 1 10000 10 10] None None 0)
                  (Some (sample_skb 0 500 (pi_to_flag 1))) false
                  (Some 0%nat) (Some (sample_skb 0 500 0)) Hrun)).
Defined.

(** X6, an instance: the DATA_FIN goes to the subflow of path index 2,
    at position 1, although position 2 has the same smoothed RTT. *)
Lemma data_fin_same_subflow_witness :
  get_available_subflow sample_shutdown_cb (Some sample_data_fin) false
  = (Some 1%nat, Some sample_data_fin).
Proof.
  apply (data_fin_same_subflow sample_shutdown_cb sample_data_fin false
           1%nat (sample_sock 2 10000 10 10));
    try (vm_compute; reflexivity).
  intros [|[|[|j]]] U HU Hpi; try reflexivity;
    vm_compute in HU; try discriminate;
    injection HU as <-; vm_compute in Hpi; discriminate.
Defined.

(** X7, an instance: with a faster backup subflow first in the list, the
    active subflow is chosen. *)
Lemma active_subflow_preferred_witness :
  exists i T,
    get_available_subflow
      (sample_cb [sample_backup_sock 1 5000; sample_sock 2 20000 10 10]
         None None 0)
      (Some (sample_skb 0 500 0)) false
    = (Some i, Some (sample_skb 0 500 0)) /\
    [sample_backup_sock 1 5000; sample_sock 2 20000 10 10] !! i = Some T /\
    subflow_is_active T = true /\
    mptcp_dont_reinject_skb T (Some (sample_skb 0 500 0)) = false /\
    srtt_us T <= 20000.
Proof.
  apply (active_subflow_preferred
           (sample_cb [sample_backup_sock 1 5000; sample_sock 2 20000 10 10]
              None None 0)
           (Some (sample_skb 0 500 0)) false 1%nat
           (sample_sock 2 20000 10 10));
    vm_compute; reflexivity.
Defined.

(** X8, an instance: the active subflow has a full congestion window and
    has not carried the segment; the available backup subflow is not
    used and the entry point returns nothing. *)
Lemma active_subflow_awaited_witness :
  get_available_subflow
    (sample_cb [sample_busy_sock 1 10000; sample_backup_sock 2 20000]
       None None 0)
    (Some (sample_skb 0 500 0)) false
  = (None, Some (sample_skb 0 500 0)).
Proof.
  apply (active_subflow_awaited
           (sample_cb [sample_busy_sock 1 10000; sample_backup_sock 2 20000]
              None None 0)
           (Some (sample_skb 0 500 0)) false 0%nat
           (sample_busy_sock 1 10000)).
  - vm_compute. reflexivity.
  - intros [|[|j]] U HU Hact; simpl in HU; try discriminate;
      injection HU as <-; [vm_compute; reflexivity |].
    vm_compute in Hact. discriminate.
  - reflexivity.
  - vm_compute. reflexivity.
  - vm_compute. reflexivity.
  - vm_compute. reflexivity.
Defined.

(** X9, an instance: a penalising call changes the windows of the carrier
    at position 1 only, and keeps the number of subflows. *)
Lemma rcv_buf_opt_frame_witness :
  length (conn_list (fst (mptcp_rcv_buf_optimization sample_slow_cb 0 1)))
  = length (conn_list sample_slow_cb) /\
  exists T',
    conn_list (fst (mptcp_rcv_buf_optimization sample_slow_cb 0 1)) !! 1%nat
    = Some T' /\
    same_but_windows (sample_sock 2 160000 10 10) T' /\
    (1%nat = 0%nat ->
     snd_cwnd T' = snd_cwnd (sample_sock 2 160000 10 10) /\
     snd_ssthresh T' = snd_ssthresh (sample_sock 2 160000 10 10) /\
     (last_rbuf_opti T' = last_rbuf_opti (sample_sock 2 160000 10 10) \/
      last_rbuf_opti T' = tcp_jiffies32 sample_slow_cb)) /\
    (1%nat <> 0%nat ->
     last_rbuf_opti T' = last_rbuf_opti (sample_sock 2 160000 10 10)).
Proof.
  apply (rcv_buf_opt_frame sample_slow_cb 0 1 1 (sample_sock 2 160000 10 10)).
  reflexivity.
Defined.

(** X10, an instance: the penalised carrier comes out with a window of 5
    and a threshold of 5, within the bounds. *)
Lemma rcv_buf_opt_keeps_windows_sane_witness :
  1 <= snd_cwnd (sample_sock 2 160000 5 5) /\
  2 <= snd_ssthresh (sample_sock 2 160000 5 5) /\
  exists T, conn_list sample_slow_cb !! 1%nat = Some T /\
    snd_cwnd (sample_sock 2 160000 5 5) <= snd_cwnd T /\
    snd_ssthresh (sample_sock 2 160000 5 5) <= snd_ssthresh T.
Proof.
  apply (rcv_buf_opt_keeps_windows_sane sample_slow_cb 0 1).
  - intros [|[|j]] T HT; vm_compute in HT; try discriminate;
      injection HT as <-; vm_compute; split; discriminate.
  - vm_compute. reflexivity.
Defined.

(** X11, an instance: 5 ms after a penalising call made for a subflow
    with a smoothed RTT of 10 ms, a second call changes nothing. *)
Lemma penalization_rate_limited_witness :
  fst (mptcp_rcv_buf_optimization
         (at_time 1005 (fst (mptcp_rcv_buf_optimization sample_slow_cb 0 1)))
         0 1)
  = at_time 1005 (fst (mptcp_rcv_buf_optimization sample_slow_cb 0 1)).
Proof.
  apply (penalization_rate_limited sample_slow_cb 0
           (sample_sock 1 80000 10 10) sample_head 1 1
           (sample_sock 2 160000 10 10) 1005 1);
    vm_compute; reflexivity.
Defined.

(** X12, an instance: 5 ms after [defsched_init], a call for a subflow
    with a smoothed RTT of 10 ms changes nothing. *)
Lemma defsched_init_starts_rate_limit_witness :
  fst (mptcp_rcv_buf_optimization
         (at_time 1005 (defsched_init sample_slow_cb 0)) 0 1)
  = at_time 1005 (defsched_init sample_slow_cb 0).
Proof.
  apply (defsched_init_starts_rate_limit sample_slow_cb 0
           (sample_sock 1 80000 10 10) 1005 1).
  - reflexivity.
  - vm_compute. reflexivity.
Defined.

(** X13, an instance: the head segment went out on the sending subflow
    only; the call changes nothing and proposes nothing. *)
Lemma no_other_carrier_no_reinjection_witness :
  mptcp_rcv_buf_optimization
    (sample_cb (sample_two_subs 10 10) None
       (Some (sample_skb 0 500 (pi_to_flag 1))) 1000) 0 1
  = (sample_cb (sample_two_subs 10 10) None
       (Some (sample_skb 0 500 (pi_to_flag 1))) 1000, None).
Proof.
  apply (no_other_carrier_no_reinjection
           (sample_cb (sample_two_subs 10 10) None
              (Some (sample_skb 0 500 (pi_to_flag 1))) 1000) 0 1
           (sample_skb 0 500 (pi_to_flag 1))).
  - reflexivity.
  - intros [|[|j]] T HT Hne; [now contradiction Hne | |];
      vm_compute in HT; [| discriminate].
    injection HT as <-. vm_compute. reflexivity.
Defined.

(** X14, an instance: with an empty reinject queue and a segment at the
    send head, the send head is chosen, with tag 0, and it is there. *)
Lemma next_segment_source_witness :
  __mptcp_next_segment default_get_subflow
    (sample_cb [sample_sock 1 10000 10 10] (Some (sample_skb 0 3000 0))
       None 0)
  = (sample_cb [sample_sock 1 10000 10 10] (Some (sample_skb 0 3000 0))
       None 0,
     Some SendHead, 0) /\
  is_Some (skb_deref
             (sample_cb [sample_sock 1 10000 10 10]
                (Some (sample_skb 0 3000 0)) None 0) SendHead) /\
  (SendHead = ReinjectHead /\ 0 = 1 \/ SendHead = SendHead /\ 0 = 0 \/
   SendHead = RtxHead /\ 0 = -1).
Proof.
  assert (Hrun :
    __mptcp_next_segment default_get_subflow
      (sample_cb [sample_sock 1 10000 10 10] (Some (sample_skb 0 3000 0))
         None 0)
    = (sample_cb [sample_sock 1 10000 10 10] (Some (sample_skb 0 3000 0))
         None 0,
       Some SendHead, 0)) by (vm_compute; reflexivity).
  split; [exact Hrun |].
  exact (proj1 (proj2 (proj2 (next_segment_source default_get_subflow
                                _ _ _ _ Hrun))) SendHead eq_refl).
Defined.

(** X15, an instance: the segment handed out with tag 0 is the head of
    the send queue. *)
Lemma next_segment_reinject_tag_witness :
  exists mpcb' r,
    mptcp_next_segment default_get_subflow
      (sample_cb [sample_sock 1 10000 10 10] (Some (sample_skb 0 3000 0))
         None 0)
    = (mpcb', r) /\
    ns_skb r = Some (sample_skb 0 3000 0) /\
    (ns_reinject r = 1 /\
     head (reinject_queue mpcb') = Some (sample_skb 0 3000 0) \/
     ns_reinject r = 0 /\ send_head mpcb' = Some (sample_skb 0 3000 0) \/
     ns_reinject r = -1 /\
     rtx_queue_head mpcb' = Some (sample_skb 0 3000 0)).
Proof.
  eexists _, _. split; [vm_compute; reflexivity |].
  split; [reflexivity |].
  apply (next_segment_reinject_tag default_get_subflow
           (sample_cb [sample_sock 1 10000 10 10]
              (Some (sample_skb 0 3000 0)) None 0));
    vm_compute; reflexivity.
Defined.

(** X16, an instance: a segment of 3000 bytes handed to a subflow with an
    MSS of 1000 gets a limit within the bounds. *)
Lemma next_segment_limit_bounds_witness :
  exists mpcb' r,
    mptcp_next_segment default_get_subflow
      (sample_cb [sample_sock 1 10000 10 10] (Some (sample_skb 0 3000 0))
         None 0)
    = (mpcb', r) /\
    exists sk S,
      ns_subsk r = Some sk /\ conn_list mpcb' !! sk = Some S /\
      (ns_limit r = 0 \/
       mss_now S < skb_len (sample_skb 0 3000 0) /\
       ns_limit r <= skb_len (sample_skb 0 3000 0) /\
       ns_limit r <= u32 (mss_now S * split_max_segs S (sample_skb 0 3000 0))
       /\
       ns_limit r <= u32 (wnd_end S - write_seq S)).
Proof.
  eexists _, _. split; [vm_compute; reflexivity |].
  apply (next_segment_limit_bounds default_get_subflow
           (sample_cb [sample_sock 1 10000 10 10]
              (Some (sample_skb 0 3000 0)) None 0));
    vm_compute; reflexivity.
Defined.

(** X25, an instance: the only subflow has a full congestion window, so
    no segment is handed out, and the limit is 0. *)
Lemma next_segment_null_limit_witness :
  ns_limit (snd (mptcp_next_segment default_get_subflow
                   (sample_cb [sample_busy_sock 1 10000]
                      (Some (sample_skb 0 3000 0)) None 0))) = 0.
Proof.
  apply (next_segment_null_limit default_get_subflow
           (sample_cb [sample_busy_sock 1 10000]
              (Some (sample_skb 0 3000 0)) None 0)).
  vm_compute. reflexivity.
Defined.

Lemma sample_registry_ok : registry_ok sample_registry.
Proof.
  split.
  - apply (bool_decide_unpack _). vm_compute. reflexivity.
  - intros e He. unfold sample_registry in He.
    repeat (apply elem_of_cons in He as [-> | He]); [| | |inversion He];
      split; discriminate.
Qed.

(** X17, an instance: a fourth scheduler is registered; it is found under
    its name and the registry stays in order. *)
Lemma register_keeps_registry_ok_witness :
  registry_ok (sample_registry ++ [sample_owned_sched "blest" 10]) /\
  (Registry.Ok = Registry.Ok ->
   Registry.mptcp_sched_find
     (sample_registry ++ [sample_owned_sched "blest" 10])
     (Registry.name (sample_owned_sched "blest" 10))
   = Some (sample_owned_sched "blest" 10) /\
   forall nm, nm <> Registry.name (sample_owned_sched "blest" 10) ->
     Registry.mptcp_sched_find
       (sample_registry ++ [sample_owned_sched "blest" 10]) nm
     = Registry.mptcp_sched_find sample_registry nm) /\
  (Registry.Ok <> Registry.Ok ->
   sample_registry ++ [sample_owned_sched "blest" 10] = sample_registry).
Proof.
  apply (register_keeps_registry_ok sample_registry
           (sample_owned_sched "blest" 10) Registry.Ok
           (sample_registry ++ [sample_owned_sched "blest" 10])).
  - vm_compute. reflexivity.
  - exact sample_registry_ok.
Defined.

(** X18, an instance: once the second scheduler is unregistered its name
    is unknown. *)
Lemma unregister_scheduler_forgets_witness :
  Registry.mptcp_sched_find
    (Registry.mptcp_unregister_scheduler sample_registry 1)
    (Registry.name (sample_owned_sched "redundant" 8)) = None.
Proof.
  apply (unregister_scheduler_forgets sample_registry 1
           (sample_owned_sched "redundant" 8)).
  - exact sample_registry_ok.
  - reflexivity.
Defined.

(** X19, an instance: "roundrobin" is made the default without any module
    load; it moves from the third place to the head. *)
Lemma set_default_scheduler_moves_to_head_witness :
  Registry.mptcp_set_default_scheduler true sample_no_module
    sample_registry false "roundrobin"
  = (Registry.Ok,
     [sample_owned_sched "roundrobin" 9; sample_owned_sched "default" 7;
      sample_owned_sched "redundant" 8]) /\
  exists l0,
    (l0 = sample_registry \/
     (true = true /\ false = true /\
      Registry.mptcp_sched_find sample_registry "roundrobin" = None /\
      l0 = sample_no_module "roundrobin" sample_registry)) /\
    exists e,
      Registry.mptcp_sched_find l0 "roundrobin" = Some e /\
      head [sample_owned_sched "roundrobin" 9; sample_owned_sched "default" 7;
            sample_owned_sched "redundant" 8] = Some e /\
      [sample_owned_sched "roundrobin" 9; sample_owned_sched "default" 7;
       sample_owned_sched "redundant" 8] ≡ₚ l0 /\
      (registry_ok l0 ->
       registry_ok
         [sample_owned_sched "roundrobin" 9; sample_owned_sched "default" 7;
          sample_owned_sched "redundant" 8] /\
       forall nm',
         Registry.mptcp_sched_find
           [sample_owned_sched "roundrobin" 9; sample_owned_sched "default" 7;
            sample_owned_sched "redundant" 8] nm'
         = Registry.mptcp_sched_find l0 nm').
Proof.
  assert (Hrun :
    Registry.mptcp_set_default_scheduler true sample_no_module
      sample_registry false "roundrobin"
    = (Registry.Ok,
       [sample_owned_sched "roundrobin" 9; sample_owned_sched "default" 7;
        sample_owned_sched "redundant" 8])) by (vm_compute; reflexivity).
  split; [exact Hrun |].
  exact (set_default_scheduler_moves_to_head true sample_no_module
           sample_registry false "roundrobin" Registry.Ok _ Hrun).
Defined.

(** X20, an instance: with room for 16 bytes, the default "roundrobin" is
    read back as its ten characters and six NULs. *)
Lemma get_default_scheduler_after_set_witness :
  exists buf,
    Registry.mptcp_get_default_scheduler 16
      [sample_owned_sched "roundrobin" 9; sample_owned_sched "default" 7;
       sample_owned_sched "redundant" 8] = Some buf /\
    length buf = 16%nat /\
    ((String.length "roundrobin" < 16)%nat ->
     buf = String.list_ascii_of_string "roundrobin"
           ++ replicate (16 - String.length "roundrobin")%nat Ascii.zero) /\
    ((16 <= String.length "roundrobin")%nat ->
     buf = take 16 (String.list_ascii_of_string "roundrobin")).
Proof.
  apply (get_default_scheduler_after_set true sample_no_module 16
           sample_registry false "roundrobin"
           [sample_owned_sched "roundrobin" 9; sample_owned_sched "default" 7;
            sample_owned_sched "redundant" 8]).
  vm_compute. reflexivity.
Defined.

(** X22, instances: the socket that chose "roundrobin" gets it; a socket
    without a choice gets "redundant", the first scheduler whose module is
    live. *)
Lemma init_scheduler_choice_witness :
  (Registry.mptcp_init_scheduler true sample_no_module sample_live
     sample_registry false sample_chosen None sample_refs).1
  = (Some (sample_owned_sched "roundrobin" 9), sample_registry) /\
  (Registry.mptcp_init_scheduler true sample_no_module sample_live
     sample_registry false sample_sockopt None sample_refs).1
  = (Some (sample_owned_sched "redundant" 8), sample_registry).
Proof.
  split.
  - apply (proj1 (init_scheduler_choice true sample_no_module sample_live
                    sample_registry false sample_chosen None sample_refs));
      reflexivity.
  - apply (proj2 (init_scheduler_choice true sample_no_module sample_live
                    sample_registry false sample_sockopt None sample_refs)
             eq_refl 1%nat); try reflexivity.
    intros [|j] e' Hj He'; [| lia]. injection He' as <-. reflexivity.
Defined.

(** X23, an instance: after binding and unbinding, the module 8 has no
    reference, as before. *)
Lemma init_then_cleanup_restores_refs_witness :
  exists e l' refs',
    Registry.mptcp_init_scheduler true sample_no_module sample_live
      sample_registry false sample_sockopt None sample_refs
    = (Some e, l', refs') /\
    refs' 8 = 1%nat /\
    Registry.mptcp_cleanup_scheduler (Some e) refs' 8 = sample_refs 8.
Proof.
  eexists _, _, _. split; [vm_compute; reflexivity |].
  split; [reflexivity |].
  eapply (init_then_cleanup_restores_refs true sample_no_module sample_live
            sample_registry false sample_sockopt sample_refs).
  vm_compute. reflexivity.
Defined.

(** X24, an instance: a privileged caller chooses "roundrobin", and the
    connection gets it. *)
Lemma set_scheduler_then_init_witness :
  exists e,
    Registry.mptcp_sched_find sample_registry "roundrobin" = Some e /\
    (sample_live (Registry.owner e) = true ->
     (Registry.mptcp_init_scheduler true sample_no_module sample_live
        sample_registry false sample_chosen None sample_refs).1
     = (Some e, sample_registry)).
Proof.
  apply (set_scheduler_then_init true sample_no_module sample_live
           sample_registry false true sample_sockopt "roundrobin"
           sample_chosen sample_registry false None sample_refs).
  vm_compute. reflexivity.
Defined.
